(** * Data Dictionary Editor: view/edit reconciliation engine

    A shallow embedding of [src/app.py]: the two projection builders
    ([make_tables_view], [make_columns_view]), the master callback
    ([main_controller]: load, drill-down, back, save) and the pager
    ([change_page]), followed by the properties of the specification.

    Python and pandas are modelled as far as the program uses them:
    - a cell is a string or a null ([None], or the [NaN] pandas puts where a
      record lacks a key), so every column has object dtype and pandas keeps
      the value it is given;
    - a record (a Python dict) is an association list in insertion order;
    - a DataFrame is its column labels and one record per index row;
    - an exception is a value of [exn]; a call that may raise returns
      [result]. *)

From Stdlib Require Import List String Ascii ZArith Bool Lia DecimalString.
Import ListNotations.
Open Scope string_scope.

(** ** Python values *)

Inductive value : Type :=
| VNone
| VNaN
| VStr (s : string).

(** [bool(v)]: [None] and the empty string are falsy, [nan] is truthy. *)
Definition truthy (v : value) : bool :=
  match v with
  | VNone => false
  | VNaN => true
  | VStr s => negb (s =? "")
  end.

(** [v is None] *)
Definition is_None (v : value) : bool :=
  match v with VNone => true | _ => false end.

(** Element-wise [==] of a pandas object Series against a scalar: a null on
    either side never compares equal. *)
Definition py_eq (a b : value) : bool :=
  match a, b with
  | VStr s, VStr t => s =? t
  | _, _ => false
  end.

(** Element-wise [!=]: the negation, so a null cell differs from any scalar. *)
Definition py_ne (a b : value) : bool := negb (py_eq a b).

(** [str(v)], as used by f-strings. *)
Definition py_str (v : value) : string :=
  match v with
  | VNone => "None"
  | VNaN => "nan"
  | VStr s => s
  end.

Definition str_of_Z (z : Z) : string := NilZero.string_of_int (Z.to_int z).
Definition str_of_nat (n : nat) : string := str_of_Z (Z.of_nat n).

(** ** Exceptions *)

Inductive exn : Type :=
| KeyError (key : string)
| ValueError (msg : string)
| IndexError (msg : string)
| StorageError (msg : string).

(** [str(e)]: a [KeyError] prints the repr of its key. *)
Definition str_exn (e : exn) : string :=
  match e with
  | KeyError k => "'" ++ k ++ "'"
  | ValueError m => m
  | IndexError m => m
  | StorageError m => m
  end.

Inductive result (A : Type) : Type :=
| Ok (a : A)
| Raise (e : exn).
Arguments Ok {A} a.
Arguments Raise {A} e.

Definition bind {A B : Type} (m : result A) (k : A -> result B) : result B :=
  match m with
  | Ok a => k a
  | Raise e => Raise e
  end.

Notation "x <- m ;; k" := (bind m (fun x => k))
  (at level 61, m at next level, right associativity).

(** ** Strings *)

(** Whitespace as [str.strip()] sees it, for code points below 256. *)
Definition is_space (c : ascii) : bool :=
  let n := nat_of_ascii c in
  ((9 <=? n) && (n <=? 13) || (28 <=? n) && (n <=? 32)
   || (n =? 133) || (n =? 160))%nat.

Fixpoint lstrip (s : string) : string :=
  match s with
  | EmptyString => EmptyString
  | String c s' => if is_space c then lstrip s' else s
  end.

Fixpoint rstrip (s : string) : string :=
  match s with
  | EmptyString => EmptyString
  | String c s' =>
      match rstrip s' with
      | EmptyString => if is_space c then EmptyString else String c EmptyString
      | t => String c t
      end
  end.

(** [s.strip()] *)
Definition strip (s : string) : string := rstrip (lstrip s).

(** Splits at the last ["."]: the part before it, if there is a dot, and the
    part after it. *)
Fixpoint rsplit_dot (s : string) : option string * string :=
  match s with
  | EmptyString => (None, EmptyString)
  | String c s' =>
      match rsplit_dot s' with
      | (Some h, t) => (Some (String c h), t)
      | (None, t) =>
          if Ascii.eqb c "."%char then (Some EmptyString, t)
          else (None, String c t)
      end
  end.

(** [s.rsplit(".", 1)[0]] *)
Definition rsplit1_head (s : string) : string :=
  match rsplit_dot s with
  | (Some h, _) => h
  | (None, t) => t
  end.

(** ** Records (dicts) *)

Definition record : Type := list (string * value).

Fixpoint dict_get (k : string) (r : record) : option value :=
  match r with
  | [] => None
  | (k', v) :: r' => if k =? k' then Some v else dict_get k r'
  end.

(** [r[k] = v]: overwrites in place, or appends a new key. *)
Fixpoint dict_set (k : string) (v : value) (r : record) : record :=
  match r with
  | [] => [(k, v)]
  | (k', v') :: r' =>
      if k =? k' then (k, v) :: r' else (k', v') :: dict_set k v r'
  end.

Definition dict_del (k : string) (r : record) : record :=
  filter (fun kv => negb (k =? fst kv)) r.

Definition keys (r : record) : list string := map fst r.

(** [r.get(k)], with Python's default [None]. *)
Definition get (k : string) (r : record) : value :=
  match dict_get k r with
  | Some v => v
  | None => VNone
  end.

(** ** pandas DataFrames *)

Record DataFrame : Type := mkDF {
  columns : list string;
  rows : list record
}.

(** Representation invariant: distinct labels, and every index row carries
    exactly the frame's columns, in order. *)
Definition well_formed (df : DataFrame) : Prop :=
  NoDup (columns df) /\ Forall (fun r => keys r = columns df) (rows df).

Definition mem (c : string) (l : list string) : bool :=
  existsb (String.eqb c) l.

(** [c in df.columns] *)
Definition in_columns (c : string) (df : DataFrame) : bool :=
  mem c (columns df).

Fixpoint add_keys (acc ks : list string) : list string :=
  match ks with
  | [] => acc
  | k :: ks' => add_keys (if mem k acc then acc else (acc ++ [k])%list) ks'
  end.

(** The union of the records' keys, in order of first appearance. *)
Definition all_keys (records : list record) : list string :=
  fold_left (fun acc r => add_keys acc (keys r)) records [].

(** The cell of a row under a label; a record lacking the key reads [NaN]. *)
Definition cell (c : string) (r : record) : value :=
  match dict_get c r with
  | Some v => v
  | None => VNaN
  end.

Definition reindex (cols : list string) (r : record) : record :=
  map (fun c => (c, cell c r)) cols.

(** [pd.DataFrame(records)] *)
Definition DataFrame_of_records (records : list record) : DataFrame :=
  let cols := all_keys records in
  {| columns := cols; rows := map (reindex cols) records |}.

(** [df.to_dict("records")]: one record per tuple of [itertuples], which
    zips the columns, so a frame without columns gives no record, whatever
    its index. *)
Definition to_dict_records (df : DataFrame) : list record :=
  match columns df with
  | [] => []
  | _ :: _ => rows df
  end.

(** [len(df)] *)
Definition df_len (df : DataFrame) : nat := List.length (rows df).

(** [df.empty]: some axis has length zero. *)
Definition df_empty (df : DataFrame) : bool :=
  (List.length (rows df) =? 0)%nat || (List.length (columns df) =? 0)%nat.

(** [df[c]]: the column as a Series, or [KeyError]. *)
Definition getitem (c : string) (df : DataFrame) : result (list value) :=
  if in_columns c df then Ok (map (cell c) (rows df))
  else Raise (KeyError c).

Definition series_eq (s : list value) (v : value) : list bool :=
  map (fun x => py_eq x v) s.

Definition series_ne (s : list value) (v : value) : list bool :=
  map (fun x => py_ne x v) s.

(** [m1 & m2] *)
Definition mask_and (m1 m2 : list bool) : list bool :=
  map (fun p : bool * bool => fst p && snd p) (combine m1 m2).

Fixpoint filter_mask {A : Type} (m : list bool) (l : list A) : list A :=
  match m, l with
  | b :: m', x :: l' =>
      if b then x :: filter_mask m' l' else filter_mask m' l'
  | _, _ => []
  end.

(** [df[mask].copy()] *)
Definition df_filter (m : list bool) (df : DataFrame) : DataFrame :=
  {| columns := columns df; rows := filter_mask m (rows df) |}.

Definition set_label (c : string) (cols : list string) : list string :=
  if mem c cols then cols else (cols ++ [c])%list.

(** [df[c] = v] for a scalar [v]. *)
Definition setitem_scalar (c : string) (v : value) (df : DataFrame)
  : DataFrame :=
  {| columns := set_label c (columns df);
     rows := map (dict_set c v) (rows df) |}.

(** [df[c] = vs] for a list: its length must be that of the index. *)
Definition setitem_list (c : string) (vs : list value) (df : DataFrame)
  : result DataFrame :=
  if (List.length vs =? List.length (rows df))%nat then
    Ok {| columns := set_label c (columns df);
          rows := map (fun p : value * record => dict_set c (fst p) (snd p))
                      (combine vs (rows df)) |}
  else
    Raise (ValueError ("Length of values (" ++ str_of_nat (List.length vs)
                       ++ ") does not match length of index ("
                       ++ str_of_nat (List.length (rows df)) ++ ")")).

(** [df.drop(columns=cs)] for labels of the frame. *)
Definition df_drop (cs : list string) (df : DataFrame) : DataFrame :=
  {| columns := filter (fun c => negb (mem c cs)) (columns df);
     rows := map (filter (fun kv => negb (mem (fst kv) cs))) (rows df) |}.

(** Applies [f] to the rows under the mask. *)
Definition under_mask (f : record -> record) (m : list bool)
    (rs : list record) : list record :=
  map (fun p : bool * record => if fst p then f (snd p) else snd p)
      (combine m rs).

(** [df.loc[mask, c] = v]: the rows under the mask take [v]; a label that is
    not a column yet is added, with [NaN] outside the mask. *)
Definition loc_set (m : list bool) (c : string) (v : value) (df : DataFrame)
  : DataFrame :=
  if in_columns c df then
    {| columns := columns df;
       rows := under_mask (dict_set c v) m (rows df) |}
  else
    {| columns := (columns df ++ [c])%list;
       rows := map (fun p : bool * record =>
                      dict_set c (if fst p then v else VNaN) (snd p))
                   (combine m (rows df)) |}.

(** ** Projection builders *)

Record column_spec : Type := mkCol {
  col_name : string;
  col_id : string;
  col_editable : bool;
  col_type : string;
  col_presentation : string
}.

Definition when (b : bool) (c : column_spec) : list column_spec :=
  if b then [c] else [].

(** [make_tables_view(df)] *)
Definition make_tables_view (df : DataFrame)
  : result (list record * list column_spec) :=
  tables_df <- (if in_columns "type" df then
                  ty <- getitem "type" df ;;
                  Ok (df_filter (series_eq ty (VStr "table")) df)
                else Ok df) ;;
  tables_df <- (if df_empty tables_df then
                  setitem_list "__open__" [] tables_df
                else Ok (setitem_scalar "__open__" (VStr "Open") tables_df)) ;;
  let cols := (
    when (in_columns "name" tables_df)
         (mkCol "Table" "name" false "text" "input")
    ++ when (in_columns "description" tables_df)
         (mkCol "Description" "description" true "text" "input")
    ++ when (in_columns "parent" tables_df)
         (mkCol "Schema" "parent" false "text" "input")
    ++ [mkCol "" "__open__" false "text" "markdown"])%list in
  Ok (to_dict_records tables_df, cols).

(** [make_columns_view(df, table_name)] *)
Definition make_columns_view (df : DataFrame) (table_name : value)
  : result (list record * list column_spec) :=
  cols_df <- (if in_columns "type" df then
                parent <- getitem "parent" df ;;
                ty <- getitem "type" df ;;
                Ok (df_filter (mask_and (series_eq parent table_name)
                                        (series_ne ty (VStr "table"))) df)
              else
                parent <- getitem "parent" df ;;
                Ok (df_filter (series_eq parent table_name) df)) ;;
  let cols := (
    when (in_columns "name" cols_df)
         (mkCol "Column" "name" false "text" "input")
    ++ when (in_columns "description" cols_df)
         (mkCol "Description" "description" true "text" "input")
    ++ when (in_columns "parent" cols_df)
         (mkCol "Table" "parent" false "text" "input")
    ++ when (in_columns "type" cols_df)
         (mkCol "Type" "type" false "text" "input"))%list in
  Ok (to_dict_records cols_df, cols).

(** ** Merge of the edited view into the full data set

    Lines 661-717 of [main_controller]: the part of the save branch that runs
    before the write. *)

(** [for col in view_df.columns: full_df.loc[mask, col] = row[col]] *)
Definition assign_row (m : list bool) (view_cols : list string)
    (row : record) (full_df : DataFrame) : DataFrame :=
  fold_left (fun df col => loc_set m col (cell col row) df) view_cols full_df.

(** Body of the loop of the tables branch. *)
Definition merge_tables_row (view_cols : list string) (full_df : DataFrame)
    (row : record) : result DataFrame :=
  let name := get "name" row in
  let parent := get "parent" row in
  if is_None name || is_None parent then Ok full_df
  else
    m <- (if in_columns "type" full_df then
            ty <- getitem "type" full_df ;;
            n <- getitem "name" full_df ;;
            p <- getitem "parent" full_df ;;
            Ok (mask_and (mask_and (series_eq ty (VStr "table"))
                                   (series_eq n name))
                         (series_eq p parent))
          else
            n <- getitem "name" full_df ;;
            p <- getitem "parent" full_df ;;
            Ok (mask_and (series_eq n name) (series_eq p parent))) ;;
    Ok (assign_row m view_cols row full_df).

(** Body of the loop of the columns branch. *)
Definition merge_columns_row (view_cols : list string) (full_df : DataFrame)
    (row : record) : result DataFrame :=
  let name := get "name" row in
  let parent := get "parent" row in
  let typ := if mem "type" view_cols then get "type" row else VNone in
  if is_None name || is_None parent then Ok full_df
  else
    m <- (if in_columns "type" full_df && negb (is_None typ) then
            n <- getitem "name" full_df ;;
            p <- getitem "parent" full_df ;;
            ty <- getitem "type" full_df ;;
            Ok (mask_and (mask_and (series_eq n name) (series_eq p parent))
                         (series_eq ty typ))
          else
            n <- getitem "name" full_df ;;
            p <- getitem "parent" full_df ;;
            Ok (mask_and (series_eq n name) (series_eq p parent))) ;;
    Ok (assign_row m view_cols row full_df).

(** [for _, row in view_df.iterrows(): ...], threading [full_df]. *)
Fixpoint iterrows (body : DataFrame -> record -> result DataFrame)
    (view_rows : list record) (full_df : DataFrame) : result DataFrame :=
  match view_rows with
  | [] => Ok full_df
  | row :: rest =>
      full_df' <- body full_df row ;;
      iterrows body rest full_df'
  end.

(** [pd.DataFrame(current_view_rows)]: [None] gives the empty frame. *)
Definition view_records (current_view_rows : option (list record))
  : list record :=
  match current_view_rows with
  | Some l => l
  | None => []
  end.

(** The view frame without its helper columns (those the full frame lacks,
    such as [__open__]). *)
Definition drop_helper_cols (full_df view_df : DataFrame) : DataFrame :=
  let helper_cols :=
    filter (fun c => negb (in_columns c full_df)) (columns view_df) in
  match helper_cols with
  | [] => view_df
  | _ => df_drop helper_cols view_df
  end.

Definition merge_edits (full_data_raw : list record)
    (current_view_rows : option (list record))
    (view_mode selected_table : value) : result DataFrame :=
  let full_df := DataFrame_of_records full_data_raw in
  let view_df :=
    drop_helper_cols full_df
      (DataFrame_of_records (view_records current_view_rows)) in
  if py_eq view_mode (VStr "tables") then
    iterrows (merge_tables_row (columns view_df)) (rows view_df) full_df
  else if py_eq view_mode (VStr "columns") && truthy selected_table then
    iterrows (merge_columns_row (columns view_df)) (rows view_df) full_df
  else
    Ok view_df.

(** ** The master callback *)

(** A callback output: Dash's [no_update] sentinel, or a new value. *)
Inductive update (A : Type) : Type :=
| no_update
| Update (a : A).
Arguments no_update {A}.
Arguments Update {A} a.

Record outputs : Type := mkOut {
  data_out : update (list record);
  columns_out : update (list column_spec);
  label_out : update string;
  load_status_out : update string;
  table_name_out : update (option string);
  full_data_out : update (option (list record));
  view_mode_out : update value;
  selected_table_out : update value;
  save_status_out : update string
}.

(** [(no_update,) * 9] *)
Definition unchanged : outputs :=
  mkOut no_update no_update no_update no_update no_update no_update
        no_update no_update no_update.

Definition with_view (d : list record) (c : list column_spec) (l : string)
    (o : outputs) : outputs :=
  mkOut (Update d) (Update c) (Update l) (load_status_out o)
        (table_name_out o) (full_data_out o) (view_mode_out o)
        (selected_table_out o) (save_status_out o).

Definition with_full_data (f : option (list record)) (o : outputs)
  : outputs :=
  mkOut (data_out o) (columns_out o) (label_out o) (load_status_out o)
        (table_name_out o) (Update f) (view_mode_out o)
        (selected_table_out o) (save_status_out o).

Definition with_save_status (s : string) (o : outputs) : outputs :=
  mkOut (data_out o) (columns_out o) (label_out o) (load_status_out o)
        (table_name_out o) (full_data_out o) (view_mode_out o)
        (selected_table_out o) (Update s).

(** The cell of the DataTable the user activated. *)
Record active_cell_t : Type := mkCell {
  cell_row : option Z;
  cell_column_id : option string
}.

(** Calls made to the storage adapter, in order. *)
Inductive storage_call : Type :=
| ReadTable (table_name : string)
| WriteTable (table_name : string) (df : DataFrame).

(** [l[i]] for a Python list: a negative index counts from the end. *)
Definition list_getitem {A : Type} (l : list A) (i : Z) : result A :=
  let n := Z.of_nat (List.length l) in
  let j := if (i <? 0)%Z then (i + n)%Z else i in
  if (j <? 0)%Z then Raise (IndexError "list index out of range")
  else
    match nth_error l (Z.to_nat j) with
    | Some x => Ok x
    | None => Raise (IndexError "list index out of range")
    end.

(** [not s] for an input that is a string or [None]. *)
Definition missing (s : option string) : bool :=
  match s with
  | Some t => t =? ""
  | None => true
  end.

(** The string of an input that is not [missing]. *)
Definition text (s : option string) : string :=
  match s with
  | Some t => t
  | None => ""
  end.

Section Controller.

(** The storage adapter ([read_table] and [insert_overwrite_table] on the
    module's connection) and the clock reading
    [datetime.now().strftime('%H:%M:%S')]. *)
Variable read_table : string -> result DataFrame.
Variable insert_overwrite_table : string -> DataFrame -> result unit.
Variable now : string.

(** What one invocation does: the emitted tuple, or the exception that
    left the callback, and the storage calls made on the way. *)
Definition outcome : Type := result outputs * list storage_call.

(** Branch 1, [trigger == "load-btn"]. An exception of [make_tables_view]
    is not caught here. *)
Definition load_dictionary (catalog schema : option string) : outcome :=
  if missing catalog || missing schema then
    (Ok (mkOut (Update []) (Update []) (Update "Table: (none loaded)")
               (Update "Please enter both catalog and schema.")
               (Update None) (Update None) (Update (VStr "tables"))
               (Update VNone) no_update),
     [])
  else
    let catalog := strip (text catalog) in
    let schema := strip (text schema) in
    let new_table_name := catalog ++ "." ++ schema ++ ".data_dict" in
    match read_table new_table_name with
    | Raise e =>
        (Ok (mkOut (Update []) (Update [])
                   (Update ("Table: " ++ new_table_name))
                   (Update ("Error loading " ++ new_table_name ++ ": "
                            ++ str_exn e))
                   (Update None) (Update None) (Update (VStr "tables"))
                   (Update VNone) no_update),
         [ReadTable new_table_name])
    | Ok df =>
        let full_records := to_dict_records df in
        let load_msg :=
          "Loaded " ++ new_table_name ++ " ("
          ++ str_of_nat (df_len df) ++ " rows) at " ++ now ++ "." in
        let label :=
          "Tables in data dictionary: " ++ catalog ++ "." ++ schema in
        (view <- make_tables_view df ;;
         Ok (mkOut (Update (fst view)) (Update (snd view)) (Update label)
                   (Update load_msg) (Update (Some new_table_name))
                   (Update (Some full_records)) (Update (VStr "tables"))
                   (Update VNone) no_update),
         [ReadTable new_table_name])
    end.

(** Branch 2, [trigger == "db-table"]: drill down into a table. Nothing
    is caught here either. *)
Definition open_table (active_cell : option active_cell_t)
    (view_mode : value) (full_data_raw : option (list record))
    (current_view_rows : option (list record)) : outcome :=
  match active_cell, full_data_raw with
  | Some cell, Some full =>
      if py_eq view_mode (VStr "tables")
         && match cell_column_id cell with
            | Some c => c =? "__open__"
            | None => false
            end
      then
        (table_name_in_dict <-
           match cell_row cell, current_view_rows with
           | Some row_index, Some (r :: rs) =>
               if (row_index <? Z.of_nat (List.length (r :: rs)))%Z then
                 row <- list_getitem (r :: rs) row_index ;;
                 Ok (get "name" row)
               else Ok VNone
           | _, _ => Ok VNone
           end ;;
         if truthy table_name_in_dict then
           let full_df := DataFrame_of_records full in
           view <- make_columns_view full_df table_name_in_dict ;;
           Ok (mkOut (Update (fst view)) (Update (snd view))
                     (Update ("Columns for table: "
                              ++ py_str table_name_in_dict))
                     no_update no_update no_update
                     (Update (VStr "columns"))
                     (Update table_name_in_dict) no_update)
         else Ok unchanged,
         [])
      else (Ok unchanged, [])
  | _, _ => (Ok unchanged, [])
  end.

(** Branch 3, [trigger == "back-to-tables-btn"]. *)
Definition back_to_tables (view_mode : value) (table_name : option string)
    (full_data_raw : option (list record)) : outcome :=
  match full_data_raw with
  | Some full =>
      if py_eq view_mode (VStr "columns") && negb (missing table_name)
      then
        let full_df := DataFrame_of_records full in
        let base := rsplit1_head (text table_name) in
        let label := "Tables in data dictionary: " ++ base in
        (view <- make_tables_view full_df ;;
         Ok (mkOut (Update (fst view)) (Update (snd view)) (Update label)
                   no_update no_update no_update (Update (VStr "tables"))
                   (Update VNone) no_update),
         [])
      else (Ok unchanged, [])
  | None => (Ok unchanged, [])
  end.

(** The [try] block of branch 4: the outputs assigned so far, the storage
    calls made, and the exception that ended the block, if any. *)
Definition save_try (save_clicks : Z) (view_mode selected_table : value)
    (table_name : string) (full_data_raw : list record)
    (current_view_rows : option (list record))
  : outputs * list storage_call * option exn :=
  match merge_edits full_data_raw current_view_rows view_mode
                    selected_table with
  | Raise e => (unchanged, [], Some e)
  | Ok full_df =>
      let calls := [WriteTable table_name full_df] in
      match insert_overwrite_table table_name full_df with
      | Raise e => (unchanged, calls, Some e)
      | Ok _ =>
          let o := with_full_data (Some (to_dict_records full_df))
                                  unchanged in
          let saved :=
            "Saved changes to " ++ table_name ++ " (click #"
            ++ str_of_Z save_clicks ++ ")." in
          if py_eq view_mode (VStr "tables") then
            match make_tables_view full_df with
            | Raise e => (o, calls, Some e)
            | Ok (table_records, cols) =>
                let base := rsplit1_head table_name in
                (with_save_status saved
                   (with_view table_records cols
                      ("Tables in data dictionary: " ++ base) o),
                 calls, None)
            end
          else if py_eq view_mode (VStr "columns")
                  && truthy selected_table then
            match make_columns_view full_df selected_table with
            | Raise e => (o, calls, Some e)
            | Ok (col_records, cols) =>
                (with_save_status saved
                   (with_view col_records cols
                      ("Columns for table: " ++ py_str selected_table) o),
                 calls, None)
            end
          else (with_save_status saved o, calls, None)
      end
  end.

(** Branch 4, [trigger == "save-btn"]: [except Exception as e] turns any
    exception of the block into a status. *)
Definition save_changes (save_clicks : Z) (view_mode selected_table : value)
    (table_name : option string) (full_data_raw : option (list record))
    (current_view_rows : option (list record)) : outcome :=
  if missing table_name then
    (Ok (with_save_status
           "No table loaded. Please load a table before saving."
           unchanged),
     [])
  else
    match full_data_raw with
    | None =>
        (Ok (with_save_status
               "No in-memory copy of the data dictionary. Try reloading it."
               unchanged),
         [])
    | Some full =>
        match save_try save_clicks view_mode selected_table
                       (text table_name) full current_view_rows with
        | (o, calls, None) => (Ok o, calls)
        | (o, calls, Some e) =>
            (Ok (with_save_status
                   ("Error saving changes: " ++ str_exn e) o),
             calls)
        end
    end.

(** [main_controller]: [triggered] is [None] when [ctx.triggered] is empty,
    else the component id of the first triggering input. *)
Definition main_controller (triggered : option string)
    (load_clicks : Z) (active_cell : option active_cell_t)
    (back_clicks save_clicks : Z) (catalog schema : option string)
    (view_mode selected_table : value) (table_name : option string)
    (full_data_raw current_view_rows : option (list record)) : outcome :=
  match triggered with
  | None => (Ok unchanged, [])
  | Some trigger =>
      if trigger =? "load-btn" then load_dictionary catalog schema
      else if trigger =? "db-table" then
        open_table active_cell view_mode full_data_raw current_view_rows
      else if trigger =? "back-to-tables-btn" then
        back_to_tables view_mode table_name full_data_raw
      else if trigger =? "save-btn" then
        save_changes save_clicks view_mode selected_table table_name
                     full_data_raw current_view_rows
      else (Ok unchanged, [])
  end.

End Controller.

(** ** Pagination *)

(** [math.ceil(a / b)]. The float quotient of the source rounds to this
    ceiling for every row count below 2^53. *)
Definition ceil_div (a b : Z) : Z := (- ((- a) / b))%Z.

Definition total_rows (rows : option (list record)) : Z :=
  match rows with
  | Some l => Z.of_nat (List.length l)
  | None => 0
  end.

Definition total_pages (rows : option (list record)) (page_size : Z) : Z :=
  if (page_size =? 0)%Z then 1%Z
  else Z.max 1 (ceil_div (total_rows rows) page_size).

Definition page_label (page pages : Z) : string :=
  "Page " ++ str_of_Z (page + 1) ++ " of " ++ str_of_Z pages.

(** [change_page]: [triggered] as in [main_controller]. *)
Definition change_page (triggered : option string)
    (prev_clicks next_clicks : Z) (rows : option (list record))
    (current_page page_size : Z) : Z * string :=
  let total_pages := total_pages rows page_size in
  match triggered with
  | None => (current_page, page_label current_page total_pages)
  | Some button_id =>
      let new_page :=
        if button_id =? "db-table" then 0%Z
        else if button_id =? "next-page" then
          Z.min (current_page + 1) (total_pages - 1)
        else if button_id =? "prev-page" then
          Z.max (current_page - 1) 0
        else current_page in
      (new_page, page_label new_page total_pages)
  end.

(** ** Storage adapter

    [sql_literal] and the statement that [insert_overwrite_table] hands to
    the cursor. *)

(** [v.replace("'", "''")] *)
Fixpoint escape_quotes (s : string) : string :=
  match s with
  | EmptyString => EmptyString
  | String c s' =>
      if Ascii.eqb c "'"%char
      then String "'"%char (String "'"%char (escape_quotes s'))
      else String c (escape_quotes s')
  end.

(** [sql_literal(v)] on the cells of a frame. *)
Definition sql_literal (v : value) : string :=
  match v with
  | VNone => "NULL"
  | VNaN => "NULL"
  | VStr s => "'" ++ escape_quotes s ++ "'"
  end.

(** One tuple of [itertuples]: the cells of a row in column order. *)
Definition row_values (df : DataFrame) (r : record) : list value :=
  map (fun c => cell c r) (columns df).

(** [list(df.itertuples(index=False))]: the zip of the columns, which is
    empty for a frame without columns. *)
Definition itertuples (df : DataFrame) : list (list value) :=
  match columns df with
  | [] => []
  | _ :: _ => map (row_values df) (rows df)
  end.

(** The statement [insert_overwrite_table] builds. *)
Definition insert_statement (table_name : string) (df : DataFrame)
  : string :=
  let values_list :=
    map (fun row => "(" ++ String.concat "," (map sql_literal row) ++ ")")
        (itertuples df) in
  "INSERT OVERWRITE " ++ table_name ++ " VALUES "
  ++ String.concat "," values_list.

(** ** The stores between two invocations

    Dash writes every output that is not [no_update] into its component;
    the four [dcc.Store]s are read back as [State] by the next call. *)

Record stores : Type := mkStores {
  table_name_store : option string;
  full_data_store : option (list record);
  view_mode_store : value;
  selected_table_store : value
}.

Definition apply_update {A : Type} (u : update A) (old : A) : A :=
  match u with
  | no_update => old
  | Update a => a
  end.

Definition next_stores (o : outputs) (s : stores) : stores :=
  mkStores (apply_update (table_name_out o) (table_name_store s))
           (apply_update (full_data_out o) (full_data_store s))
           (apply_update (view_mode_out o) (view_mode_store s))
           (apply_update (selected_table_out o) (selected_table_store s)).

(** The stores of a fresh page: every [dcc.Store] holds [None]. *)
Definition initial_stores : stores := mkStores None None VNone VNone.

(** ** Vocabulary of the properties *)

(** A schema in which [description] is the one editable field. *)
Definition only_description_editable (schema : list column_spec) : Prop :=
  forall c, In c schema ->
            (col_editable c = true <-> col_id c = "description").

(** A string made of whitespace only. *)
Fixpoint all_space (s : string) : bool :=
  match s with
  | EmptyString => true
  | String c s' => is_space c && all_space s'
  end.

(** ** The merge, row by row

    What the two loops do to one row [r] of the full frame. *)

(** The inner loop on [r]: every view column takes the edited row's cell. *)
Definition overwrite (view_cols : list string) (row r : record) : record :=
  fold_left (fun r c => dict_set c (cell c row) r) view_cols r.

(** The mask of the tables branch at [r]. *)
Definition tables_match (has_type : bool) (row r : record) : bool :=
  if has_type then
    py_eq (cell "type" r) (VStr "table")
    && py_eq (cell "name" r) (get "name" row)
    && py_eq (cell "parent" r) (get "parent" row)
  else
    py_eq (cell "name" r) (get "name" row)
    && py_eq (cell "parent" r) (get "parent" row).

(** The mask of the columns branch at [r]. *)
Definition columns_match (has_type : bool) (view_cols : list string)
    (row r : record) : bool :=
  let typ := if mem "type" view_cols then get "type" row else VNone in
  if has_type && negb (is_None typ) then
    py_eq (cell "name" r) (get "name" row)
    && py_eq (cell "parent" r) (get "parent" row)
    && py_eq (cell "type" r) typ
  else
    py_eq (cell "name" r) (get "name" row)
    && py_eq (cell "parent" r) (get "parent" row).

(** One iteration of a merge loop at [r]. *)
Definition merge_step (matches : record -> record -> bool)
    (view_cols : list string) (row r : record) : record :=
  if is_None (get "name" row) || is_None (get "parent" row) then r
  else if matches row r then overwrite view_cols row r
  else r.

(** The whole loop at [r]. *)
Definition merge_row (matches : record -> record -> bool)
    (view_cols : list string) (view_rows : list record) (r : record)
  : record :=
  fold_left (fun r row => merge_step matches view_cols row r) view_rows r.

(** ** Identity of entries *)

(** Two rows with the same identity: name and parent and, where the frame
    has a type column, type. *)
Definition same_identity (has_type : bool) (r1 r2 : record) : Prop :=
  py_eq (cell "name" r1) (cell "name" r2) = true
  /\ py_eq (cell "parent" r1) (cell "parent" r2) = true
  /\ (has_type = true -> py_eq (cell "type" r1) (cell "type" r2) = true).

(** No two different rows of the frame have the same identity. *)
Definition unique_identities (df : DataFrame) : Prop :=
  forall r1 r2, In r1 (rows df) -> In r2 (rows df) ->
                same_identity (in_columns "type" df) r1 r2 -> r1 = r2.

(** No row has [None] for its type. *)
Definition typed (df : DataFrame) : Prop :=
  forall r, In r (rows df) -> cell "type" r <> VNone.

(** The projection the save branch rebuilds for the mode (lines 727-737). *)
Definition same_mode_view (view_mode selected_table : value)
    (df : DataFrame) : result (list record * list column_spec) :=
  if py_eq view_mode (VStr "tables") then make_tables_view df
  else make_columns_view df selected_table.

(** The modes in which the merge updates the full frame row by row. *)
Definition scoped_mode (view_mode selected_table : value) : bool :=
  py_eq view_mode (VStr "tables")
  || py_eq view_mode (VStr "columns") && truthy selected_table.

(** The [k]-th displayed row with its description set to [d]. *)
Fixpoint edit_description (k : nat) (d : value) (view : list record)
  : list record :=
  match k, view with
  | _, [] => []
  | O, r :: rest => dict_set "description" d r :: rest
  | S k', r :: rest => r :: edit_description k' d rest
  end.

(** The displayed rows as a Save receives them: only the description is
    editable and rows are neither added nor removed, so [ds] gives, row by
    row, the description typed in, or [None] for a row left alone (as are
    the rows beyond [ds]). *)
Fixpoint edit_descriptions (ds : list (option value)) (view : list record)
    {struct view} : list record :=
  match view with
  | [] => []
  | p :: rest =>
      match ds with
      | [] => p :: rest
      | Some d :: ds' =>
          dict_set "description" d p :: edit_descriptions ds' rest
      | None :: ds' => p :: edit_descriptions ds' rest
      end
  end.

(** Two records with the same cell under every label. *)
Definition same_cells (a b : record) : Prop :=
  forall c, dict_get c a = dict_get c b.

(** An iteration of a merge loop for the edited row [row] overwrites [r]. *)
Definition hits (matches : record -> record -> bool) (row r : record)
  : bool :=
  negb (is_None (get "name" row) || is_None (get "parent" row))
  && matches row r.

(** The filter of the projection of a mode, row by row. *)
Definition shown (view_mode selected_table : value) (has_type : bool)
    (r : record) : bool :=
  if py_eq view_mode (VStr "tables") then
    if has_type then py_eq (cell "type" r) (VStr "table") else true
  else
    if has_type then
      py_eq (cell "parent" r) selected_table
      && py_ne (cell "type" r) (VStr "table")
    else py_eq (cell "parent" r) selected_table.

(** The mask of the merge loop of a mode. *)
Definition mode_match (view_mode : value) (has_type : bool)
    (view_cols : list string) : record -> record -> bool :=
  if py_eq view_mode (VStr "tables") then tables_match has_type
  else columns_match has_type view_cols.

(** What a projection adds to a row it shows: the action marker, in the
    Tables mode. *)
Definition display (view_mode : value) (r : record) : record :=
  if py_eq view_mode (VStr "tables")
  then dict_set "__open__" (VStr "Open") r
  else r.

(** What of it reaches the merge: the marker only where the full frame has
    a column of that name. *)
Definition marked (view_mode : value) (cols : list string) (r : record)
  : record :=
  if py_eq view_mode (VStr "tables") && mem "__open__" cols
  then dict_set "__open__" (VStr "Open") r
  else r.

(** ** States the controller keeps to

    The data set name and the full data are present together; a table is
    selected exactly in the columns mode, which needs the full data; and
    with the full data present the mode is one of the two views. *)
Definition consistent (s : stores) : Prop :=
  (missing (table_name_store s) = true <-> full_data_store s = None)
  /\ (truthy (selected_table_store s) = true
      <-> view_mode_store s = VStr "columns")
  /\ (view_mode_store s = VStr "columns" -> full_data_store s <> None)
  /\ (full_data_store s <> None ->
      view_mode_store s = VStr "tables"
      \/ view_mode_store s = VStr "columns").

(** The number of single quotes of a string. *)
Fixpoint count_quotes (s : string) : nat :=
  match s with
  | EmptyString => 0
  | String c s' =>
      if Ascii.eqb c "'"%char then S (count_quotes s') else count_quotes s'
  end.

(** A string without a dot. *)
Fixpoint no_dot (s : string) : bool :=
  match s with
  | EmptyString => true
  | String c s' => negb (Ascii.eqb c "."%char) && no_dot s'
  end.

(** [None] or [NaN]. *)
Definition is_null (v : value) : bool :=
  match v with
  | VStr _ => false
  | _ => true
  end.

(** ** Sample data *)

Definition entry (name parent type description : value) : record :=
  [("name", name); ("parent", parent); ("type", type);
   ("description", description)].

(** A table with one column. *)
Definition orders_dict : list record :=
  [entry (VStr "orders") (VStr "catalog.schema") (VStr "table") (VStr "");
   entry (VStr "id") (VStr "orders") (VStr "bigint") (VStr "")].

(** A dictionary whose rows have neither a type nor a parent. *)
Definition names_only : list record :=
  [[("name", VStr "orders"); ("description", VStr "")]].

(** The edited column row of [orders_dict]. *)
Definition edited_id : record :=
  entry (VStr "id") (VStr "orders") (VStr "bigint") (VStr "order id").

(** [orders_dict] once [edited_id] is merged. *)
Definition orders_saved : DataFrame :=
  mkDF ["name"; "parent"; "type"; "description"]
       [entry (VStr "orders") (VStr "catalog.schema") (VStr "table")
              (VStr "");
        edited_id].

(** A table [sales] of a schema [sales], with a column [sales] whose type
    is missing. *)
Definition sales_table : record :=
  entry (VStr "sales") (VStr "sales") (VStr "table") (VStr "the table").

Definition sales_column : record :=
  entry (VStr "sales") (VStr "sales") VNone (VStr "amount").

Definition sales_dict : list record := [sales_table; sales_column].

(** Another column of that table, its type missing too. *)
Definition amount_column : record :=
  entry (VStr "amount") (VStr "sales") VNone (VStr "").

(** Two entries for one table, and another table. *)
Definition duplicated_dict : list record :=
  [entry (VStr "orders") (VStr "shop") (VStr "table") (VStr "first");
   entry (VStr "orders") (VStr "shop") (VStr "table") (VStr "second");
   entry (VStr "items") (VStr "shop") (VStr "table") (VStr "")].

(** * Properties *)

(** ** Pagination *)

Lemma ceil_div_bounds (a b : Z) :
  (0 < b)%Z ->
  (b * (ceil_div a b - 1) < a <= b * ceil_div a b)%Z.
Proof.
  intros Hb. unfold ceil_div.
  pose proof (Z.div_mod (- a) b ltac:(lia)) as Hdm.
  pose proof (Z.mod_pos_bound (- a) b Hb) as Hm.
  nia.
Qed.

Lemma total_pages_pos (rows : option (list record)) (page_size : Z) :
  (1 <= total_pages rows page_size)%Z.
Proof.
  unfold total_pages. destruct (page_size =? 0)%Z; lia.
Qed.

(** C7: for a row count >= 0, a page size >= 1 and a current page within
    [0, totalPages-1], each of the three actions (row set replaced, next,
    previous) yields a page within [0, totalPages-1], where
    totalPages = max(1, ceil(rowCount / pageSize)) >= 1; a replaced row set
    resets the page to 0. *)
Theorem change_page_bounds :
  forall (button_id : string) (prev_clicks next_clicks : Z)
         (rows : option (list record)) (current_page page_size : Z),
    (1 <= page_size)%Z ->
    (0 <= current_page <= total_pages rows page_size - 1)%Z ->
    button_id = "db-table" \/ button_id = "next-page"
    \/ button_id = "prev-page" ->
    let pages := total_pages rows page_size in
    let out := change_page (Some button_id) prev_clicks next_clicks rows
                           current_page page_size in
    (0 <= total_rows rows)%Z
    /\ (0 <= fst out <= pages - 1)%Z
    /\ (1 <= pages)%Z
    /\ pages = Z.max 1 (ceil_div (total_rows rows) page_size)
    /\ (page_size * (ceil_div (total_rows rows) page_size - 1)
        < total_rows rows
        <= page_size * ceil_div (total_rows rows) page_size)%Z
    /\ (button_id = "db-table" -> fst out = 0%Z)
    /\ snd out = page_label (fst out) pages.
Proof.
  intros button_id prev_clicks next_clicks rows current_page page_size
         Hsize Hpage Hact pages out.
  pose proof (total_pages_pos rows page_size) as Hpos.
  fold pages in Hpos, Hpage.
  assert (Hrows : (0 <= total_rows rows)%Z)
    by (destruct rows; simpl; lia).
  assert (Hnew : (0 <= fst out <= pages - 1)%Z
                 /\ (button_id = "db-table" -> fst out = 0%Z)
                 /\ snd out = page_label (fst out) pages).
  { subst out. unfold change_page. fold pages.
    destruct Hact as [-> | [-> | ->]]; simpl;
      repeat split; try reflexivity; try discriminate; lia. }
  destruct Hnew as (Hrange & Hreset & Hlabel).
  repeat split; try lia; try assumption.
  - subst pages. unfold total_pages.
    destruct (Z.eqb_spec page_size 0); [lia | reflexivity].
  - apply (ceil_div_bounds (total_rows rows) page_size). lia.
  - apply (ceil_div_bounds (total_rows rows) page_size). lia.
Qed.

Lemma change_page_bounds_witness :
  let rows := Some (repeat ([] : record) 45) in
  (0 <= fst (change_page (Some "next-page") 0 1 rows 2 20)
   <= total_pages rows 20 - 1)%Z.
Proof.
  intros rows.
  refine (proj1 (proj2
    (change_page_bounds "next-page" 0 1 rows 2 20 _ _ _))).
  - lia.
  - split; [lia | vm_compute; discriminate].
  - right; left; reflexivity.
Defined.

(** ** Generic facts *)

Lemma bind_Ok {A B : Type} (m : result A) (k : A -> result B) (b : B) :
  bind m k = Ok b -> exists a, m = Ok a /\ k a = Ok b.
Proof.
  destruct m as [a | e]; simpl; intros H; [eauto | discriminate].
Qed.

Lemma py_eq_VStr (v : value) (s : string) :
  py_eq v (VStr s) = true <-> v = VStr s.
Proof.
  destruct v as [| | t]; simpl; split; try discriminate.
  - intros H. apply String.eqb_eq in H. now subst.
  - intros H. injection H as ->. apply String.eqb_refl.
Qed.

Lemma py_eq_true (a b : value) :
  py_eq a b = true -> a = b /\ is_null a = false.
Proof.
  destruct a as [| | s], b as [| | t]; simpl; try discriminate.
  intros H. apply String.eqb_eq in H. subst. auto.
Qed.

Lemma lstrip_all_space (s : string) :
  all_space s = true -> lstrip s = "".
Proof.
  induction s as [| c s IH]; simpl; [reflexivity |].
  intros H. apply andb_true_iff in H as [Hc Hs].
  rewrite Hc. auto.
Qed.

Lemma strip_all_space (s : string) :
  all_space s = true -> strip s = "".
Proof.
  intros H. unfold strip. now rewrite lstrip_all_space.
Qed.

(** ** Schemas *)

Lemma tables_schema_shape (df : DataFrame) (recs : list record)
    (sch : list column_spec) :
  make_tables_view df = Ok (recs, sch) ->
  exists b1 b2 b3,
    sch = (when b1 (mkCol "Table" "name" false "text" "input")
           ++ when b2 (mkCol "Description" "description" true "text" "input")
           ++ when b3 (mkCol "Schema" "parent" false "text" "input")
           ++ [mkCol "" "__open__" false "text" "markdown"])%list.
Proof.
  unfold make_tables_view. intros H.
  apply bind_Ok in H as (t1 & _ & H).
  apply bind_Ok in H as (t2 & _ & H).
  injection H as _ <-. eauto.
Qed.

Lemma columns_schema_shape (df : DataFrame) (table_name : value)
    (recs : list record) (sch : list column_spec) :
  make_columns_view df table_name = Ok (recs, sch) ->
  exists b1 b2 b3 b4,
    sch = (when b1 (mkCol "Column" "name" false "text" "input")
           ++ when b2 (mkCol "Description" "description" true "text" "input")
           ++ when b3 (mkCol "Table" "parent" false "text" "input")
           ++ when b4 (mkCol "Type" "type" false "text" "input"))%list.
Proof.
  unfold make_columns_view. intros H.
  apply bind_Ok in H as (t1 & _ & H).
  injection H as _ <-. eauto.
Qed.

Ltac schema_cases H :=
  simpl in H;
  repeat (destruct H as [<- | H];
          [simpl; split; (discriminate || reflexivity) |]);
  contradiction.

(** C8: in the schema returned by the Tables projection and by the Columns
    projection, every field except [description] (name, parent, type and the
    action marker included) is non-editable, and [description] is editable
    whenever it is in the schema. *)
Theorem schema_only_description_editable :
  forall (df : DataFrame) (table_name : value) (recs : list record)
         (sch : list column_spec),
    make_tables_view df = Ok (recs, sch)
    \/ make_columns_view df table_name = Ok (recs, sch) ->
    only_description_editable sch.
Proof.
  intros df table_name recs sch [H | H] c Hin.
  - apply tables_schema_shape in H as (b1 & b2 & b3 & ->).
    destruct b1, b2, b3; schema_cases Hin.
  - apply columns_schema_shape in H as (b1 & b2 & b3 & b4 & ->).
    destruct b1, b2, b3, b4; schema_cases Hin.
Qed.

Lemma schema_only_description_editable_witness :
  only_description_editable
    [mkCol "Column" "name" false "text" "input";
     mkCol "Description" "description" true "text" "input";
     mkCol "Table" "parent" false "text" "input";
     mkCol "Type" "type" false "text" "input"].
Proof.
  apply (schema_only_description_editable
           (DataFrame_of_records orders_dict) (VStr "nothing") []).
  right. reflexivity.
Defined.

(** ** The master callback *)

Section ControllerFacts.

Variable read_table : string -> result DataFrame.
Variable insert_overwrite_table : string -> DataFrame -> result unit.
Variable now : string.

(** C9: Load tests the raw catalog and schema: a whitespace-only one
    counts as present, so the status is not the missing-input one; it is
    trimmed to the empty string, the data set name is composed from the
    trimmed values (["..data_dict"] when both are whitespace only), and a
    storage read is attempted under that name. *)
Theorem load_checks_before_trimming :
  forall (load_clicks back_clicks save_clicks : Z)
         (active_cell : option active_cell_t)
         (view_mode selected_table : value) (table_name : option string)
         (full_data_raw current_view_rows : option (list record))
         (catalog schema : string),
    catalog <> "" -> schema <> "" ->
    all_space catalog = true \/ all_space schema = true ->
    let out := main_controller read_table insert_overwrite_table now
                 (Some "load-btn") load_clicks active_cell back_clicks
                 save_clicks (Some catalog) (Some schema) view_mode
                 selected_table table_name full_data_raw
                 current_view_rows in
    let name := strip catalog ++ "." ++ strip schema ++ ".data_dict" in
    snd out = [ReadTable name]
    /\ (forall o, fst out = Ok o ->
                  load_status_out o
                  <> Update "Please enter both catalog and schema.")
    /\ (forall e, read_table name = Raise e ->
                  exists o, fst out = Ok o
                            /\ load_status_out o
                               = Update ("Error loading " ++ name ++ ": "
                                         ++ str_exn e))
    /\ (all_space catalog = true -> strip catalog = "")
    /\ (all_space schema = true -> strip schema = "")
    /\ (all_space catalog = true -> all_space schema = true ->
        name = "..data_dict").
Proof.
  intros load_clicks back_clicks save_clicks active_cell view_mode
         selected_table table_name full_data_raw current_view_rows
         catalog schema Hc Hs _ out name.
  assert (Hout : out = load_dictionary read_table now (Some catalog)
                                       (Some schema)) by reflexivity.
  apply String.eqb_neq in Hc, Hs.
  unfold load_dictionary, missing, text in Hout.
  rewrite Hc, Hs in Hout. cbn [orb] in Hout. fold name in Hout.
  repeat split.
  - rewrite Hout. destruct (read_table name); reflexivity.
  - intros o Ho. rewrite Hout in Ho.
    destruct (read_table name) as [df | e]; simpl in Ho.
    + destruct (make_tables_view df); simpl in Ho; [| discriminate].
      injection Ho as <-. simpl. discriminate.
    + injection Ho as <-. simpl. discriminate.
  - intros e He. rewrite Hout, He. simpl. eauto.
  - apply strip_all_space.
  - apply strip_all_space.
  - intros Ha Hb. subst name.
    now rewrite (strip_all_space _ Ha), (strip_all_space _ Hb).
Qed.

(** C10: an OpenRow action is a strict no-op (every output field
    unchanged) when the mode is not Tables, or the activated cell is not in
    the action-marker column, or no full data set is present, or the row
    index is missing or at least the number of displayed rows, or the
    resolved row has no name. *)
Theorem open_row_rejected_is_noop :
  forall (load_clicks back_clicks save_clicks : Z)
         (active_cell : option active_cell_t)
         (catalog schema : option string)
         (view_mode selected_table : value) (table_name : option string)
         (full_data_raw current_view_rows : option (list record)),
    view_mode <> VStr "tables"
    \/ active_cell = None
    \/ (exists c, active_cell = Some c
                  /\ cell_column_id c <> Some "__open__")
    \/ full_data_raw = None
    \/ (exists c, active_cell = Some c /\ cell_row c = None)
    \/ (exists c i, active_cell = Some c /\ cell_row c = Some i
                    /\ (Z.of_nat (List.length
                                    (view_records current_view_rows))
                        <= i)%Z)
    \/ (exists c i row, active_cell = Some c /\ cell_row c = Some i
                        /\ list_getitem (view_records current_view_rows) i
                           = Ok row
                        /\ truthy (get "name" row) = false) ->
    main_controller read_table insert_overwrite_table now
      (Some "db-table") load_clicks active_cell back_clicks save_clicks
      catalog schema view_mode selected_table table_name full_data_raw
      current_view_rows
    = (Ok unchanged, []).
Proof.
  intros load_clicks back_clicks save_clicks active_cell catalog schema
         view_mode selected_table table_name full_data_raw
         current_view_rows H.
  change (open_table active_cell view_mode full_data_raw
                     current_view_rows = (Ok unchanged, [])).
  unfold open_table.
  destruct active_cell as [c |]; [| reflexivity].
  destruct full_data_raw as [full |]; [| reflexivity].
  destruct (py_eq view_mode (VStr "tables")) eqn:Hmode;
    [| reflexivity].
  apply py_eq_VStr in Hmode.
  destruct (cell_column_id c) as [cid |] eqn:Hcid; [| reflexivity].
  destruct (String.eqb_spec cid "__open__") as [-> | Hne];
    [| reflexivity].
  cbn [andb].
  destruct H as [H | [H | [(c' & [= <-] & H) | [H | H]]]];
    try congruence.
  destruct H as [(c' & [= <-] & Hrow)
                | [(c' & i & [= <-] & Hrow & Hlen)
                  | (c' & i & row & [= <-] & Hrow & Hget & Hname)]];
    rewrite Hrow.
  - reflexivity.
  - destruct current_view_rows as [[| r rs] |]; try reflexivity.
    cbn [view_records] in Hlen.
    destruct (Z.ltb_spec i (Z.of_nat (List.length (r :: rs))));
      [lia | reflexivity].
  - destruct current_view_rows as [[| r rs] |]; try reflexivity.
    cbn [view_records] in Hget.
    destruct (Z.ltb_spec i (Z.of_nat (List.length (r :: rs))));
      [| reflexivity].
    rewrite Hget. cbn [bind]. now rewrite Hname.
Qed.

(** C1: on a Save with a data set name and a full data set present, if a
    step of the merge or the storage write raises an error, the emitted
    tuple leaves the full data set, the displayed rows, the schema, the
    label, the mode and the selected table (and every other field)
    unchanged and sets the save status to ["Error saving changes: "]
    followed by the error message. *)
Theorem save_error_leaves_state_unchanged :
  forall (load_clicks back_clicks save_clicks : Z)
         (active_cell : option active_cell_t)
         (catalog schema : option string)
         (view_mode selected_table : value) (table_name : string)
         (full_data_raw : list record)
         (current_view_rows : option (list record)) (e : exn),
    table_name <> "" ->
    merge_edits full_data_raw current_view_rows view_mode selected_table
      = Raise e
    \/ (exists full_df,
           merge_edits full_data_raw current_view_rows view_mode
                       selected_table = Ok full_df
           /\ insert_overwrite_table table_name full_df = Raise e) ->
    fst (main_controller read_table insert_overwrite_table now
           (Some "save-btn") load_clicks active_cell back_clicks
           save_clicks catalog schema view_mode selected_table
           (Some table_name) (Some full_data_raw) current_view_rows)
    = Ok (mkOut no_update no_update no_update no_update no_update
                no_update no_update no_update
                (Update ("Error saving changes: " ++ str_exn e))).
Proof.
  intros load_clicks back_clicks save_clicks active_cell catalog schema
         view_mode selected_table table_name full_data_raw
         current_view_rows e Hname H.
  change (fst (save_changes insert_overwrite_table save_clicks view_mode
                            selected_table (Some table_name)
                            (Some full_data_raw) current_view_rows)
          = Ok (with_save_status ("Error saving changes: " ++ str_exn e)
                                 unchanged)).
  unfold save_changes, missing, text, save_try.
  apply String.eqb_neq in Hname. rewrite Hname.
  destruct H as [-> | (full_df & -> & ->)]; reflexivity.
Qed.

End ControllerFacts.

(** A storage adapter whose every call fails. *)
Lemma load_checks_before_trimming_witness :
  snd (main_controller (fun _ => Raise (StorageError "offline"))
         (fun _ _ => Raise (StorageError "offline")) "12:00:00"
         (Some "load-btn") 1 None 0 0 (Some " ") (Some "  ")
         VNone VNone None None None)
  = [ReadTable "..data_dict"].
Proof.
  refine (proj1 (load_checks_before_trimming _ _ _ 1 0 0 None VNone VNone
                   None None None " " "  " _ _ _)).
  - discriminate.
  - discriminate.
  - left. reflexivity.
Defined.

Lemma open_row_rejected_is_noop_witness :
  main_controller (fun _ => Raise (StorageError "offline"))
    (fun _ _ => Raise (StorageError "offline")) "12:00:00"
    (Some "db-table") 0 (Some (mkCell (Some 5%Z) (Some "__open__"))) 0 0
    None None (VStr "tables") VNone (Some "c.s.data_dict")
    (Some orders_dict) (Some [entry (VStr "orders") VNone VNone VNone])
  = (Ok unchanged, []).
Proof.
  apply open_row_rejected_is_noop.
  do 5 right. left.
  exists (mkCell (Some 5%Z) (Some "__open__")), 5%Z.
  repeat split. simpl. lia.
Defined.

Lemma save_error_leaves_state_unchanged_witness :
  fst (main_controller (fun _ => Raise (StorageError "offline"))
         (fun _ _ => Raise (StorageError "offline")) "12:00:00"
         (Some "save-btn") 0 None 0 1 None None (VStr "tables") VNone
         (Some "c.s.data_dict") (Some orders_dict) (Some []))
  = Ok (mkOut no_update no_update no_update no_update no_update no_update
              no_update no_update
              (Update "Error saving changes: offline")).
Proof.
  apply (save_error_leaves_state_unchanged _ _ _ 0 0 1 None None None
           (VStr "tables") VNone "c.s.data_dict" orders_dict (Some [])
           (StorageError "offline")).
  - discriminate.
  - right. eexists. split; reflexivity.
Defined.

(** ** Records *)

Lemma mem_In (c : string) (l : list string) : mem c l = true <-> In c l.
Proof.
  unfold mem. rewrite existsb_exists. split.
  - intros (x & Hx & Heq). apply String.eqb_eq in Heq. now subst.
  - intros H. exists c. split; [assumption | apply String.eqb_refl].
Qed.

Lemma mem_false (c : string) (l : list string) :
  mem c l = false <-> ~ In c l.
Proof.
  rewrite <- mem_In. destruct (mem c l); split; congruence.
Qed.

Lemma dict_get_In (k : string) (r : record) :
  In k (keys r) <-> exists v, dict_get k r = Some v.
Proof.
  induction r as [| [k' v'] r IH]; simpl.
  - split; [contradiction | intros (v & H); discriminate].
  - destruct (String.eqb_spec k k') as [-> | Hne].
    + split; eauto.
    + rewrite <- IH. split; [intros [H | H]; congruence | auto].
Qed.

Lemma dict_get_None (k : string) (r : record) :
  ~ In k (keys r) -> dict_get k r = None.
Proof.
  intros H. destruct (dict_get k r) eqn:E; [| reflexivity].
  exfalso. apply H, dict_get_In. eauto.
Qed.

Lemma dict_get_cell (k : string) (r : record) :
  In k (keys r) -> dict_get k r = Some (cell k r).
Proof.
  intros H. apply dict_get_In in H as (v & Hv).
  unfold cell. now rewrite Hv.
Qed.

Lemma get_cell (k : string) (r : record) :
  In k (keys r) -> get k r = cell k r.
Proof.
  intros H. apply dict_get_In in H as (v & Hv).
  unfold get, cell. now rewrite Hv.
Qed.

Lemma get_not_None (k : string) (r : record) :
  is_None (get k r) = false -> In k (keys r).
Proof.
  unfold get. intros H. apply dict_get_In.
  destruct (dict_get k r); [eauto | discriminate].
Qed.

Lemma cell_in_keys (c : string) (r : record) :
  is_null (cell c r) = false -> In c (keys r).
Proof.
  unfold cell. intros H. apply dict_get_In.
  destruct (dict_get c r); [eauto | discriminate].
Qed.

Lemma dict_set_id (k : string) (v : value) (r : record) :
  dict_get k r = Some v -> dict_set k v r = r.
Proof.
  induction r as [| [k' v'] r IH]; simpl; [discriminate |].
  destruct (String.eqb_spec k k') as [-> | Hne].
  - now intros [= ->].
  - intros H. now rewrite IH.
Qed.

Lemma dict_get_set_other (k k' : string) (v : value) (r : record) :
  k' <> k -> dict_get k' (dict_set k v r) = dict_get k' r.
Proof.
  intros Hne. induction r as [| [k0 v0] r IH]; simpl.
  - destruct (String.eqb_spec k' k); [contradiction | reflexivity].
  - destruct (String.eqb_spec k k0) as [-> | Hk]; simpl.
    + destruct (String.eqb_spec k' k0); [contradiction | reflexivity].
    + destruct (String.eqb_spec k' k0); [reflexivity | assumption].
Qed.

Lemma dict_get_set_same (k : string) (v : value) (r : record) :
  dict_get k (dict_set k v r) = Some v.
Proof.
  induction r as [| [k0 v0] r IH]; simpl.
  - now rewrite String.eqb_refl.
  - destruct (String.eqb_spec k k0) as [-> | Hk]; simpl.
    + now rewrite String.eqb_refl.
    + destruct (String.eqb_spec k k0); [contradiction | assumption].
Qed.

Lemma keys_dict_set_in (k : string) (v : value) (r : record) :
  In k (keys r) -> keys (dict_set k v r) = keys r.
Proof.
  induction r as [| [k0 v0] r IH]; simpl; [contradiction |].
  destruct (String.eqb_spec k k0) as [-> | Hk]; simpl; [reflexivity |].
  intros [H | H]; [congruence | now rewrite IH].
Qed.

Lemma keys_dict_set_new (k : string) (v : value) (r : record) :
  ~ In k (keys r) -> keys (dict_set k v r) = (keys r ++ [k])%list.
Proof.
  induction r as [| [k0 v0] r IH]; simpl; [reflexivity |].
  intros H. destruct (String.eqb_spec k k0) as [-> | Hk]; simpl.
  - exfalso. auto.
  - rewrite IH; auto.
Qed.

Lemma cell_set_other (k k' : string) (v : value) (r : record) :
  k' <> k -> cell k' (dict_set k v r) = cell k' r.
Proof.
  intros H. unfold cell. now rewrite dict_get_set_other.
Qed.

Lemma get_set_other (k k' : string) (v : value) (r : record) :
  k' <> k -> get k' (dict_set k v r) = get k' r.
Proof.
  intros H. unfold get. now rewrite dict_get_set_other.
Qed.

(** Overwriting a row with cells it already has changes nothing. *)
Lemma overwrite_id (view_cols : list string) (row r : record) :
  (forall c, In c view_cols -> dict_get c r = Some (cell c row)) ->
  overwrite view_cols row r = r.
Proof.
  unfold overwrite. induction view_cols as [| c cs IH]; simpl;
    [reflexivity |].
  intros H. rewrite dict_set_id by auto. auto.
Qed.

Lemma keys_overwrite (view_cols : list string) (row r : record) :
  (forall c, In c view_cols -> In c (keys r)) ->
  keys (overwrite view_cols row r) = keys r.
Proof.
  unfold overwrite. revert r.
  induction view_cols as [| c cs IH]; simpl; intros r H; [reflexivity |].
  rewrite IH.
  - apply keys_dict_set_in. auto.
  - intros c' Hc'. rewrite keys_dict_set_in; auto.
Qed.

(** ** Masks *)

Lemma series_eq_cells (c : string) (v : value) (rs : list record) :
  series_eq (map (cell c) rs) v = map (fun r => py_eq (cell c r) v) rs.
Proof. unfold series_eq. now rewrite map_map. Qed.

Lemma series_ne_cells (c : string) (v : value) (rs : list record) :
  series_ne (map (cell c) rs) v = map (fun r => py_ne (cell c r) v) rs.
Proof. unfold series_ne. now rewrite map_map. Qed.

Lemma mask_and_map {A : Type} (f g : A -> bool) (l : list A) :
  mask_and (map f l) (map g l) = map (fun x => f x && g x) l.
Proof.
  unfold mask_and. induction l as [| x l IH]; simpl; [reflexivity |].
  now rewrite IH.
Qed.

Lemma filter_mask_map {A : Type} (p : A -> bool) (l : list A) :
  filter_mask (map p l) l = filter p l.
Proof.
  induction l as [| x l IH]; simpl; [reflexivity |].
  rewrite IH. reflexivity.
Qed.

Lemma under_mask_map (f : record -> record) (p : record -> bool)
    (rs : list record) :
  under_mask f (map p rs) rs = map (fun r => if p r then f r else r) rs.
Proof.
  unfold under_mask. induction rs as [| r rs IH]; simpl; [reflexivity |].
  now rewrite IH.
Qed.

Lemma under_mask_length (f : record -> record) (m : list bool)
    (rs : list record) :
  List.length m = List.length rs ->
  List.length (under_mask f m rs) = List.length rs.
Proof.
  intros H. unfold under_mask.
  rewrite length_map, length_combine. lia.
Qed.

Lemma under_mask_compose (f g : record -> record) (m : list bool)
    (rs : list record) :
  under_mask f m (under_mask g m rs) = under_mask (fun r => f (g r)) m rs.
Proof.
  unfold under_mask. revert rs.
  induction m as [| b m IH]; intros [| r rs]; simpl; try reflexivity.
  rewrite IH. destruct b; reflexivity.
Qed.

Lemma under_mask_same (m : list bool) (rs : list record) :
  List.length m = List.length rs -> under_mask (fun r => r) m rs = rs.
Proof.
  unfold under_mask. revert rs.
  induction m as [| b m IH]; intros [| r rs]; simpl; try discriminate;
    [reflexivity |].
  intros [= H]. rewrite IH by assumption. destruct b; reflexivity.
Qed.

(** The inner loop of a merge, row by row. *)
Lemma assign_row_under_mask (m : list bool) (view_cols : list string)
    (row : record) (df : DataFrame) :
  (forall c, In c view_cols -> In c (columns df)) ->
  List.length m = List.length (rows df) ->
  assign_row m view_cols row df
  = mkDF (columns df) (under_mask (overwrite view_cols row) m (rows df)).
Proof.
  unfold assign_row. revert df.
  induction view_cols as [| c cs IH]; intros [cols rs] Hin Hlen; simpl in *.
  - now rewrite under_mask_same.
  - unfold loc_set at 2. unfold in_columns. simpl.
    assert (Hc : mem c cols = true) by (apply mem_In; auto).
    rewrite Hc. rewrite IH; simpl.
    + now rewrite under_mask_compose.
    + auto.
    + now rewrite under_mask_length.
Qed.

Lemma getitem_Ok (c : string) (df : DataFrame) :
  In c (columns df) -> getitem c df = Ok (map (cell c) (rows df)).
Proof.
  intros H. unfold getitem, in_columns.
  apply mem_In in H. now rewrite H.
Qed.

(** One iteration of the tables loop, row by row. *)
Lemma merge_tables_row_rowwise (view_cols : list string) (df : DataFrame)
    (row : record) :
  (forall c, In c view_cols -> In c (columns df)) ->
  (forall c, In c (keys row) -> In c (columns df)) ->
  merge_tables_row view_cols df row
  = Ok (mkDF (columns df)
             (map (merge_step (tables_match (in_columns "type" df))
                              view_cols row)
                  (rows df))).
Proof.
  intros Hcols Hkeys. unfold merge_tables_row, merge_step.
  destruct (is_None (get "name" row)) eqn:Hn;
    [destruct df; simpl; now rewrite map_id |].
  destruct (is_None (get "parent" row)) eqn:Hp;
    [destruct df; simpl; now rewrite map_id |].
  cbn [orb].
  apply get_not_None in Hn, Hp.
  rewrite !(getitem_Ok "name"), !(getitem_Ok "parent") by auto.
  unfold tables_match.
  destruct (in_columns "type" df) eqn:Ht.
  - rewrite (getitem_Ok "type") by (now apply mem_In).
    cbn [bind]. rewrite !series_eq_cells, !mask_and_map.
    rewrite assign_row_under_mask by (auto; now rewrite length_map).
    now rewrite under_mask_map.
  - cbn [bind]. rewrite !series_eq_cells, !mask_and_map.
    rewrite assign_row_under_mask by (auto; now rewrite length_map).
    now rewrite under_mask_map.
Qed.

(** One iteration of the columns loop, row by row. *)
Lemma merge_columns_row_rowwise (view_cols : list string) (df : DataFrame)
    (row : record) :
  (forall c, In c view_cols -> In c (columns df)) ->
  (forall c, In c (keys row) -> In c (columns df)) ->
  merge_columns_row view_cols df row
  = Ok (mkDF (columns df)
             (map (merge_step (columns_match (in_columns "type" df)
                                             view_cols)
                              view_cols row)
                  (rows df))).
Proof.
  intros Hcols Hkeys. unfold merge_columns_row, merge_step.
  destruct (is_None (get "name" row)) eqn:Hn;
    [destruct df; simpl; now rewrite map_id |].
  destruct (is_None (get "parent" row)) eqn:Hp;
    [destruct df; simpl; now rewrite map_id |].
  cbn [orb].
  apply get_not_None in Hn, Hp.
  rewrite !(getitem_Ok "name"), !(getitem_Ok "parent") by auto.
  unfold columns_match.
  destruct (in_columns "type" df
            && negb (is_None (if mem "type" view_cols
                              then get "type" row else VNone))) eqn:Ht.
  - apply andb_true_iff in Ht as [Ht _].
    rewrite (getitem_Ok "type") by (now apply mem_In).
    cbn [bind]. rewrite !series_eq_cells, !mask_and_map.
    rewrite assign_row_under_mask by (auto; now rewrite length_map).
    now rewrite under_mask_map.
  - cbn [bind]. rewrite !series_eq_cells, !mask_and_map.
    rewrite assign_row_under_mask by (auto; now rewrite length_map).
    now rewrite under_mask_map.
Qed.

Lemma merge_row_cons (matches : record -> record -> bool)
    (view_cols : list string) (row : record) (rest : list record)
    (r : record) :
  merge_row matches view_cols (row :: rest) r
  = merge_row matches view_cols rest (merge_step matches view_cols row r).
Proof. reflexivity. Qed.

(** The tables loop, row by row: it never raises. *)
Lemma iterrows_tables_rowwise (view_cols : list string)
    (view_rows : list record) (df : DataFrame) :
  (forall c, In c view_cols -> In c (columns df)) ->
  (forall row c, In row view_rows -> In c (keys row) ->
                 In c (columns df)) ->
  iterrows (merge_tables_row view_cols) view_rows df
  = Ok (mkDF (columns df)
             (map (merge_row (tables_match (in_columns "type" df))
                             view_cols view_rows)
                  (rows df))).
Proof.
  revert df.
  induction view_rows as [| row rest IH]; intros df Hcols Hkeys; simpl.
  - destruct df; simpl. unfold merge_row. simpl. now rewrite map_id.
  - assert (Hrow : forall c, In c (keys row) -> In c (columns df))
      by (intros c Hc; apply (Hkeys row c); [apply in_eq | assumption]).
    assert (Hrest : forall row' c, In row' rest -> In c (keys row') ->
                                   In c (columns df))
      by (intros row' c Hr Hc; apply (Hkeys row' c);
          [now apply in_cons | assumption]).
    rewrite merge_tables_row_rowwise by assumption.
    cbn [bind]. rewrite IH by assumption. simpl.
    unfold in_columns. simpl. now rewrite map_map.
Qed.

(** The columns loop, row by row: it never raises. *)
Lemma iterrows_columns_rowwise (view_cols : list string)
    (view_rows : list record) (df : DataFrame) :
  (forall c, In c view_cols -> In c (columns df)) ->
  (forall row c, In row view_rows -> In c (keys row) ->
                 In c (columns df)) ->
  iterrows (merge_columns_row view_cols) view_rows df
  = Ok (mkDF (columns df)
             (map (merge_row (columns_match (in_columns "type" df)
                                            view_cols)
                             view_cols view_rows)
                  (rows df))).
Proof.
  revert df.
  induction view_rows as [| row rest IH]; intros df Hcols Hkeys; simpl.
  - destruct df; simpl. unfold merge_row. simpl. now rewrite map_id.
  - assert (Hrow : forall c, In c (keys row) -> In c (columns df))
      by (intros c Hc; apply (Hkeys row c); [apply in_eq | assumption]).
    assert (Hrest : forall row' c, In row' rest -> In c (keys row') ->
                                   In c (columns df))
      by (intros row' c Hr Hc; apply (Hkeys row' c);
          [now apply in_cons | assumption]).
    rewrite merge_columns_row_rowwise by assumption.
    cbn [bind]. rewrite IH by assumption. simpl.
    unfold in_columns. simpl. now rewrite map_map.
Qed.

(** ** Frames built from records *)

Lemma add_keys_In (c : string) (ks acc : list string) :
  In c (add_keys acc ks) <-> In c acc \/ In c ks.
Proof.
  revert acc. induction ks as [| k ks IH]; intros acc; simpl.
  - tauto.
  - rewrite IH. destruct (mem k acc) eqn:Hk.
    + apply mem_In in Hk. split; [tauto |].
      intros [H | [<- | H]]; auto.
    + rewrite in_app_iff. simpl. tauto.
Qed.

Lemma add_keys_NoDup (ks acc : list string) :
  NoDup acc -> NoDup (add_keys acc ks).
Proof.
  revert acc. induction ks as [| k ks IH]; intros acc H; simpl;
    [assumption |].
  apply IH. destruct (mem k acc) eqn:Hk; [assumption |].
  apply mem_false in Hk.
  apply NoDup_app; [assumption | repeat constructor; simpl; tauto |].
  intros x Hx [<- | []]. contradiction.
Qed.

Lemma fold_keys_In (c : string) (records : list record)
    (acc : list string) :
  In c (fold_left (fun acc r => add_keys acc (keys r)) records acc)
  <-> In c acc \/ exists p, In p records /\ In c (keys p).
Proof.
  revert acc. induction records as [| r rs IH]; intros acc; simpl.
  - split; [auto | intros [H | (p & [] & _)]; assumption].
  - rewrite IH, add_keys_In. split.
    + intros [[H | H] | (p & Hp & Hc)]; eauto.
    + intros [H | (p & [<- | Hp] & Hc)]; eauto.
Qed.

Lemma all_keys_In (c : string) (records : list record) :
  In c (all_keys records) <-> exists p, In p records /\ In c (keys p).
Proof.
  unfold all_keys. rewrite fold_keys_In. simpl. tauto.
Qed.

Lemma fold_keys_NoDup (records : list record) (acc : list string) :
  NoDup acc ->
  NoDup (fold_left (fun acc r => add_keys acc (keys r)) records acc).
Proof.
  revert acc. induction records as [| r rs IH]; intros acc H; simpl;
    [assumption |].
  apply IH, add_keys_NoDup, H.
Qed.

Lemma keys_reindex (cols : list string) (r : record) :
  keys (reindex cols r) = cols.
Proof.
  unfold keys, reindex. rewrite map_map. simpl. apply map_id.
Qed.

Lemma dict_get_reindex (c : string) (cols : list string) (r : record) :
  In c cols -> dict_get c (reindex cols r) = Some (cell c r).
Proof.
  induction cols as [| c0 cols IH]; simpl; [contradiction |].
  destruct (String.eqb_spec c c0) as [-> | Hne]; [reflexivity |].
  intros [H | H]; [congruence | auto].
Qed.

Lemma DataFrame_of_records_wf (records : list record) :
  well_formed (DataFrame_of_records records).
Proof.
  split; simpl.
  - apply fold_keys_NoDup. constructor.
  - apply Forall_map, Forall_forall. intros r _. apply keys_reindex.
Qed.

(** ** The view frame of a merge *)

Lemma filter_nil_all {A : Type} (f : A -> bool) (l : list A) :
  filter f l = [] -> forall x, In x l -> f x = false.
Proof.
  induction l as [| a l IH]; simpl; [contradiction |].
  destruct (f a) eqn:Ha; [discriminate |].
  intros H x [<- | Hx]; auto.
Qed.

Lemma keys_filter (f : string -> bool) (r : record) :
  keys (filter (fun kv => f (fst kv)) r) = filter f (keys r).
Proof.
  induction r as [| [k v] r IH]; simpl; [reflexivity |].
  destruct (f k); simpl; now rewrite IH.
Qed.

Lemma dict_get_filter (f : string -> bool) (c : string) (r : record) :
  f c = true -> dict_get c (filter (fun kv => f (fst kv)) r) = dict_get c r.
Proof.
  intros Hc. induction r as [| [k v] r IH]; simpl; [reflexivity |].
  destruct (f k) eqn:Hk; simpl.
  - now rewrite IH.
  - destruct (String.eqb_spec c k); [congruence | assumption].
Qed.

(** The columns of the view frame once the helper columns are dropped:
    the keys of the displayed rows that the full frame has too. *)
Lemma view_frame_columns (full : DataFrame) (records : list record)
    (c : string) :
  In c (columns (drop_helper_cols full (DataFrame_of_records records)))
  <-> In c (all_keys records) /\ In c (columns full).
Proof.
  unfold drop_helper_cols.
  set (view := DataFrame_of_records records).
  change (all_keys records) with (columns view).
  destruct (filter (fun c => negb (in_columns c full)) (columns view))
    as [| h hs] eqn:Hh.
  - split; [| tauto]. intros Hc. split; [assumption |].
    apply (filter_nil_all _ _ Hh) in Hc.
    apply negb_false_iff in Hc. now apply mem_In.
  - rewrite <- Hh. unfold df_drop. simpl.
    rewrite filter_In, negb_true_iff, mem_false, filter_In.
    rewrite negb_true_iff. unfold in_columns.
    rewrite <- (mem_In c (columns full)).
    destruct (mem c (columns full)); intuition congruence.
Qed.

(** Its rows: every row carries exactly these columns, with the cells of a
    displayed row. *)
Lemma view_frame_rows (full : DataFrame) (records : list record)
    (row : record) :
  let view := drop_helper_cols full (DataFrame_of_records records) in
  In row (rows view) ->
  keys row = columns view
  /\ exists p, In p records
               /\ forall c, In c (columns view) ->
                            dict_get c row = Some (cell c p).
Proof.
  unfold drop_helper_cols.
  set (view := DataFrame_of_records records).
  destruct (filter (fun c => negb (in_columns c full)) (columns view))
    as [| h hs] eqn:Hh; cbv zeta.
  - simpl. intros Hrow. apply in_map_iff in Hrow as (p & <- & Hp).
    split; [apply keys_reindex |].
    exists p. split; [assumption |].
    intros c Hc. now apply dict_get_reindex.
  - unfold df_drop. simpl. intros Hrow.
    apply in_map_iff in Hrow as (r & <- & Hr).
    apply in_map_iff in Hr as (p & <- & Hp).
    split.
    + rewrite (keys_filter (fun c => negb (mem c (h :: hs)))).
      now rewrite keys_reindex.
    + exists p. split; [assumption |]. intros c Hc.
      apply filter_In in Hc as [Hc Hkeep].
      rewrite (dict_get_filter (fun c => negb (mem c (h :: hs))))
        by assumption.
      now apply dict_get_reindex.
Qed.

Lemma view_frame_sub (full : DataFrame) (records : list record) :
  let view := drop_helper_cols full (DataFrame_of_records records) in
  (forall c, In c (columns view) -> In c (columns full))
  /\ (forall row c, In row (rows view) -> In c (keys row) ->
                    In c (columns full)).
Proof.
  cbv zeta. split.
  - intros c Hc. now apply view_frame_columns in Hc.
  - intros row c Hrow Hc.
    apply view_frame_rows in Hrow as [Hkeys _]. rewrite Hkeys in Hc.
    now apply view_frame_columns in Hc.
Qed.

(** The rows of the view frame, record by record. *)
Lemma view_frame_map (full : DataFrame) (records : list record) :
  let view := drop_helper_cols full (DataFrame_of_records records) in
  exists g : record -> record,
    rows view = map g records
    /\ forall p,
        keys (g p) = columns view
        /\ forall c, In c (columns view) ->
                     dict_get c (g p) = Some (cell c p).
Proof.
  unfold drop_helper_cols.
  set (view := DataFrame_of_records records).
  destruct (filter (fun c => negb (in_columns c full)) (columns view))
    as [| h hs] eqn:Hh; cbv zeta.
  - exists (reindex (all_keys records)). split; [reflexivity |].
    intros p. split; [apply keys_reindex |].
    intros c Hc. now apply dict_get_reindex.
  - exists (fun p => filter (fun kv => negb (mem (fst kv) (h :: hs)))
                            (reindex (all_keys records) p)).
    split; [unfold df_drop; simpl; now rewrite map_map |].
    intros p. unfold df_drop. simpl. split.
    + rewrite (keys_filter (fun c => negb (mem c (h :: hs)))).
      now rewrite keys_reindex.
    + intros c Hc. apply filter_In in Hc as [Hc Hkeep].
      rewrite (dict_get_filter (fun c => negb (mem c (h :: hs))))
        by assumption.
      now apply dict_get_reindex.
Qed.

(** In the tables mode the merge is the row-wise update; it never raises. *)
Lemma merge_edits_tables (full_data_raw : list record)
    (current_view_rows : option (list record)) (selected_table : value) :
  let full := DataFrame_of_records full_data_raw in
  let view := drop_helper_cols full
                (DataFrame_of_records (view_records current_view_rows)) in
  merge_edits full_data_raw current_view_rows (VStr "tables")
              selected_table
  = Ok (mkDF (columns full)
             (map (merge_row (tables_match (in_columns "type" full))
                             (columns view) (rows view))
                  (rows full))).
Proof.
  cbv zeta. unfold merge_edits. cbn [py_eq String.eqb Ascii.eqb Bool.eqb].
  apply iterrows_tables_rowwise; apply view_frame_sub.
Qed.

(** So it is in the columns mode with a selected table. *)
Lemma merge_edits_columns (full_data_raw : list record)
    (current_view_rows : option (list record)) (selected_table : value) :
  truthy selected_table = true ->
  let full := DataFrame_of_records full_data_raw in
  let view := drop_helper_cols full
                (DataFrame_of_records (view_records current_view_rows)) in
  merge_edits full_data_raw current_view_rows (VStr "columns")
              selected_table
  = Ok (mkDF (columns full)
             (map (merge_row (columns_match (in_columns "type" full)
                                            (columns view))
                             (columns view) (rows view))
                  (rows full))).
Proof.
  intros Hsel. cbv zeta. unfold merge_edits.
  cbn [py_eq String.eqb Ascii.eqb Bool.eqb]. rewrite Hsel. cbn [andb].
  apply iterrows_columns_rowwise; apply view_frame_sub.
Qed.

(** ** Which merge runs *)

(** The merge in every mode: the row-wise update in the two scoped modes,
    the view frame otherwise. It never raises. *)
Lemma merge_edits_rowwise (full_data_raw : list record)
    (current_view_rows : option (list record))
    (view_mode selected_table : value) :
  let full := DataFrame_of_records full_data_raw in
  let view := drop_helper_cols full
                (DataFrame_of_records (view_records current_view_rows)) in
  let matches :=
    if py_eq view_mode (VStr "tables")
    then tables_match (in_columns "type" full)
    else columns_match (in_columns "type" full) (columns view) in
  merge_edits full_data_raw current_view_rows view_mode selected_table
  = Ok (if scoped_mode view_mode selected_table
        then mkDF (columns full)
                  (map (merge_row matches (columns view) (rows view))
                       (rows full))
        else view).
Proof.
  cbv zeta. unfold scoped_mode.
  destruct (py_eq view_mode (VStr "tables")) eqn:Ht.
  - apply py_eq_VStr in Ht as ->. apply merge_edits_tables.
  - cbn [orb].
    destruct (py_eq view_mode (VStr "columns")) eqn:Hc; cbn [andb].
    + apply py_eq_VStr in Hc as ->.
      destruct (truthy selected_table) eqn:Hsel.
      * now apply merge_edits_columns.
      * unfold merge_edits. cbn [py_eq String.eqb Ascii.eqb Bool.eqb].
        now rewrite Hsel.
    + unfold merge_edits. now rewrite Ht, Hc.
Qed.

Lemma scoped_mode_spec (view_mode selected_table : value) :
  scoped_mode view_mode selected_table = true
  <-> view_mode = VStr "tables"
      \/ (view_mode = VStr "columns" /\ truthy selected_table = true).
Proof.
  unfold scoped_mode.
  rewrite orb_true_iff, andb_true_iff, !py_eq_VStr. tauto.
Qed.

(** C4, as the code has it: the merge replaces the full data set by the
    edited rows (less their helper columns) when the mode is neither Tables
    nor Columns and also when the mode is Columns without a selected table;
    in the Tables mode, and in the Columns mode with a selected table, it
    applies the row-wise keyed update, which keeps the columns and the
    number of rows of the full data set. *)
Theorem merge_replaces_outside_scoped_modes :
  forall (full_data_raw : list record)
         (current_view_rows : option (list record))
         (view_mode selected_table : value),
    let full := DataFrame_of_records full_data_raw in
    let view := drop_helper_cols full
                  (DataFrame_of_records (view_records current_view_rows)) in
    let scoped :=
      view_mode = VStr "tables"
      \/ (view_mode = VStr "columns" /\ truthy selected_table = true) in
    (~ scoped ->
     merge_edits full_data_raw current_view_rows view_mode selected_table
     = Ok view)
    /\ (scoped ->
        exists merged matches,
          merge_edits full_data_raw current_view_rows view_mode
                      selected_table = Ok merged
          /\ columns merged = columns full
          /\ List.length (rows merged) = List.length (rows full)
          /\ rows merged
             = map (merge_row matches (columns view) (rows view))
                   (rows full)
          /\ (view_mode = VStr "tables" ->
              matches = tables_match (in_columns "type" full))
          /\ (view_mode = VStr "columns" ->
              matches = columns_match (in_columns "type" full)
                                      (columns view))).
Proof.
  intros full_data_raw current_view_rows view_mode selected_table
         full view scoped.
  pose proof (merge_edits_rowwise full_data_raw current_view_rows
                view_mode selected_table) as Hm.
  cbv zeta in Hm. fold full in Hm. fold view in Hm.
  pose proof (scoped_mode_spec view_mode selected_table) as Hs.
  fold scoped in Hs.
  destruct (scoped_mode view_mode selected_table).
  - split; [intros Hn; exfalso; apply Hn, Hs; reflexivity |].
    intros _. do 2 eexists. split; [exact Hm |].
    split; [reflexivity |]. split; [apply length_map |].
    split; [reflexivity |].
    split; intros ->; reflexivity.
  - split; [intros _; exact Hm |].
    intros H. apply Hs in H. discriminate.
Qed.

(** In the Columns mode without a selected table the two rows of the full
    data set are replaced by the one displayed row. *)
Lemma columns_mode_replaces_without_selection :
  merge_edits orders_dict (Some [edited_id]) (VStr "columns") VNone
  = Ok (mkDF ["name"; "parent"; "type"; "description"] [edited_id])
  /\ List.length (rows (DataFrame_of_records orders_dict)) = 2%nat.
Proof. split; reflexivity. Qed.

(** ** Projections *)

(** C5, at the empty data set: [pd.DataFrame([])] has no columns, and the
    Columns projection raises [KeyError] on its parent filter. So it does on
    any data set without a parent field: the Tables projection of
    [names_only] is built, and opening its row raises out of the
    callback. *)
Theorem columns_view_raises_without_parent :
  make_columns_view (DataFrame_of_records []) (VStr "orders")
  = Raise (KeyError "parent")
  /\ make_columns_view (DataFrame_of_records names_only) (VStr "orders")
     = Raise (KeyError "parent")
  /\ (exists view sch,
         make_tables_view (DataFrame_of_records names_only)
         = Ok (view, sch)
         /\ main_controller (fun _ => Raise (StorageError "offline"))
              (fun _ _ => Raise (StorageError "offline")) "12:00:00"
              (Some "db-table") 1
              (Some (mkCell (Some 0%Z) (Some "__open__"))) 0 0
              (Some "main") (Some "shop") (VStr "tables") VNone
              (Some "main.shop.data_dict") (Some names_only) (Some view)
            = (Raise (KeyError "parent"), [])).
Proof.
  split; [reflexivity |]. split; [reflexivity |].
  do 2 eexists. split; reflexivity.
Qed.

(** A frame with a column gives one record per row. *)
Lemma to_dict_records_rows (df : DataFrame) :
  columns df <> [] -> to_dict_records df = rows df.
Proof.
  unfold to_dict_records. destruct (columns df); [contradiction | reflexivity].
Qed.

Lemma to_dict_records_nil (df : DataFrame) :
  rows df = [] -> to_dict_records df = [].
Proof.
  unfold to_dict_records. intros ->. now destruct (columns df).
Qed.

Lemma set_label_nonempty (c : string) (cols : list string) :
  set_label c cols <> [].
Proof.
  unfold set_label. destruct (mem c cols) eqn:H.
  - intros ->. discriminate.
  - now destruct cols.
Qed.

Lemma in_columns_nonempty (c : string) (df : DataFrame) :
  in_columns c df = true -> columns df <> [].
Proof. unfold in_columns. intros H E. rewrite E in H. discriminate. Qed.

(** C6, what the code does on a data set without a type field. The Tables
    projection holds every row of the full data set, each with the action
    marker added (for a data set that has a field, or no row). The Columns
    projection for a parent holds exactly the rows whose parent equals it
    when the data set has a parent field; when it has none, the parent
    filter raises [KeyError] where the claim has a projection without
    rows. *)
Theorem untyped_projections :
  forall (df : DataFrame) (table_name : value),
    in_columns "type" df = false ->
    (rows df = [] \/ columns df <> [] ->
     exists sch,
       make_tables_view df
       = Ok (map (dict_set "__open__" (VStr "Open")) (rows df), sch))
    /\ (in_columns "parent" df = true ->
        exists sch,
          make_columns_view df table_name
          = Ok (filter (fun r => py_eq (cell "parent" r) table_name)
                       (rows df), sch))
    /\ (in_columns "parent" df = false ->
        make_columns_view df table_name = Raise (KeyError "parent")).
Proof.
  intros df table_name Htype. split; [| split].
  - intros Hshape. unfold make_tables_view. rewrite Htype. cbn [bind].
    unfold df_empty. destruct (rows df) as [| r rs] eqn:Hrows.
    + simpl. unfold setitem_list. rewrite Hrows. simpl.
      rewrite to_dict_records_rows by apply set_label_nonempty. eauto.
    + destruct Hshape as [Hnil | Hcols]; [discriminate |].
      destruct (columns df) as [| c cols] eqn:Hc; [contradiction |].
      simpl. rewrite to_dict_records_rows by apply set_label_nonempty.
      simpl. rewrite Hrows. eauto.
  - intros Hparent. unfold make_columns_view. rewrite Htype.
    rewrite getitem_Ok by (now apply mem_In). cbn [bind].
    rewrite series_eq_cells.
    rewrite to_dict_records_rows
      by (unfold df_filter; simpl; now apply in_columns_nonempty with "parent").
    unfold df_filter. simpl. rewrite filter_mask_map. eauto.
  - intros Hparent. unfold make_columns_view, getitem.
    now rewrite Htype, Hparent.
Qed.

(** On [names_only], which has neither field, the table is shown and
    opening it raises. *)
Lemma untyped_projections_witness :
  (exists sch,
      make_tables_view (DataFrame_of_records names_only)
      = Ok (map (dict_set "__open__" (VStr "Open"))
                (rows (DataFrame_of_records names_only)), sch))
  /\ make_columns_view (DataFrame_of_records names_only) (VStr "orders")
     = Raise (KeyError "parent").
Proof.
  destruct (untyped_projections (DataFrame_of_records names_only)
              (VStr "orders") eq_refl) as (Htables & _ & Hraise).
  split.
  - apply Htables. right. discriminate.
  - apply Hraise. reflexivity.
Defined.

(** ** Rows of the projections *)

Lemma columns_view_rows (df : DataFrame) (table_name : value)
    (view : list record) (sch : list column_spec) :
  make_columns_view df table_name = Ok (view, sch) ->
  In "parent" (columns df)
  /\ view = filter (fun r =>
                      if in_columns "type" df then
                        py_eq (cell "parent" r) table_name
                        && py_ne (cell "type" r) (VStr "table")
                      else py_eq (cell "parent" r) table_name)
                   (rows df).
Proof.
  unfold make_columns_view. intros H.
  destruct (in_columns "parent" df) eqn:Hp.
  - split; [now apply mem_In |].
    apply mem_In in Hp.
    destruct (in_columns "type" df) eqn:Ht.
    + rewrite (getitem_Ok "parent"), (getitem_Ok "type") in H
        by (assumption || now apply mem_In).
      cbn [bind] in H. injection H as <- _.
      rewrite series_eq_cells, series_ne_cells, mask_and_map.
      rewrite to_dict_records_rows
        by (unfold df_filter; simpl; intros E; now rewrite E in Hp).
      unfold df_filter. simpl. apply filter_mask_map.
    + rewrite (getitem_Ok "parent") in H by assumption.
      cbn [bind] in H. injection H as <- _.
      rewrite series_eq_cells.
      rewrite to_dict_records_rows
        by (unfold df_filter; simpl; intros E; now rewrite E in Hp).
      unfold df_filter. simpl. apply filter_mask_map.
  - exfalso. unfold getitem in H. rewrite Hp in H.
    destruct (in_columns "type" df); discriminate.
Qed.

Lemma edit_description_In (k : nat) (d : value) (view : list record)
    (p : record) :
  In p (edit_description k d view) ->
  exists p0, In p0 view /\ (p = p0 \/ p = dict_set "description" d p0).
Proof.
  revert k. induction view as [| r rest IH]; intros [| k]; simpl;
    try contradiction.
  - intros [<- | H]; eauto.
  - intros [<- | H]; [eauto |].
    apply IH in H as (p0 & Hp0 & H). eauto.
Qed.

Lemma rows_of_records_keys (records : list record) (r : record) :
  In r (rows (DataFrame_of_records records)) ->
  keys r = columns (DataFrame_of_records records).
Proof.
  intros H. destruct (DataFrame_of_records_wf records) as [_ Hwf].
  rewrite Forall_forall in Hwf. auto.
Qed.

Lemma merge_row_fixed (matches : record -> record -> bool)
    (view_cols : list string) (view_rows : list record) (r : record) :
  (forall row, In row view_rows ->
               merge_step matches view_cols row r = r) ->
  merge_row matches view_cols view_rows r = r.
Proof.
  induction view_rows as [| row rest IH]; intros H; [reflexivity |].
  rewrite merge_row_cons, H by apply in_eq.
  apply IH. intros row' Hrow'. apply H. now apply in_cons.
Qed.

Lemma py_eq_VStr_l (s : string) (v : value) :
  py_eq (VStr s) v = true -> v = VStr s.
Proof.
  destruct v as [| | t]; simpl; try discriminate.
  intros H. apply String.eqb_eq in H. now subst.
Qed.

Lemma keys_set_incl (k c : string) (v : value) (r : record) :
  In c (keys r) -> In c (keys (dict_set k v r)).
Proof.
  intros H.
  destruct (in_dec string_dec k (keys r)) as [Hk | Hk].
  - now rewrite keys_dict_set_in.
  - rewrite keys_dict_set_new by assumption. apply in_app_iff. auto.
Qed.

(** ** The merge in the Columns mode *)

(** C2, with the exception the merge rule makes: merging in the Columns
    mode the rows of the Columns projection for a table [T] (of a non-empty
    name), one description edited, leaves every row of the full data set
    whose parent differs from [T] exactly as it was; and it leaves every row
    whose type is ["table"] exactly as it was, unless the projection has a
    row of the same name whose type is [None] (such a row is matched by
    name and parent alone). *)
Theorem columns_merge_is_identity_scoped :
  forall (full_data_raw : list record) (T : string) (k : nat) (d : value)
         (view : list record) (sch : list column_spec),
    let full := DataFrame_of_records full_data_raw in
    T <> "" ->
    make_columns_view full (VStr T) = Ok (view, sch) ->
    exists merged,
      merge_edits full_data_raw (Some (edit_description k d view))
                  (VStr "columns") (VStr T) = Ok merged
      /\ columns merged = columns full
      /\ List.length (rows merged) = List.length (rows full)
      /\ forall i r,
          nth_error (rows full) i = Some r ->
          py_ne (cell "parent" r) (VStr T) = true
          \/ (py_eq (cell "type" r) (VStr "table") = true
              /\ forall v, In v view -> cell "type" v = VNone ->
                           py_eq (cell "name" r) (cell "name" v) = false) ->
          nth_error (rows merged) i = Some r.
Proof.
  intros raw T k d view sch full HT Hview.
  assert (Hsel : truthy (VStr T) = true)
    by (simpl; apply String.eqb_neq in HT; now rewrite HT).
  pose proof (merge_edits_columns raw (Some (edit_description k d view))
                (VStr T) Hsel) as Hm.
  cbv zeta in Hm. fold full in Hm. cbn [view_records] in Hm.
  set (vf := drop_helper_cols full
               (DataFrame_of_records (edit_description k d view))) in *.
  eexists. split; [exact Hm |].
  split; [reflexivity |]. split; [apply length_map |].
  intros i r Hi Hprot. cbn [rows].
  rewrite nth_error_map, Hi. cbn [option_map]. f_equal.
  apply merge_row_fixed. intros row Hrow.
  destruct (view_frame_rows full _ row Hrow) as [Hkeys (p & Hp & Hcells)].
  fold vf in Hkeys, Hcells.
  destruct (edit_description_In _ _ _ _ Hp) as (p0 & Hp0 & Hpp0).
  destruct (columns_view_rows _ _ _ _ Hview) as [Hparent Hveq].
  assert (Hshown : In p0 (rows full)
                   /\ cell "parent" p0 = VStr T
                   /\ (in_columns "type" full = true ->
                       py_ne (cell "type" p0) (VStr "table") = true)).
  { pose proof Hp0 as Hf. rewrite Hveq in Hf.
    apply filter_In in Hf as [Hin Hf].
    destruct (in_columns "type" full).
    - apply andb_true_iff in Hf as [Hpar Hty].
      apply py_eq_VStr in Hpar. auto.
    - apply py_eq_VStr in Hf. repeat split; (assumption || discriminate). }
  destruct Hshown as (Hp0full & Hpar & Hty).
  pose proof (rows_of_records_keys raw p0 Hp0full) as Hk0. fold full in Hk0.
  assert (Hin : forall c, In c (columns full) -> In c (columns vf)).
  { intros c Hc. apply view_frame_columns. split; [| assumption].
    apply all_keys_In. exists p. split; [assumption |].
    rewrite <- Hk0 in Hc.
    destruct Hpp0 as [-> | ->]; [assumption | now apply keys_set_incl]. }
  assert (Hcell : forall c, c <> "description" -> cell c p = cell c p0)
    by (intros c Hc; destruct Hpp0 as [-> | ->];
        [reflexivity | now apply cell_set_other]).
  assert (Hget : forall c, In c (columns vf) -> c <> "description" ->
                           get c row = cell c p0).
  { intros c Hc Hne. unfold get. rewrite Hcells by assumption.
    now apply Hcell. }
  unfold merge_step.
  destruct (is_None (get "name" row)) eqn:Hn; [reflexivity |].
  destruct (is_None (get "parent" row)) eqn:Hpa; [reflexivity |].
  cbn [orb].
  apply get_not_None in Hn, Hpa. rewrite Hkeys in Hn, Hpa.
  unfold columns_match.
  rewrite (Hget "name"), (Hget "parent"), Hpar by (assumption || discriminate).
  destruct Hprot as [Hprot | [Htable Hnone]].
  - unfold py_ne in Hprot. apply negb_true_iff in Hprot. rewrite Hprot.
    rewrite andb_false_r.
    now destruct (in_columns "type" full
                  && negb (is_None (if mem "type" (columns vf)
                                    then get "type" row else VNone))).
  - assert (Htype : in_columns "type" full = true).
    { apply mem_In.
      pose proof (rows_of_records_keys raw r (nth_error_In _ _ Hi)) as Hkr.
      fold full in Hkr. rewrite <- Hkr.
      apply py_eq_VStr in Htable. unfold cell in Htable.
      apply dict_get_In.
      destruct (dict_get "type" r); [eauto | discriminate]. }
    assert (Htin : In "type" (columns vf)) by (apply Hin; now apply mem_In).
    rewrite (proj2 (mem_In _ _) Htin), Htype, (Hget "type")
      by (assumption || discriminate).
    destruct (cell "type" p0) as [| | s] eqn:Hs; cbn [is_None negb andb].
    + rewrite (Hnone p0 Hp0 Hs). reflexivity.
    + apply py_eq_VStr in Htable. rewrite Htable. cbn [py_eq].
      now rewrite !andb_false_r.
    + apply py_eq_VStr in Htable. rewrite Htable.
      specialize (Hty Htype). unfold py_ne in Hty. cbn [py_eq] in Hty.
      apply negb_true_iff in Hty. cbn [py_eq].
      rewrite String.eqb_sym, Hty. now rewrite !andb_false_r.
Qed.

(** ** Round trip through records *)

Lemma add_keys_fresh (ks acc : list string) :
  NoDup (acc ++ ks) -> add_keys acc ks = (acc ++ ks)%list.
Proof.
  revert acc. induction ks as [| k ks IH]; intros acc H; simpl.
  - now rewrite app_nil_r.
  - assert (Hk : mem k acc = false).
    { apply mem_false. intros Hin.
      apply NoDup_remove_2 in H. apply H, in_app_iff. auto. }
    rewrite Hk, IH; rewrite <- app_assoc; [reflexivity | assumption].
Qed.

Lemma add_keys_known (ks acc : list string) :
  (forall k, In k ks -> In k acc) -> add_keys acc ks = acc.
Proof.
  induction ks as [| k ks IH]; intros H; simpl; [reflexivity |].
  assert (Hk : mem k acc = true) by (apply mem_In, H, in_eq).
  rewrite Hk. apply IH. intros k' Hk'. apply H. now apply in_cons.
Qed.

Lemma all_keys_uniform (cols : list string) (rs : list record) :
  NoDup cols -> Forall (fun r => keys r = cols) rs ->
  (rs = [] -> cols = []) ->
  all_keys rs = cols.
Proof.
  intros Hnd Hall Hnil. destruct rs as [| r rs].
  - now rewrite Hnil.
  - unfold all_keys. simpl. inversion Hall as [| ? ? Hr Hrs]; subst.
    rewrite add_keys_fresh by assumption. simpl.
    clear Hnil Hall. induction rs as [| r' rs IH]; simpl; [reflexivity |].
    inversion Hrs as [| ? ? Hr' Hrs']; subst.
    rewrite add_keys_known by (rewrite Hr'; auto). auto.
Qed.

Lemma reindex_id (r : record) :
  NoDup (keys r) -> reindex (keys r) r = r.
Proof.
  induction r as [| [k v] r IH]; simpl; intros H; [reflexivity |].
  inversion H as [| ? ? Hk Hnd]; subst.
  unfold cell at 1. simpl. rewrite String.eqb_refl. f_equal.
  transitivity (reindex (keys r) r); [| now apply IH].
  unfold reindex. apply map_ext_in. intros c Hc. unfold cell. simpl.
  destruct (String.eqb_spec c k); [subst; contradiction | reflexivity].
Qed.

(** A well-formed frame that has columns exactly if it has rows is rebuilt
    from its own records. *)
Lemma records_roundtrip (df : DataFrame) :
  well_formed df -> (rows df = [] -> columns df = []) ->
  (columns df = [] -> rows df = []) ->
  DataFrame_of_records (to_dict_records df) = df.
Proof.
  intros Hwf Hnil Hcols.
  assert (Hrec : to_dict_records df = rows df).
  { destruct (columns df) as [| c cols] eqn:Hc.
    - rewrite Hcols by reflexivity. now apply to_dict_records_nil, Hcols.
    - apply to_dict_records_rows. now rewrite Hc. }
  rewrite Hrec. clear Hrec Hcols. revert Hwf Hnil.
  destruct df as [cols rs]. unfold well_formed. simpl.
  intros [Hnd Hall] Hnil. unfold DataFrame_of_records.
  rewrite (all_keys_uniform cols rs) by assumption. f_equal.
  transitivity (map (fun x : record => x) rs); [| apply map_id].
  apply map_ext_in. intros r Hr.
  rewrite Forall_forall in Hall. specialize (Hall r Hr). subst cols.
  now apply reindex_id.
Qed.

Lemma keys_merge_step (matches : record -> record -> bool)
    (view_cols : list string) (row r : record) :
  (forall c, In c view_cols -> In c (keys r)) ->
  keys (merge_step matches view_cols row r) = keys r.
Proof.
  intros H. unfold merge_step.
  destruct (is_None (get "name" row) || is_None (get "parent" row));
    [reflexivity |].
  destruct (matches row r); [now apply keys_overwrite | reflexivity].
Qed.

Lemma keys_merge_row (matches : record -> record -> bool)
    (view_cols : list string) (view_rows : list record) (r : record) :
  (forall c, In c view_cols -> In c (keys r)) ->
  keys (merge_row matches view_cols view_rows r) = keys r.
Proof.
  revert r. induction view_rows as [| row rest IH]; intros r H;
    [reflexivity |].
  rewrite merge_row_cons, IH; rewrite keys_merge_step; auto.
Qed.

(** What a row-wise merge returns is such a frame. *)
Lemma merge_scoped_wf (full_data_raw : list record)
    (current_view_rows : option (list record))
    (view_mode selected_table : value) (merged : DataFrame) :
  scoped_mode view_mode selected_table = true ->
  merge_edits full_data_raw current_view_rows view_mode selected_table
  = Ok merged ->
  well_formed merged /\ (rows merged = [] -> columns merged = []).
Proof.
  intros Hmode H.
  pose proof (merge_edits_rowwise full_data_raw current_view_rows view_mode
                selected_table) as Hm.
  cbv zeta in Hm. rewrite Hmode, H in Hm. injection Hm as ->.
  destruct (DataFrame_of_records_wf full_data_raw) as [Hnd Hall].
  split; [split |]; simpl.
  - assumption.
  - apply Forall_map, Forall_forall. intros r Hr.
    rewrite Forall_forall in Hall. simpl in Hall.
    rewrite keys_merge_row; [now apply Hall |].
    intros c Hc. rewrite (Hall r Hr).
    now apply view_frame_columns in Hc.
  - intros Hnil. apply map_eq_nil in Hnil. apply map_eq_nil in Hnil.
    now subst.
Qed.

(** ** Merging a projection back *)

Lemma same_cells_sym (a b : record) : same_cells a b -> same_cells b a.
Proof. intros H c. symmetry. apply H. Qed.

Lemma same_cells_trans (a b c : record) :
  same_cells a b -> same_cells b c -> same_cells a c.
Proof. intros H1 H2 k. now rewrite H1. Qed.

Lemma same_cells_set (k : string) (x : value) (a b : record) :
  same_cells a b -> same_cells (dict_set k x a) (dict_set k x b).
Proof.
  intros H c. destruct (String.eqb_spec c k) as [-> | Hne].
  - now rewrite !dict_get_set_same.
  - rewrite !dict_get_set_other by assumption. apply H.
Qed.

Lemma dict_get_overwrite (c : string) (view_cols : list string)
    (row r : record) :
  dict_get c (overwrite view_cols row r)
  = if mem c view_cols then Some (cell c row) else dict_get c r.
Proof.
  unfold overwrite. revert r.
  induction view_cols as [| c0 cs IH]; intros r; [reflexivity |].
  cbn [fold_left]. rewrite IH. unfold mem. cbn [existsb].
  fold (mem c cs). destruct (mem c cs); [now rewrite orb_true_r |].
  rewrite orb_false_r.
  destruct (String.eqb_spec c c0) as [-> | Hne].
  - apply dict_get_set_same.
  - now apply dict_get_set_other.
Qed.

Lemma merge_step_hits (matches : record -> record -> bool)
    (view_cols : list string) (row r : record) :
  merge_step matches view_cols row r
  = if hits matches row r then overwrite view_cols row r else r.
Proof.
  unfold merge_step, hits.
  destruct (is_None (get "name" row) || is_None (get "parent" row));
    [reflexivity |].
  cbn [negb andb]. reflexivity.
Qed.

(** An edited row that has the frame's labels replaces the row it hits. *)
Lemma overwrite_all (cols view_cols : list string) (row r : record) :
  (forall c, In c view_cols <-> In c cols) ->
  keys row = view_cols -> keys r = cols ->
  same_cells (overwrite view_cols row r) row
  /\ keys (overwrite view_cols row r) = cols.
Proof.
  intros Hcols Hrow Hr. split.
  - intros c. rewrite dict_get_overwrite.
    destruct (mem c view_cols) eqn:Hc.
    + apply mem_In in Hc. symmetry. apply dict_get_cell. now rewrite Hrow.
    + apply mem_false in Hc.
      rewrite !dict_get_None; [reflexivity | now rewrite Hrow |].
      rewrite Hr. intros Hin. now apply Hc, Hcols.
  - rewrite keys_overwrite; [assumption |].
    intros c Hc. rewrite Hr. now apply Hcols.
Qed.

(** *** The overwriting condition *)

Section Hits.

Variables (view_mode : value) (has_type : bool) (cols : list string).

(** It reads the edited row under three labels only. *)
Lemma hits_key_l (a b r : record) :
  dict_get "name" a = dict_get "name" b ->
  dict_get "parent" a = dict_get "parent" b ->
  dict_get "type" a = dict_get "type" b ->
  hits (mode_match view_mode has_type cols) a r
  = hits (mode_match view_mode has_type cols) b r.
Proof.
  intros Hn Hp Ht.
  unfold hits, mode_match.
  destruct (py_eq view_mode (VStr "tables"));
    unfold tables_match, columns_match, get;
    rewrite Hn, Hp, ?Ht; reflexivity.
Qed.

(** And so the row of the frame. *)
Lemma hits_key_r (row a b : record) :
  cell "name" a = cell "name" b ->
  cell "parent" a = cell "parent" b ->
  cell "type" a = cell "type" b ->
  hits (mode_match view_mode has_type cols) row a
  = hits (mode_match view_mode has_type cols) row b.
Proof.
  intros Hn Hp Ht.
  unfold hits, mode_match.
  destruct (py_eq view_mode (VStr "tables"));
    unfold tables_match, columns_match;
    rewrite Hn, Hp, ?Ht; reflexivity.
Qed.

Lemma hits_cells_l (a b r : record) :
  same_cells a b ->
  hits (mode_match view_mode has_type cols) a r
  = hits (mode_match view_mode has_type cols) b r.
Proof. intros H. apply hits_key_l; apply H. Qed.

Lemma hits_cells_r (row a b : record) :
  same_cells a b ->
  hits (mode_match view_mode has_type cols) row a
  = hits (mode_match view_mode has_type cols) row b.
Proof. intros H. apply hits_key_r; unfold cell; now rewrite H. Qed.

(** A cell that compares equal is a string, present on both sides. *)
Lemma match_key (k : string) (u v : record) :
  py_eq (cell k v) (get k u) = true -> get k v = get k u.
Proof.
  intros H. apply py_eq_true in H as [H Hnull].
  rewrite <- H. apply get_cell. now apply cell_in_keys.
Qed.

Lemma match_self (k : string) (u m : record) :
  py_eq (cell k m) (get k u) = true -> py_eq (cell k u) (get k u) = true.
Proof.
  intros H. apply py_eq_true in H as [H Hnull]. rewrite H in Hnull.
  assert (Hin : In k (keys u)).
  { apply get_not_None. now destruct (get k u). }
  rewrite <- (get_cell k u Hin).
  destruct (get k u) as [| | s]; try discriminate. simpl.
  apply String.eqb_refl.
Qed.

(** The row that replaced one is hit by whatever hits the other. *)
Lemma hits_trans (u v m : record) :
  hits (mode_match view_mode has_type cols) u v = true ->
  hits (mode_match view_mode has_type cols) v m = true ->
  hits (mode_match view_mode has_type cols) u m = true.
Proof.
  unfold hits. intros Huv Hvm.
  apply andb_true_iff in Huv as [Hau Huv].
  apply andb_true_iff in Hvm as [_ Hvm].
  rewrite Hau. cbn [andb]. unfold mode_match in *.
  destruct (py_eq view_mode (VStr "tables")).
  - unfold tables_match in *. destruct has_type.
    + apply andb_true_iff in Huv as [Huv Hp].
      apply andb_true_iff in Huv as [_ Hn].
      now rewrite (match_key _ _ _ Hn), (match_key _ _ _ Hp) in Hvm.
    + apply andb_true_iff in Huv as [Hn Hp].
      now rewrite (match_key _ _ _ Hn), (match_key _ _ _ Hp) in Hvm.
  - unfold columns_match in *.
    assert (Hnp : py_eq (cell "name" v) (get "name" u) = true
                  /\ py_eq (cell "parent" v) (get "parent" u) = true).
    { destruct (has_type
                && negb (is_None (if mem "type" cols
                                  then get "type" u else VNone))).
      - apply andb_true_iff in Huv as [Huv _].
        apply andb_true_iff in Huv as [? ?]. auto.
      - apply andb_true_iff in Huv as [? ?]. auto. }
    destruct Hnp as [Hn Hp].
    rewrite (match_key _ _ _ Hn), (match_key _ _ _ Hp) in Hvm.
    destruct has_type; cbn [andb] in *; [| assumption].
    destruct (mem "type" cols); cbn [is_None negb] in *; [| assumption].
    destruct (is_None (get "type" u)) eqn:Hnone; cbn [negb] in *.
    + destruct (negb (is_None (get "type" v)));
        [apply andb_true_iff in Hvm as [Hvm _] |]; assumption.
    + apply andb_true_iff in Huv as [_ Ht].
      rewrite (match_key _ _ _ Ht), Hnone in Hvm. assumption.
Qed.

(** A row that is hit by nothing like itself hits nothing. *)
Lemma hits_self (selected_table : value) (u m : record) :
  shown view_mode selected_table has_type u = true ->
  hits (mode_match view_mode has_type cols) u m = true ->
  hits (mode_match view_mode has_type cols) u u = true.
Proof.
  unfold hits, shown. intros Hshown Hum.
  apply andb_true_iff in Hum as [Hau Hum].
  rewrite Hau. cbn [andb]. unfold mode_match in *.
  destruct (py_eq view_mode (VStr "tables")).
  - unfold tables_match in *. destruct has_type.
    + apply andb_true_iff in Hum as [Hum Hp].
      apply andb_true_iff in Hum as [_ Hn].
      now rewrite Hshown, (match_self _ _ _ Hn), (match_self _ _ _ Hp).
    + apply andb_true_iff in Hum as [Hn Hp].
      now rewrite (match_self _ _ _ Hn), (match_self _ _ _ Hp).
  - unfold columns_match in *.
    destruct (has_type
              && negb (is_None (if mem "type" cols
                                then get "type" u else VNone))) eqn:Hc.
    + apply andb_true_iff in Hum as [Hum Ht].
      apply andb_true_iff in Hum as [Hn Hp].
      rewrite (match_self _ _ _ Hn), (match_self _ _ _ Hp). cbn [andb].
      destruct (mem "type" cols).
      * now apply match_self with m.
      * now rewrite andb_false_r in Hc.
    + apply andb_true_iff in Hum as [Hn Hp].
      now rewrite (match_self _ _ _ Hn), (match_self _ _ _ Hp).
Qed.

(** The marker is none of the three labels. *)
Lemma hits_marked_l (u r : record) :
  hits (mode_match view_mode has_type cols) (marked view_mode cols u) r
  = hits (mode_match view_mode has_type cols) u r.
Proof.
  apply hits_key_l; unfold marked;
    destruct (py_eq view_mode (VStr "tables") && mem "__open__" cols);
    try reflexivity; now apply dict_get_set_other.
Qed.

Lemma hits_marked_r (row u : record) :
  hits (mode_match view_mode has_type cols) row (marked view_mode cols u)
  = hits (mode_match view_mode has_type cols) row u.
Proof.
  apply hits_key_r; unfold marked;
    destruct (py_eq view_mode (VStr "tables") && mem "__open__" cols);
    try reflexivity; now apply cell_set_other.
Qed.

Lemma same_cells_marked (a b : record) :
  same_cells a b ->
  same_cells (marked view_mode cols a) (marked view_mode cols b).
Proof.
  intros H. unfold marked.
  destruct (py_eq view_mode (VStr "tables") && mem "__open__" cols);
    [now apply same_cells_set | assumption].
Qed.

(** The loop reads the view's labels only to know whether it has a type. *)
Lemma mode_match_cols (view_cols : list string) (row r : record) :
  (forall c, In c view_cols <-> In c cols) ->
  mode_match view_mode has_type view_cols row r
  = mode_match view_mode has_type cols row r.
Proof.
  intros H. unfold mode_match, columns_match.
  destruct (py_eq view_mode (VStr "tables")); [reflexivity |].
  assert (Hm : mem "type" view_cols = mem "type" cols).
  { destruct (mem "type" cols) eqn:E.
    - apply mem_In. apply H. now apply mem_In.
    - apply mem_false. intros Hin. apply H in Hin.
      now apply mem_false in E. }
  now rewrite Hm.
Qed.

End Hits.

(** *** Rows that agree after a merge *)

Section Coherence.

Variable hit : record -> record -> bool.
Variable step : record -> record -> record.
Variable h : record -> record.
Variable seen : record -> bool.
Variables good ok : record -> Prop.

Hypothesis hit_cells_l :
  forall a b r, same_cells a b -> hit a r = hit b r.
Hypothesis hit_cells_r :
  forall row a b, same_cells a b -> hit row a = hit row b.
Hypothesis hit_trans :
  forall u v m, hit u v = true -> hit v m = true -> hit u m = true.
Hypothesis hit_h_r : forall row u, hit row (h u) = hit row u.
Hypothesis h_cells :
  forall a b, same_cells a b -> same_cells (h a) (h b).
Hypothesis good_h : forall v, good v -> same_cells (h v) v.
Hypothesis step_miss : forall v r, hit v r = false -> step v r = r.
Hypothesis step_hit :
  forall v r, good v -> ok r -> hit v r = true ->
              same_cells (step v r) v /\ ok (step v r).

(** Every row that is seen either agrees already with every row it would
    hit, or is still to be replaced by an edited row: once all the edited
    rows are merged, every row that is seen agrees with every row it would
    hit. *)
Lemma fold_coherent (V : list record) :
  forall F : list record,
    Forall good V -> Forall ok F ->
    (forall u, In u F -> seen u = true ->
               (forall m, In m F -> hit u m = true -> same_cells m (h u))
               \/ exists v, In v V /\ hit v u = true) ->
    forall u m,
      In u (map (fun r => fold_left (fun r v => step v r) V r) F) ->
      seen u = true ->
      In m (map (fun r => fold_left (fun r v => step v r) V r) F) ->
      hit u m = true -> same_cells m (h u).
Proof.
  induction V as [| v V IH]; intros F HV HF Hinv u m Hu Hseen Hm Hhit.
  - cbn [fold_left] in Hu, Hm. rewrite map_id in Hu, Hm.
    destruct (Hinv u Hu Hseen) as [Hco | (v & [] & _)]. now apply Hco.
  - inversion HV as [| ? ? Hv HV']; subst.
    rewrite Forall_forall in HF.
    cbn [fold_left] in Hu, Hm.
    rewrite <- (map_map (step v)
                  (fun r => fold_left (fun r v => step v r) V r)) in Hu, Hm.
    apply (IH (map (step v) F)) with (u := u); try assumption.
    + apply Forall_forall. intros r Hr.
      apply in_map_iff in Hr as (r0 & <- & Hr0).
      destruct (hit v r0) eqn:E.
      * now apply step_hit; auto.
      * rewrite step_miss by assumption. auto.
    + clear u m Hu Hseen Hm Hhit. intros u' Hu' Hseen'.
      apply in_map_iff in Hu' as (u0 & <- & Hu0).
      destruct (hit v u0) eqn:Evu.
      * left. intros m' Hm' Hhit'.
        apply in_map_iff in Hm' as (m0 & <- & Hm0).
        destruct (step_hit v u0 Hv (HF u0 Hu0) Evu) as [Hu0v _].
        rewrite (hit_cells_l _ _ _ Hu0v) in Hhit'.
        destruct (hit v m0) eqn:Evm.
        -- destruct (step_hit v m0 Hv (HF m0 Hm0) Evm) as [Hm0v _].
           apply same_cells_trans with v; [assumption |].
           apply same_cells_sym.
           apply same_cells_trans with (h v); [| now apply good_h].
           now apply h_cells.
        -- rewrite step_miss in Hhit' by assumption. congruence.
      * rewrite step_miss in * by assumption.
        destruct (Hinv u0 Hu0 Hseen') as [Hco | (v' & [<- | Hv'] & Hhit')].
        -- left. intros m' Hm' Hhit'.
           apply in_map_iff in Hm' as (m0 & <- & Hm0).
           destruct (hit v m0) eqn:Evm.
           ++ exfalso.
              destruct (step_hit v m0 Hv (HF m0 Hm0) Evm) as [Hm0v _].
              rewrite (hit_cells_r _ _ _ Hm0v) in Hhit'.
              pose proof (hit_trans _ _ _ Hhit' Evm) as Hu0m0.
              pose proof (Hco m0 Hm0 Hu0m0) as Hcells.
              rewrite (hit_cells_r _ _ _ Hcells), hit_h_r in Evm.
              congruence.
           ++ rewrite step_miss by assumption.
              rewrite step_miss in Hhit' by assumption. now apply Hco.
        -- congruence.
        -- right. eauto.
Qed.

End Coherence.

(** *** What the projections show *)

Lemma filter_all {A : Type} (l : list A) : filter (fun _ => true) l = l.
Proof. induction l as [| x l IH]; simpl; [reflexivity | now rewrite IH]. Qed.

(** The Tables projection is built unless the frame has rows and no
    column; it shows the table rows, each with the marker. *)
Lemma tables_view_exact (df : DataFrame) :
  (rows df = [] \/ columns df <> [] ->
   exists sch,
     make_tables_view df
     = Ok (map (dict_set "__open__" (VStr "Open"))
               (filter (fun r => if in_columns "type" df
                                 then py_eq (cell "type" r) (VStr "table")
                                 else true)
                       (rows df)), sch))
  /\ (forall view sch, make_tables_view df = Ok (view, sch) ->
                       rows df = [] \/ columns df <> []).
Proof.
  unfold make_tables_view.
  destruct (in_columns "type" df) eqn:Ht.
  - rewrite getitem_Ok by (now apply mem_In). cbn [bind].
    rewrite series_eq_cells.
    assert (Hcols : columns df <> []) by now apply in_columns_nonempty in Ht.
    split; [| auto]. intros _.
    unfold df_filter, df_empty. cbn [rows columns].
    rewrite filter_mask_map.
    destruct (filter _ (rows df)) as [| r rs] eqn:Hf.
    + cbn. unfold setitem_list. cbn. unfold to_dict_records. cbn.
      destruct (set_label "__open__" (columns df)); eauto.
    + destruct (columns df) as [| c cs] eqn:Hc; [contradiction |].
      cbn [List.length Nat.eqb orb bind].
      rewrite to_dict_records_rows by apply set_label_nonempty.
      unfold setitem_scalar. cbn [rows]. eauto.
  - cbn [bind]. rewrite filter_all. unfold df_empty.
    destruct (rows df) as [| r rs] eqn:Hrows.
    + split; [| auto]. intros _. cbn. unfold setitem_list.
      rewrite Hrows. cbn. unfold to_dict_records. cbn.
      destruct (set_label "__open__" (columns df)); eauto.
    + destruct (columns df) as [| c cs] eqn:Hc.
      * split.
        -- intros [H | H]; [discriminate | contradiction].
        -- intros view sch. cbn. unfold setitem_list. rewrite Hrows. cbn.
           discriminate.
      * split; [| intros; right; discriminate]. intros _.
        cbn [List.length Nat.eqb orb bind].
        rewrite to_dict_records_rows by apply set_label_nonempty.
        unfold setitem_scalar. cbn [rows]. rewrite Hrows. eauto.
Qed.

(** The Columns projection is built if the frame has a parent column. *)
Lemma columns_view_Ok (df : DataFrame) (table_name : value) :
  In "parent" (columns df) ->
  exists view sch, make_columns_view df table_name = Ok (view, sch).
Proof.
  intros Hp. unfold make_columns_view.
  destruct (in_columns "type" df) eqn:Ht.
  - rewrite (getitem_Ok "parent"), (getitem_Ok "type")
      by (assumption || now apply mem_In).
    cbn [bind]. eauto.
  - rewrite (getitem_Ok "parent") by assumption. cbn [bind]. eauto.
Qed.

(** The projection of a mode shows the rows that pass its filter. *)
Lemma same_mode_view_exact (view_mode selected_table : value)
    (df : DataFrame) (view : list record) (sch : list column_spec) :
  same_mode_view view_mode selected_table df = Ok (view, sch) ->
  view = map (display view_mode)
             (filter (shown view_mode selected_table (in_columns "type" df))
                     (rows df))
  /\ (rows df = [] \/ columns df <> []).
Proof.
  unfold same_mode_view, display, shown.
  destruct (py_eq view_mode (VStr "tables")).
  - intros H. destruct (tables_view_exact df) as [Hex Hshape].
    pose proof (Hshape _ _ H) as Hs. split; [| assumption].
    destruct (Hex Hs) as (sch' & Hex'). rewrite Hex' in H.
    injection H as <- _.
    now destruct (in_columns "type" df).
  - intros H. apply columns_view_rows in H as [Hp ->]. split.
    + rewrite map_id. now destruct (in_columns "type" df).
    + right. intros E. now rewrite E in Hp.
Qed.

(** It is built for a frame of the same columns that has rows only if
    this one has. *)
Lemma same_mode_view_Ok (view_mode selected_table : value)
    (df df' : DataFrame) (view : list record) (sch : list column_spec) :
  columns df' = columns df -> (rows df = [] -> rows df' = []) ->
  same_mode_view view_mode selected_table df = Ok (view, sch) ->
  exists view' sch',
    same_mode_view view_mode selected_table df' = Ok (view', sch').
Proof.
  unfold same_mode_view. intros Hcols Hrows.
  destruct (py_eq view_mode (VStr "tables")).
  - intros H. apply (proj2 (tables_view_exact df)) in H.
    destruct (proj1 (tables_view_exact df')) as (sch' & Hex); [| eauto].
    rewrite Hcols. tauto.
  - intros H. apply columns_view_rows in H as [Hp _].
    apply columns_view_Ok. now rewrite Hcols.
Qed.

(** *** What reaches the merge *)

Lemma edit_descriptions_In (ds : list (option value)) (view : list record)
    (e : record) :
  In e (edit_descriptions ds view) ->
  exists p, In p view
            /\ (e = p \/ exists d, e = dict_set "description" d p).
Proof.
  revert ds. induction view as [| p rest IH]; intros ds;
    [simpl; contradiction |].
  destruct ds as [| [d |] ds]; cbn [edit_descriptions].
  - intros He. eauto.
  - intros [<- | He]; [exists p; split; [apply in_eq | eauto] |].
    apply IH in He as (p0 & Hp0 & He). exists p0. auto using in_cons.
  - intros [<- | He]; [exists p; split; [apply in_eq | eauto] |].
    apply IH in He as (p0 & Hp0 & He). exists p0. auto using in_cons.
Qed.

Lemma edit_descriptions_shows (ds : list (option value))
    (view : list record) (p : record) :
  In p view ->
  exists e, In e (edit_descriptions ds view)
            /\ (e = p \/ exists d, e = dict_set "description" d p).
Proof.
  revert ds. induction view as [| p0 rest IH]; intros ds;
    [contradiction |].
  intros [-> | Hp].
  - destruct ds as [| [d |] ds]; cbn [edit_descriptions];
      eexists; (split; [apply in_eq | eauto]).
  - destruct ds as [| [d |] ds]; cbn [edit_descriptions].
    + exists p. auto using in_cons.
    + destruct (IH ds Hp) as (e & He & Hpe). exists e. auto using in_cons.
    + destruct (IH ds Hp) as (e & He & Hpe). exists e. auto using in_cons.
Qed.

(** A row of the view frame that stands for a displayed row [u] of the
    frame: the view frame has the frame's labels, and the row has the cells
    of [u], with the marker where the frame has such a column, up to the
    description. *)
Lemma view_row_displayed (view_mode : value) (df : DataFrame)
    (recs : list record) (u e v : record) :
  let vf := drop_helper_cols df (DataFrame_of_records recs) in
  keys u = columns df ->
  In e recs ->
  e = display view_mode u
  \/ (exists d, e = dict_set "description" d (display view_mode u)) ->
  keys v = columns vf ->
  (forall c, In c (columns vf) -> dict_get c v = Some (cell c e)) ->
  (forall c, In c (columns vf) <-> In c (columns df))
  /\ (forall c, c <> "description" ->
                dict_get c v = dict_get c (marked view_mode (columns df) u))
  /\ (e = display view_mode u ->
      same_cells v (marked view_mode (columns df) u)).
Proof.
  intros vf Hu He Hedit Hv Hcells.
  assert (Hcols : forall c, In c (columns vf) <-> In c (columns df)).
  { intros c. unfold vf. rewrite view_frame_columns. split; [tauto |].
    intros Hc. split; [| assumption].
    apply all_keys_In. exists e. split; [assumption |].
    assert (Hd : In c (keys (display view_mode u))).
    { unfold display. rewrite <- Hu in Hc.
      destruct (py_eq view_mode (VStr "tables"));
        [now apply keys_set_incl | assumption]. }
    destruct Hedit as [-> | (d & ->)];
      [assumption | now apply keys_set_incl]. }
  assert (Hall : forall c, (c <> "description" \/ e = display view_mode u) ->
                           dict_get c v
                           = dict_get c (marked view_mode (columns df) u)).
  { intros c Hc.
    assert (Hce : cell c e = cell c (display view_mode u)).
    { destruct Hedit as [-> | (d & ->)]; [reflexivity |].
      destruct Hc as [Hc | Hc].
      - now apply cell_set_other.
      - now rewrite Hc. }
    unfold marked, display in *.
    destruct (in_dec string_dec c (columns df)) as [Hin | Hout].
    - rewrite Hcells, Hce by now apply Hcols.
      destruct (py_eq view_mode (VStr "tables")); cbn [andb].
      + destruct (mem "__open__" (columns df)) eqn:Hm.
        * symmetry. apply dict_get_cell, keys_set_incl. now rewrite Hu.
        * rewrite cell_set_other.
          -- symmetry. apply dict_get_cell. now rewrite Hu.
          -- intros ->. apply mem_false in Hm. contradiction.
      + symmetry. apply dict_get_cell. now rewrite Hu.
    - rewrite dict_get_None by (rewrite Hv; intros H; now apply Hout, Hcols).
      symmetry. apply dict_get_None.
      destruct (py_eq view_mode (VStr "tables") && mem "__open__" (columns df))
        eqn:Hm.
      + apply andb_true_iff in Hm as [_ Hm]. apply mem_In in Hm.
        rewrite keys_dict_set_in; now rewrite Hu.
      + now rewrite Hu. }
  split; [assumption |]. split.
  - intros c Hc. apply Hall. now left.
  - intros Heq c. apply Hall. now right.
Qed.

(** Such a row carries the marker already. *)
Lemma marked_view_row (view_mode : value) (cols : list string)
    (u v : record) :
  (forall c, c <> "description" ->
             dict_get c v = dict_get c (marked view_mode cols u)) ->
  marked view_mode cols v = v.
Proof.
  intros H. specialize (H "__open__"). unfold marked in *.
  destruct (py_eq view_mode (VStr "tables") && mem "__open__" cols);
    [| reflexivity].
  apply dict_set_id. rewrite H by discriminate. apply dict_get_set_same.
Qed.

Lemma merge_row_ext (m1 m2 : record -> record -> bool)
    (view_cols : list string) (view_rows : list record) (r : record) :
  (forall row r', In row view_rows ->
                  merge_step m1 view_cols row r'
                  = merge_step m2 view_cols row r') ->
  merge_row m1 view_cols view_rows r = merge_row m2 view_cols view_rows r.
Proof.
  revert r. induction view_rows as [| row rest IH]; intros r H;
    [reflexivity |].
  rewrite !merge_row_cons, H by apply in_eq.
  apply IH. intros row' r' Hrow'. apply H. now apply in_cons.
Qed.

Lemma merge_step_cols (view_mode : value) (has_type : bool)
    (cols view_cols : list string) (row r : record) :
  (forall c, In c view_cols <-> In c cols) ->
  merge_step (mode_match view_mode has_type view_cols) view_cols row r
  = merge_step (mode_match view_mode has_type cols) view_cols row r.
Proof.
  intros H. unfold merge_step.
  now rewrite (mode_match_cols view_mode has_type cols view_cols row r H).
Qed.

(** *** The merge of the edited projection, and of its own projection *)

(** After the merge of the displayed rows, every row that is shown has,
    with its marker, the cells of every row it would hit. *)
Lemma merge_coherent (full_data_raw : list record)
    (view_mode selected_table : value) (view : list record)
    (sch : list column_spec) (ds : list (option value)) :
  let full := DataFrame_of_records full_data_raw in
  let vf := drop_helper_cols full
              (DataFrame_of_records (edit_descriptions ds view)) in
  let ht := in_columns "type" full in
  let merged_rows :=
    map (merge_row (mode_match view_mode ht (columns vf)) (columns vf)
                   (rows vf))
        (rows full) in
  same_mode_view view_mode selected_table full = Ok (view, sch) ->
  forall u m,
    In u merged_rows -> shown view_mode selected_table ht u = true ->
    In m merged_rows ->
    hits (mode_match view_mode ht (columns full)) u m = true ->
    same_cells m (marked view_mode (columns full) u).
Proof.
  intros full vf ht merged_rows Hview.
  destruct (DataFrame_of_records_wf full_data_raw) as [_ Hall].
  fold full in Hall. rewrite Forall_forall in Hall.
  destruct (same_mode_view_exact _ _ _ _ _ Hview) as [Hveq _].
  fold ht in Hveq.
  set (E := edit_descriptions ds view) in *.
  destruct (view_frame_map full E) as (g & Hrows & Hg).
  fold vf in Hrows, Hg.
  assert (HV : forall e, In e E ->
                 exists u0,
                   In u0 (rows full)
                   /\ (forall c, In c (columns vf) <-> In c (columns full))
                   /\ forall c, c <> "description" ->
                                dict_get c (g e)
                                = dict_get c (marked view_mode (columns full)
                                                     u0)).
  { intros e He.
    destruct (edit_descriptions_In _ _ _ He) as (p & Hp & Hedit).
    rewrite Hveq in Hp. apply in_map_iff in Hp as (u0 & <- & Hu0).
    apply filter_In in Hu0 as [Hu0 _].
    destruct (view_row_displayed view_mode full E u0 e (g e)
                (Hall u0 Hu0) He Hedit (proj1 (Hg e)) (proj2 (Hg e)))
      as (Hcols & Hcells & _).
    eauto. }
  assert (Hext : forall r,
             merge_row (mode_match view_mode ht (columns vf)) (columns vf)
                       (rows vf) r
             = fold_left
                 (fun r v => merge_step
                               (mode_match view_mode ht (columns full))
                               (columns vf) v r)
                 (rows vf) r).
  { intros r. apply merge_row_ext. intros row r' Hrow.
    apply merge_step_cols. rewrite Hrows in Hrow.
    apply in_map_iff in Hrow as (e & _ & He).
    now destruct (HV e He) as (u0 & _ & Hcols & _). }
  unfold merged_rows. rewrite (map_ext _ _ Hext).
  apply fold_coherent
    with (good := fun v =>
                    (forall c, In c (columns vf) <-> In c (columns full))
                    /\ keys v = columns vf
                    /\ marked view_mode (columns full) v = v)
         (ok := fun r => keys r = columns full).
  - apply hits_cells_l.
  - apply hits_cells_r.
  - apply hits_trans.
  - apply hits_marked_r.
  - apply same_cells_marked.
  - intros v (_ & _ & ->) c. reflexivity.
  - intros v r Hmiss. now rewrite merge_step_hits, Hmiss.
  - intros v r (Hcols & Hv & _) Hr Hhit. rewrite merge_step_hits, Hhit.
    now apply overwrite_all.
  - apply Forall_forall. intros v Hv. rewrite Hrows in Hv.
    apply in_map_iff in Hv as (e & <- & He).
    destruct (HV e He) as (u0 & _ & Hcols & Hcells).
    split; [assumption |]. split; [apply Hg |].
    now apply marked_view_row with u0.
  - now apply Forall_forall.
  - intros u Hu Hshown.
    assert (Hp : In (display view_mode u) view).
    { rewrite Hveq. apply in_map, filter_In. auto. }
    destruct (edit_descriptions_shows ds view _ Hp) as (e & He & Hedit).
    fold E in He.
    destruct (view_row_displayed view_mode full E u e (g e)
                (Hall u Hu) He Hedit (proj1 (Hg e)) (proj2 (Hg e)))
      as (_ & Hcells & _).
    assert (Hsame : forall r,
               hits (mode_match view_mode ht (columns full)) (g e) r
               = hits (mode_match view_mode ht (columns full)) u r).
    { intros r. rewrite <- (hits_marked_l view_mode ht (columns full) u r).
      apply hits_key_l; apply Hcells; discriminate. }
    destruct (hits (mode_match view_mode ht (columns full)) (g e) u)
      eqn:Hhit.
    + right. exists (g e). split; [| assumption].
      rewrite Hrows. now apply in_map.
    + left. intros m _ Hum. exfalso.
      apply hits_self with (selected_table := selected_table) in Hum;
        [| assumption].
      rewrite Hsame in Hhit. congruence.
Qed.

(** In such a frame the merge of its own projection changes no row. *)
Lemma coherent_fixed (view_mode selected_table : value)
    (merged : DataFrame) (view' : list record) (sch' : list column_spec)
    (m : record) :
  let ht := in_columns "type" merged in
  let vf' := drop_helper_cols merged (DataFrame_of_records view') in
  well_formed merged ->
  same_mode_view view_mode selected_table merged = Ok (view', sch') ->
  (forall u m0,
      In u (rows merged) -> shown view_mode selected_table ht u = true ->
      In m0 (rows merged) ->
      hits (mode_match view_mode ht (columns merged)) u m0 = true ->
      same_cells m0 (marked view_mode (columns merged) u)) ->
  In m (rows merged) ->
  merge_row (mode_match view_mode ht (columns vf')) (columns vf')
            (rows vf') m
  = m.
Proof.
  intros ht vf' [_ Hall] Hview Hco Hm. rewrite Forall_forall in Hall.
  destruct (same_mode_view_exact _ _ _ _ _ Hview) as [Hveq _].
  fold ht in Hveq.
  apply merge_row_fixed. intros row Hrow.
  destruct (view_frame_rows merged view' row Hrow)
    as [Hkeys (p & Hp & Hcells)].
  fold vf' in Hkeys, Hcells.
  pose proof Hp as Hp'. rewrite Hveq in Hp'.
  apply in_map_iff in Hp' as (u & <- & Hu).
  apply filter_In in Hu as [Hu Hshown].
  destruct (view_row_displayed view_mode merged view' u
              (display view_mode u) row (Hall u Hu) Hp
              (or_introl eq_refl) Hkeys Hcells)
    as (Hcols & _ & Hsame).
  specialize (Hsame eq_refl).
  rewrite (merge_step_cols view_mode ht (columns merged)) by exact Hcols.
  rewrite merge_step_hits.
  destruct (hits (mode_match view_mode ht (columns merged)) row m)
    eqn:Hhit; [| reflexivity].
  rewrite (hits_cells_l _ _ _ _ _ _ Hsame), hits_marked_l in Hhit.
  pose proof (Hco u m Hu Hshown Hm Hhit) as Hm_u.
  apply overwrite_id. intros c Hc.
  rewrite (Hm_u c), <- (Hsame c).
  apply dict_get_cell. now rewrite Hkeys.
Qed.

(** C3, on what a Save receives: in the Tables mode, or in the Columns
    mode with a selected table, merging the displayed projection of a full
    data set, with any of its descriptions edited, then deriving the
    projection of the same mode from the merged result (which is built),
    then merging that projection, unchanged, gives the full data set of the
    first merge again. *)
Theorem merge_reprojection_idempotent :
  forall (full_data_raw : list record) (view_mode selected_table : value)
         (view : list record) (sch : list column_spec)
         (ds : list (option value)),
    scoped_mode view_mode selected_table = true ->
    same_mode_view view_mode selected_table
                   (DataFrame_of_records full_data_raw)
    = Ok (view, sch) ->
    exists merged view' sch',
      merge_edits full_data_raw (Some (edit_descriptions ds view))
                  view_mode selected_table = Ok merged
      /\ same_mode_view view_mode selected_table merged = Ok (view', sch')
      /\ merge_edits (to_dict_records merged) (Some view') view_mode
                     selected_table
         = Ok merged.
Proof.
  intros raw mode T view sch ds Hmode Hview.
  set (E := edit_descriptions ds view).
  pose proof (merge_edits_rowwise raw (Some E) mode T) as Hm.
  cbv zeta in Hm. rewrite Hmode in Hm. cbn [view_records] in Hm.
  set (full := DataFrame_of_records raw) in *.
  set (vf := drop_helper_cols full (DataFrame_of_records E)) in *.
  set (ht := in_columns "type" full) in *.
  change (if py_eq mode (VStr "tables") then tables_match ht
          else columns_match ht (columns vf))
    with (mode_match mode ht (columns vf)) in Hm.
  set (merged := mkDF (columns full)
                      (map (merge_row (mode_match mode ht (columns vf))
                                      (columns vf) (rows vf))
                           (rows full))) in *.
  destruct (same_mode_view_exact _ _ _ _ _ Hview) as [_ Hshape].
  destruct (same_mode_view_Ok mode T full merged view sch eq_refl)
    as (view' & sch' & Hview');
    [intros Hnil; unfold merged; cbn [rows]; now rewrite Hnil
    | exact Hview |].
  exists merged, view', sch'.
  split; [exact Hm |]. split; [exact Hview' |].
  destruct (merge_scoped_wf raw (Some E) mode T merged Hmode Hm)
    as [Hwf Hnil].
  assert (Hrt : DataFrame_of_records (to_dict_records merged) = merged).
  { apply records_roundtrip; try assumption. intros Hc.
    destruct Hshape as [Hs | Hs]; [| contradiction].
    unfold merged. cbn [rows]. now rewrite Hs. }
  pose proof (merge_edits_rowwise (to_dict_records merged) (Some view')
                mode T) as Hm2.
  cbv zeta in Hm2. rewrite Hmode, Hrt in Hm2. cbn [view_records] in Hm2.
  rewrite Hm2. clear Hm2.
  transitivity (Ok (mkDF (columns merged) (rows merged))); [| reflexivity].
  do 2 f_equal.
  transitivity (map (fun x : record => x) (rows merged)); [| apply map_id].
  apply map_ext_in. intros m Hm'.
  apply (coherent_fixed mode T merged view' sch' m Hwf Hview');
    [| assumption].
  intros u m0. apply (merge_coherent raw mode T view sch ds Hview).
Qed.

(** ** The properties on sample data *)

(** The column [amount] has no type either, but not the name of the
    table: its edit leaves the table row as it was. *)
Lemma columns_merge_is_identity_scoped_witness :
  exists merged,
    merge_edits [sales_table; amount_column]
      (Some (edit_description 0 (VStr "in cents") [amount_column]))
      (VStr "columns") (VStr "sales") = Ok merged
    /\ nth_error (rows merged) 0 = Some sales_table.
Proof.
  edestruct (columns_merge_is_identity_scoped [sales_table; amount_column]
               "sales" 0 (VStr "in cents") [amount_column])
    as (merged & Hm & _ & _ & Hrows).
  - discriminate.
  - reflexivity.
  - exists merged. split; [exact Hm |].
    apply (Hrows 0%nat sales_table eq_refl). right.
    split; [reflexivity |]. intros v [<- | []] _. reflexivity.
Defined.

(** The column [sales], whose type is [None], is matched by name and parent
    alone: saving its description overwrites the table row [sales] too. *)
Lemma null_type_row_overwrites_table_row :
  in_columns "type" (DataFrame_of_records sales_dict) = true
  /\ (exists sch,
         make_columns_view (DataFrame_of_records sales_dict) (VStr "sales")
         = Ok ([sales_column], sch))
  /\ nth_error (rows (DataFrame_of_records sales_dict)) 0 = Some sales_table
  /\ py_eq (cell "type" sales_table) (VStr "table") = true
  /\ exists merged,
      merge_edits sales_dict
        (Some (edit_description 0 (VStr "total") [sales_column]))
        (VStr "columns") (VStr "sales") = Ok merged
      /\ nth_error (rows merged) 0
         = Some (entry (VStr "sales") (VStr "sales") VNone (VStr "total"))
      /\ nth_error (rows merged) 0 <> Some sales_table.
Proof.
  repeat split; try reflexivity.
  - eexists. reflexivity.
  - eexists. repeat split; try reflexivity. discriminate.
Qed.

(** With two entries for the table [orders], the first of them edited:
    both take the cells of the second, and the merge of the projection
    shown next changes nothing. *)
Lemma merge_reprojection_idempotent_witness :
  exists merged view' sch',
    merge_edits duplicated_dict
      (Some (edit_descriptions [Some (VStr "edited")]
               (map (dict_set "__open__" (VStr "Open")) duplicated_dict)))
      (VStr "tables") VNone = Ok merged
    /\ same_mode_view (VStr "tables") VNone merged = Ok (view', sch')
    /\ merge_edits (to_dict_records merged) (Some view') (VStr "tables")
                   VNone
       = Ok merged.
Proof.
  refine (merge_reprojection_idempotent duplicated_dict (VStr "tables")
            VNone (map (dict_set "__open__" (VStr "Open")) duplicated_dict)
            _ [Some (VStr "edited")] eq_refl _).
  reflexivity.
Defined.

(** Without a selected table the Columns mode falls back to the
    replacement: the rows of other tables are gone. *)
Lemma columns_merge_needs_selected_table :
  (exists sch,
      make_columns_view (DataFrame_of_records orders_dict) (VStr "")
      = Ok ([], sch))
  /\ merge_edits orders_dict (Some (edit_description 0 VNone []))
                 (VStr "columns") (VStr "")
     = Ok (mkDF [] []).
Proof. split; [eexists |]; reflexivity. Qed.

(** * Further properties of the code *)

(** ** SQL literals *)

Lemma escape_quotes_inj_tail (s t : string) :
  escape_quotes s ++ "'" = escape_quotes t ++ "'" -> s = t.
Proof.
  revert t. induction s as [| c s IH]; intros [| d t]; simpl.
  - reflexivity.
  - destruct (Ascii.eqb_spec d "'"%char) as [-> | Hd]; simpl;
      intros H; injection H; intros; (discriminate || congruence).
  - destruct (Ascii.eqb_spec c "'"%char) as [-> | Hc]; simpl;
      intros H; injection H; intros; (discriminate || congruence).
  - destruct (Ascii.eqb_spec c "'"%char) as [-> | Hc];
      destruct (Ascii.eqb_spec d "'"%char) as [-> | Hd]; simpl;
      intros H; injection H.
    + intros H'. f_equal. now apply IH.
    + intros _ H'. congruence.
    + intros _ H'. congruence.
    + intros H' ->. f_equal. now apply IH.
Qed.

(** X1: [sql_literal] loses nothing but the kind of a null: [None] and
    [NaN] both give [NULL], and any two other cells with the same literal
    are the same cell; the literal of a string is never [NULL]. *)
Theorem sql_literal_injective :
  forall v w : value,
    sql_literal v = sql_literal w ->
    v = w \/ (is_null v = true /\ is_null w = true).
Proof.
  intros [| | s] [| | t]; simpl; intros H; auto; try discriminate.
  left. injection H as H. f_equal. now apply escape_quotes_inj_tail.
Qed.

Lemma sql_literal_injective_witness :
  VNone = VNaN \/ (is_null VNone = true /\ is_null VNaN = true).
Proof.
  apply (sql_literal_injective VNone VNaN). reflexivity.
Defined.

Lemma count_quotes_app (s t : string) :
  count_quotes (s ++ t) = count_quotes s + count_quotes t.
Proof.
  induction s as [| c s IH]; simpl; [reflexivity |].
  destruct (Ascii.eqb c "'"%char); simpl; now rewrite IH.
Qed.

Lemma count_quotes_escape (s : string) :
  count_quotes (escape_quotes s) = 2 * count_quotes s.
Proof.
  induction s as [| c s IH]; simpl; [reflexivity |].
  destruct (Ascii.eqb_spec c "'"%char) as [-> | Hc]; simpl.
  - rewrite IH. lia.
  - apply Ascii.eqb_neq in Hc. rewrite Hc. rewrite IH. lia.
Qed.

Lemma sql_literal_even (v : value) :
  Nat.even (count_quotes (sql_literal v)) = true.
Proof.
  destruct v as [| | s]; try reflexivity. unfold sql_literal.
  assert (H : count_quotes ("'" ++ escape_quotes s ++ "'")
              = 2 * (1 + count_quotes s))
    by (rewrite !count_quotes_app, count_quotes_escape; simpl; lia).
  rewrite H, Nat.even_mul. reflexivity.
Qed.

Lemma concat_even (sep : string) (l : list string) :
  count_quotes sep = 0 ->
  (forall x, In x l -> Nat.even (count_quotes x) = true) ->
  Nat.even (count_quotes (String.concat sep l)) = true.
Proof.
  intros Hsep. induction l as [| x l IH]; intros H; [reflexivity |].
  destruct l as [| y l].
  - apply H, in_eq.
  - change (String.concat sep (x :: y :: l))
      with (x ++ sep ++ String.concat sep (y :: l)).
    rewrite !count_quotes_app, Hsep, Nat.even_add, Nat.add_0_l.
    rewrite (H x (in_eq _ _)), IH; [reflexivity |].
    intros z Hz. apply H. now apply in_cons.
Qed.

(** X2: every quote of a cell is doubled and every string is wrapped in
    quotes, so the statement of [insert_overwrite_table] has an even number
    of quotes besides those of the table name. *)
Theorem insert_statement_quotes_balanced :
  forall (table_name : string) (df : DataFrame),
    Nat.even (count_quotes (insert_statement table_name df))
    = Nat.even (count_quotes table_name).
Proof.
  intros table_name df. unfold insert_statement.
  rewrite !count_quotes_app.
  change (count_quotes "INSERT OVERWRITE ") with 0.
  change (count_quotes " VALUES ") with 0.
  rewrite !Nat.add_0_l, Nat.even_add, concat_even;
    [now destruct (Nat.even _) | reflexivity |].
  intros x Hx. apply in_map_iff in Hx as (row & <- & _).
  rewrite !count_quotes_app.
  change (count_quotes "(") with 0. change (count_quotes ")") with 0.
  rewrite Nat.add_0_r, Nat.add_0_l.
  apply concat_even; [reflexivity |].
  intros y Hy. apply in_map_iff in Hy as (v & <- & _).
  apply sql_literal_even.
Qed.

(** ** What the projections return *)

Lemma mem_set_label_other (c k : string) (cols : list string) :
  c <> k -> mem c (set_label k cols) = mem c cols.
Proof.
  intros Hne. unfold set_label. destruct (mem k cols); [reflexivity |].
  unfold mem. rewrite existsb_app. simpl.
  destruct (String.eqb_spec c k); [contradiction |].
  now rewrite !orb_false_r.
Qed.

Lemma filter_length_le {A : Type} (f : A -> bool) (l : list A) :
  List.length (filter f l) <= List.length l.
Proof.
  induction l as [| x l IH]; simpl; [lia |].
  destruct (f x); simpl; lia.
Qed.

(** X3: [make_tables_view] raises exactly on a frame with rows and no
    column (the empty-frame branch assigns an empty list to an index that
    is not empty). Otherwise it returns the rows whose type is ["table"]
    (all rows without a type column), in order, each with [__open__] set
    to ["Open"], so never more rows than the frame has; the schema lists,
    in this order, those of name, description and parent that are columns
    of the frame, then the action marker. *)
Theorem make_tables_view_spec :
  forall df : DataFrame,
    let is_table := fun r =>
      if in_columns "type" df then py_eq (cell "type" r) (VStr "table")
      else true in
    (rows df <> [] /\ columns df = [] ->
     make_tables_view df
     = Raise (ValueError
                ("Length of values (0) does not match length of index ("
                 ++ str_of_nat (List.length (rows df)) ++ ")")))
    /\ (rows df = [] \/ columns df <> [] ->
        exists sch,
          make_tables_view df
          = Ok (map (dict_set "__open__" (VStr "Open"))
                    (filter is_table (rows df)), sch)
          /\ List.length (filter is_table (rows df))
             <= List.length (rows df)
          /\ map col_id sch
             = (filter (fun c => in_columns c df)
                       ["name"; "description"; "parent"]
                ++ ["__open__"])%list).
Proof.
  intros [cols rs] is_table. split.
  - simpl. intros [Hrows ->]. unfold make_tables_view. simpl.
    destruct rs as [| r rs]; [contradiction | reflexivity].
  - intros Hok. unfold make_tables_view.
    assert (Hfilt : exists t1,
               (if in_columns "type" (mkDF cols rs) then
                  ty <- getitem "type" (mkDF cols rs) ;;
                  Ok (df_filter (series_eq ty (VStr "table")) (mkDF cols rs))
                else Ok (mkDF cols rs))
               = Ok t1
               /\ t1 = mkDF cols (filter is_table rs)).
    { subst is_table. destruct (in_columns "type" (mkDF cols rs)) eqn:Ht.
      - rewrite getitem_Ok by (now apply mem_In). cbn [bind].
        rewrite series_eq_cells. unfold df_filter. simpl.
        rewrite filter_mask_map. eauto.
      - eexists. split; [reflexivity |]. simpl.
        f_equal. clear. induction rs as [| r rs IH]; simpl; congruence. }
    destruct Hfilt as (t1 & -> & ->). cbn [bind].
    assert (Hids : forall rows',
               map col_id
                 (when (in_columns "name"
                          (mkDF (set_label "__open__" cols) rows'))
                       (mkCol "Table" "name" false "text" "input")
                  ++ when (in_columns "description"
                             (mkDF (set_label "__open__" cols) rows'))
                       (mkCol "Description" "description" true "text"
                              "input")
                  ++ when (in_columns "parent"
                             (mkDF (set_label "__open__" cols) rows'))
                       (mkCol "Schema" "parent" false "text" "input")
                  ++ [mkCol "" "__open__" false "text" "markdown"])%list
               = (filter (fun c => in_columns c (mkDF cols rs))
                         ["name"; "description"; "parent"]
                  ++ ["__open__"])%list).
    { intros rows'. unfold in_columns. simpl.
      rewrite !mem_set_label_other by discriminate.
      destruct (mem "name" cols), (mem "description" cols),
        (mem "parent" cols); reflexivity. }
    unfold df_empty. simpl.
    pose proof (filter_length_le is_table rs) as Hlen.
    destruct (filter is_table rs) as [| r rest] eqn:Hf.
    + cbn -[to_dict_records set_label].
      rewrite to_dict_records_rows by apply set_label_nonempty.
      eexists. split; [reflexivity |].
      split; [simpl; lia | apply (Hids [])].
    + assert (Hcols : cols <> []).
      { destruct Hok as [Hrs | Hc]; [| exact Hc].
        simpl in Hrs. subst rs. discriminate. }
      destruct cols as [| c cols]; [contradiction |].
      cbn -[to_dict_records set_label].
      rewrite to_dict_records_rows by apply set_label_nonempty.
      eexists. split; [reflexivity |].
      split; [| apply (Hids (dict_set "__open__" (VStr "Open") r
                              :: map (dict_set "__open__" (VStr "Open"))
                                     rest))].
      exact Hlen.
Qed.

(** X4: [make_columns_view] raises [KeyError('parent')] exactly when the
    frame has no parent column. Otherwise it returns, in order, the rows
    whose parent equals the table name and, with a type column, whose type
    is not ["table"]: never more rows than the frame has, each one a row of
    the frame; the schema lists, in this order, those of name, description,
    parent and type that are columns of the frame, whatever rows match. *)
Theorem make_columns_view_spec :
  forall (df : DataFrame) (table_name : value),
    let belongs := fun r =>
      if in_columns "type" df then
        py_eq (cell "parent" r) table_name
        && py_ne (cell "type" r) (VStr "table")
      else py_eq (cell "parent" r) table_name in
    (in_columns "parent" df = false ->
     make_columns_view df table_name = Raise (KeyError "parent"))
    /\ (in_columns "parent" df = true ->
        exists sch,
          make_columns_view df table_name
          = Ok (filter belongs (rows df), sch)
          /\ List.length (filter belongs (rows df))
             <= List.length (rows df)
          /\ (forall r, In r (filter belongs (rows df)) ->
                        In r (rows df)
                        /\ py_eq (cell "parent" r) table_name = true)
          /\ map col_id sch
             = filter (fun c => in_columns c df)
                      ["name"; "description"; "parent"; "type"]).
Proof.
  intros df table_name belongs. split.
  - intros Hp. unfold make_columns_view, getitem. rewrite Hp.
    destruct (in_columns "type" df); reflexivity.
  - intros Hp.
    destruct (make_columns_view df table_name) as [[view sch] | e] eqn:Hv.
    + destruct (columns_view_rows df table_name view sch Hv) as [_ Hrows].
      fold belongs in Hrows. subst view.
      exists sch. split; [reflexivity |].
      split; [apply filter_length_le |]. split.
      * intros r Hr. apply filter_In in Hr as [Hr Hb].
        split; [assumption |]. subst belongs. cbv beta in Hb.
        destruct (in_columns "type" df); [| assumption].
        now apply andb_true_iff in Hb as [Hb _].
      * unfold make_columns_view in Hv.
        apply bind_Ok in Hv as (t1 & Ht1 & Hv). injection Hv as _ <-.
        assert (Hc : columns t1 = columns df).
        { destruct (in_columns "type" df).
          - apply bind_Ok in Ht1 as (a & _ & Ht1).
            apply bind_Ok in Ht1 as (b & _ & Ht1).
            now injection Ht1 as <-.
          - apply bind_Ok in Ht1 as (a & _ & Ht1).
            now injection Ht1 as <-. }
        unfold in_columns. rewrite Hc. simpl.
        destruct (mem "name" (columns df)),
          (mem "description" (columns df)), (mem "parent" (columns df)),
          (mem "type" (columns df)); reflexivity.
    + exfalso. unfold make_columns_view in Hv.
      rewrite (getitem_Ok "parent") in Hv by (now apply mem_In).
      destruct (in_columns "type" df) eqn:Ht.
      * rewrite (getitem_Ok "type") in Hv by (now apply mem_In).
        discriminate.
      * discriminate.
Qed.

(** ** What the merge keeps and what it changes *)

Lemma py_eq_null (a v : value) : is_null v = true -> py_eq a v = false.
Proof. destruct a, v; simpl; (reflexivity || discriminate). Qed.

Lemma map_fixed {A : Type} (f : A -> A) (l : list A) :
  (forall x, In x l -> f x = x) -> map f l = l.
Proof.
  intros H. transitivity (map (fun x : A => x) l);
    [now apply map_ext_in | apply map_id].
Qed.

(** X5: in the Tables mode, with a type column, the merge returns and
    leaves every row whose type is not ["table"] as it was, whatever the
    edited rows are: a table edit never reaches a column entry. *)
Theorem tables_merge_keeps_column_rows :
  forall (full_data_raw : list record)
         (current_view_rows : option (list record))
         (selected_table : value),
    let full := DataFrame_of_records full_data_raw in
    in_columns "type" full = true ->
    exists merged,
      merge_edits full_data_raw current_view_rows (VStr "tables")
                  selected_table = Ok merged
      /\ forall i r,
          nth_error (rows full) i = Some r ->
          py_ne (cell "type" r) (VStr "table") = true ->
          nth_error (rows merged) i = Some r.
Proof.
  intros raw cv sel full Htype.
  pose proof (merge_edits_tables raw cv sel) as Hm.
  cbv zeta in Hm. fold full in Hm.
  eexists. split; [exact Hm |].
  intros i r Hi Hne. cbn [rows].
  rewrite nth_error_map, Hi. cbn [option_map]. f_equal.
  apply merge_row_fixed. intros row _.
  unfold merge_step, tables_match. rewrite Htype.
  unfold py_ne in Hne. apply negb_true_iff in Hne. rewrite Hne.
  cbn [andb]. now destruct (_ || _).
Qed.

Lemma tables_merge_keeps_column_rows_witness :
  exists merged,
    merge_edits orders_dict
      (Some [entry (VStr "id") (VStr "orders") (VStr "table") (VStr "x")])
      (VStr "tables") VNone = Ok merged
    /\ forall i r,
        nth_error (rows (DataFrame_of_records orders_dict)) i = Some r ->
        py_ne (cell "type" r) (VStr "table") = true ->
        nth_error (rows merged) i = Some r.
Proof.
  apply (tables_merge_keeps_column_rows orders_dict
           (Some [entry (VStr "id") (VStr "orders") (VStr "table")
                        (VStr "x")])
           VNone).
  reflexivity.
Defined.

(** X6: the merge returns in every mode, and every column of the frame it
    returns is a column of the full data set: a helper column of the view,
    such as the action marker, is never written back. *)
Theorem merge_adds_no_column :
  forall (full_data_raw : list record)
         (current_view_rows : option (list record))
         (view_mode selected_table : value),
    exists merged,
      merge_edits full_data_raw current_view_rows view_mode selected_table
      = Ok merged
      /\ forall c, In c (columns merged) ->
                   In c (columns (DataFrame_of_records full_data_raw)).
Proof.
  intros raw cv mode sel.
  pose proof (merge_edits_rowwise raw cv mode sel) as Hm. cbv zeta in Hm.
  eexists. split; [exact Hm |].
  intros c Hc. destruct (scoped_mode mode sel); [exact Hc |].
  now apply view_frame_columns in Hc.
Qed.

(** X7: an edited row whose name or parent is null (or absent) matches
    nothing: with only such rows, the Tables merge and the Columns merge
    return the full data set as it was. The edit is dropped silently. *)
Theorem merge_skips_rows_without_identity :
  forall (full_data_raw : list record) (edited : list record)
         (view_mode selected_table : value),
    scoped_mode view_mode selected_table = true ->
    (forall p, In p edited ->
               is_null (cell "name" p) = true
               \/ is_null (cell "parent" p) = true) ->
    merge_edits full_data_raw (Some edited) view_mode selected_table
    = Ok (DataFrame_of_records full_data_raw).
Proof.
  intros raw edited mode sel Hmode Hnull.
  pose proof (merge_edits_rowwise raw (Some edited) mode sel) as Hm.
  cbv zeta in Hm. rewrite Hmode in Hm. cbn [view_records] in Hm.
  rewrite Hm. f_equal.
  set (full := DataFrame_of_records raw).
  set (vf := drop_helper_cols full (DataFrame_of_records edited)).
  assert (Hrows : forall r, In r (rows full) ->
            merge_row
              (if py_eq mode (VStr "tables")
               then tables_match (in_columns "type" full)
               else columns_match (in_columns "type" full) (columns vf))
              (columns vf) (rows vf) r = r).
  2: { destruct full as [cols rs]. simpl in *. f_equal.
       now apply map_fixed. }
  intros r _. apply merge_row_fixed. intros row Hrow.
  destruct (view_frame_rows full edited row Hrow)
    as [Hkeys (p & Hp & Hcells)].
  fold vf in Hkeys, Hcells.
  assert (Hget : forall c, is_null (cell c p) = true ->
                           is_null (get c row) = true).
  { intros c Hc. unfold get.
    destruct (in_dec string_dec c (columns vf)) as [Hin | Hout].
    - now rewrite Hcells.
    - rewrite dict_get_None; [reflexivity | now rewrite Hkeys]. }
  unfold merge_step.
  destruct (is_None (get "name" row) || is_None (get "parent" row));
    [reflexivity |].
  assert (Hno : py_eq (cell "name" r) (get "name" row)
                && py_eq (cell "parent" r) (get "parent" row) = false).
  { destruct (Hnull p Hp) as [H | H]; apply Hget in H.
    - now rewrite (py_eq_null _ _ H).
    - rewrite (py_eq_null _ _ H). apply andb_false_r. }
  destruct (py_eq mode (VStr "tables")).
  - unfold tables_match. destruct (in_columns "type" full).
    + now rewrite <- andb_assoc, Hno, andb_false_r.
    + now rewrite Hno.
  - unfold columns_match. destruct (_ && negb _).
    + now rewrite Hno.
    + now rewrite Hno.
Qed.

Lemma merge_skips_rows_without_identity_witness :
  merge_edits orders_dict
    (Some [entry VNone (VStr "orders") (VStr "bigint") (VStr "lost")])
    (VStr "columns") (VStr "orders")
  = Ok (DataFrame_of_records orders_dict).
Proof.
  apply merge_skips_rows_without_identity.
  - reflexivity.
  - intros p [<- | []]. left. reflexivity.
Defined.

Lemma merge_row_app (matches : record -> record -> bool)
    (view_cols : list string) (l1 l2 : list record) (r : record) :
  merge_row matches view_cols (l1 ++ l2) r
  = merge_row matches view_cols l2 (merge_row matches view_cols l1 r).
Proof. unfold merge_row. apply fold_left_app. Qed.

Lemma edit_description_split (k : nat) (d : value) (view : list record)
    (p : record) :
  nth_error view k = Some p ->
  exists l1 l2,
    view = (l1 ++ p :: l2)%list
    /\ edit_description k d view
       = (l1 ++ dict_set "description" d p :: l2)%list.
Proof.
  revert k. induction view as [| r rest IH]; intros [| k]; simpl;
    try discriminate.
  - intros [= ->]. exists [], rest. split; reflexivity.
  - intros H. apply IH in H as (l1 & l2 & -> & ->).
    exists (r :: l1), l2. split; reflexivity.
Qed.

(** Overwriting a row with cells that differ from its own under one label
    only sets that label. *)
Lemma overwrite_single (k0 : string) (v : value) (view_cols : list string)
    (row r : record) :
  In k0 view_cols ->
  cell k0 row = v ->
  (forall c, In c view_cols -> c <> k0 ->
             dict_get c r = Some (cell c row)) ->
  overwrite view_cols row r = dict_set k0 v r.
Proof.
  intros Hin Hv. revert r.
  induction view_cols as [| c cols IH]; intros r Hrest; [contradiction |].
  unfold overwrite. simpl.
  destruct (string_dec c k0) as [-> | Hne].
  - rewrite Hv. apply (overwrite_id cols row (dict_set k0 v r)).
    intros c Hc. destruct (string_dec c k0) as [-> | Hne].
    + now rewrite dict_get_set_same, Hv.
    + rewrite dict_get_set_other by assumption.
      apply Hrest; [now apply in_cons | assumption].
  - rewrite dict_set_id by (apply Hrest; [apply in_eq | assumption]).
    apply IH.
    + destruct Hin as [H | H]; [contradiction | assumption].
    + intros c' Hc' Hne'. apply Hrest; [now apply in_cons | assumption].
Qed.

Lemma columns_match_cells (has_type : bool) (view_cols : list string)
    (row r : record) (ty : value) :
  (has_type = true ->
   mem "type" view_cols = true /\ get "type" row = ty
   /\ is_None ty = false) ->
  columns_match has_type view_cols row r
  = py_eq (cell "name" r) (get "name" row)
    && py_eq (cell "parent" r) (get "parent" row)
    && (if has_type then py_eq (cell "type" r) ty else true).
Proof.
  intros H. unfold columns_match. destruct has_type; cbn [andb].
  - destruct (H eq_refl) as (-> & -> & ->). reflexivity.
  - now rewrite andb_true_r.
Qed.

(** X8: the edit lands. In the Columns mode, for a full data set with a
    description column, distinct rows, unique identities and no [None] type,
    saving the Columns projection of a table with the description of one
    row set to [d] returns the full data set in which exactly that row has
    the description [d], provided its name (and type, with a type column)
    is a string. *)
Theorem columns_edit_takes_effect :
  forall (full_data_raw : list record) (T : string) (k : nat) (d : value)
         (view : list record) (sch : list column_spec) (p : record),
    let full := DataFrame_of_records full_data_raw in
    T <> "" ->
    In "description" (columns full) ->
    NoDup (rows full) ->
    unique_identities full ->
    typed full ->
    make_columns_view full (VStr T) = Ok (view, sch) ->
    nth_error view k = Some p ->
    same_identity (in_columns "type" full) p p ->
    exists merged,
      merge_edits full_data_raw (Some (edit_description k d view))
                  (VStr "columns") (VStr T) = Ok merged
      /\ columns merged = columns full
      /\ forall i r,
          nth_error (rows full) i = Some r ->
          (r = p ->
           nth_error (rows merged) i
           = Some (dict_set "description" d p))
          /\ (r <> p -> nth_error (rows merged) i = Some r).
Proof.
  intros raw T k d view sch p full HT Hdesc Hnd Huniq Htyped Hview Hk
         Hself.
  assert (Hsel : truthy (VStr T) = true)
    by (simpl; apply String.eqb_neq in HT; now rewrite HT).
  pose proof (merge_edits_columns raw (Some (edit_description k d view))
                (VStr T) Hsel) as Hm.
  cbv zeta in Hm. fold full in Hm. cbn [view_records] in Hm.
  destruct (view_frame_map full (edit_description k d view))
    as (g & Hvrows & Hg).
  set (vf := drop_helper_cols full
               (DataFrame_of_records (edit_description k d view))) in *.
  set (ht := in_columns "type" full) in *.
  set (M := columns_match ht (columns vf)) in *.
  set (pd := dict_set "description" d p).
  apply columns_view_rows in Hview as [_ Hview].
  destruct (edit_description_split k d view p Hk)
    as (l1 & l2 & Hsplit & Hedit).
  fold pd in Hedit.
  assert (Hfull : forall x, In x view -> In x (rows full))
    by (intros x Hx; rewrite Hview in Hx; now apply filter_In in Hx).
  assert (Hp : In p (rows full))
    by (apply Hfull; rewrite Hsplit; apply in_elt).
  assert (Hkeys : forall x, In x (rows full) -> keys x = columns full)
    by (intros x Hx; now apply rows_of_records_keys).
  assert (Hother : forall x, In x l1 \/ In x l2 -> x <> p).
  { assert (Hndv : NoDup view)
      by (rewrite Hview; now apply NoDup_filter).
    rewrite Hsplit in Hndv. apply NoDup_remove_2 in Hndv.
    intros x Hx ->. apply Hndv, in_app_iff. exact Hx. }
  destruct Hself as (Hsn & Hsp & Hst).
  apply py_eq_true in Hsn as [_ Hsn], Hsp as [_ Hsp].
  assert (Hsub : forall c, In c (columns vf) -> In c (columns full))
    by (intros c Hc; now apply view_frame_columns in Hc).
  assert (Hsup : forall c, In c (columns full) -> In c (columns vf)).
  { intros c Hc. apply view_frame_columns. split; [| assumption].
    apply all_keys_In. exists pd. split.
    - rewrite Hedit. apply in_elt.
    - apply keys_set_incl. now rewrite (Hkeys p Hp). }
  assert (Hname : In "name" (columns vf))
    by (apply Hsup; rewrite <- (Hkeys p Hp); now apply cell_in_keys).
  assert (Hparent : In "parent" (columns vf))
    by (apply Hsup; rewrite <- (Hkeys p Hp); now apply cell_in_keys).
  assert (Htype : ht = true -> In "type" (columns vf))
    by (intros H; apply Hsup; now apply mem_In).
  (* one step of the loop, for a displayed record and its source *)
  assert (Hstep : forall p' p0 r,
             In p0 (rows full) ->
             (forall c, c <> "description" -> cell c p' = cell c p0) ->
             merge_step M (columns vf) (g p') r
             = if is_None (cell "name" p0) || is_None (cell "parent" p0)
               then r
               else if py_eq (cell "name" r) (cell "name" p0)
                       && py_eq (cell "parent" r) (cell "parent" p0)
                       && (if ht then py_eq (cell "type" r)
                                            (cell "type" p0)
                           else true)
                    then overwrite (columns vf) (g p') r
                    else r).
  { intros p' p0 r Hp0 Hsame.
    destruct (Hg p') as [_ Hcells].
    assert (Hget : forall c, In c (columns vf) -> c <> "description" ->
                             get c (g p') = cell c p0).
    { intros c Hc Hne. unfold get. rewrite Hcells by assumption.
      now apply Hsame. }
    unfold merge_step. subst M.
    rewrite (columns_match_cells ht (columns vf) (g p') r
               (cell "type" p0)).
    - rewrite !(Hget "name"), !(Hget "parent")
        by (assumption || discriminate).
      reflexivity.
    - intros H. split; [apply mem_In; auto |].
      split; [apply Hget; [auto | discriminate] |].
      specialize (Htyped p0 Hp0).
      destruct (cell "type" p0); (reflexivity || contradiction). }
  (* an unedited record changes no row of the full frame *)
  assert (Hkeep : forall p0 r, In p0 view -> In r (rows full) ->
                               merge_step M (columns vf) (g p0) r = r).
  { intros p0 r Hp0 Hr.
    rewrite (Hstep p0 p0 r (Hfull p0 Hp0)) by reflexivity.
    destruct (_ || _); [reflexivity |].
    match goal with |- (if ?b then _ else _) = _ =>
      destruct b eqn:Hb; [| reflexivity] end.
    apply andb_true_iff in Hb as [Hb Hty].
    apply andb_true_iff in Hb as [Hn Hpa].
    assert (Hrp : r = p0).
    { apply Huniq; auto. repeat split; auto.
      fold ht. intros Hht. now rewrite Hht in Hty. }
    subst r. apply overwrite_id. intros c Hc.
    destruct (Hg p0) as [_ Hcells].
    unfold cell at 1. rewrite Hcells by assumption.
    apply dict_get_cell. rewrite (Hkeys p0 Hr). now apply Hsub. }
  (* the edited record matches its own row only *)
  assert (Hpd : forall c, c <> "description" -> cell c pd = cell c p)
    by (intros c Hc; now apply cell_set_other).
  assert (Hedited : forall r, In r (rows full) -> r <> p ->
                              merge_step M (columns vf) (g pd) r = r).
  { intros r Hr Hne. rewrite (Hstep pd p r Hp Hpd).
    destruct (_ || _); [reflexivity |].
    match goal with |- (if ?b then _ else _) = _ =>
      destruct b eqn:Hb; [| reflexivity] end.
    apply andb_true_iff in Hb as [Hb Hty].
    apply andb_true_iff in Hb as [Hn Hpa].
    exfalso. apply Hne, Huniq; auto. repeat split; auto.
    fold ht. intros Hht. now rewrite Hht in Hty. }
  assert (Hhit : merge_step M (columns vf) (g pd) p = pd).
  { rewrite (Hstep pd p p Hp Hpd).
    assert (Hb : py_eq (cell "name" p) (cell "name" p)
                 && py_eq (cell "parent" p) (cell "parent" p)
                 && (if ht then py_eq (cell "type" p) (cell "type" p)
                     else true) = true
                 /\ is_None (cell "name" p) || is_None (cell "parent" p)
                    = false).
    { destruct (cell "name" p) as [| | sn]; try discriminate.
      destruct (cell "parent" p) as [| | sp]; try discriminate.
      simpl. rewrite !String.eqb_refl. cbn [andb].
      split; [| reflexivity].
      destruct ht; [now apply Hst | reflexivity]. }
    destruct Hb as [Hb ->]. rewrite Hb. apply overwrite_single.
    - apply Hsup, Hdesc.
    - destruct (Hg pd) as [_ Hcells]. unfold cell at 1.
      rewrite Hcells by apply Hsup, Hdesc.
      unfold cell, pd. now rewrite dict_get_set_same.
    - intros c Hc Hne. destruct (Hg pd) as [_ Hcells].
      unfold cell at 1. rewrite Hcells by assumption.
      rewrite Hpd by assumption.
      apply dict_get_cell. rewrite (Hkeys p Hp). now apply Hsub. }
  assert (Hafter : forall p0, In p0 l2 ->
                              merge_step M (columns vf) (g p0) pd = pd).
  { intros p0 Hp0.
    assert (Hv0 : In p0 view)
      by (rewrite Hsplit; apply in_app_iff; right; now apply in_cons).
    rewrite (Hstep p0 p0 pd (Hfull p0 Hv0)) by reflexivity.
    destruct (_ || _); [reflexivity |].
    match goal with |- (if ?b then _ else _) = _ =>
      destruct b eqn:Hb; [| reflexivity] end.
    rewrite !Hpd in Hb by discriminate.
    apply andb_true_iff in Hb as [Hb Hty].
    apply andb_true_iff in Hb as [Hn Hpa].
    exfalso. apply (Hother p0 (or_intror Hp0)). symmetry.
    apply Huniq; auto. repeat split; auto.
    fold ht. intros Hht. now rewrite Hht in Hty. }
  eexists. split; [exact Hm |]. split; [reflexivity |].
  intros i r Hi. cbn [rows]. rewrite nth_error_map, Hi. cbn [option_map].
  assert (Hr : In r (rows full)) by (eapply nth_error_In; eassumption).
  rewrite Hvrows, Hedit. split.
  - intros ->. f_equal.
    rewrite map_app, merge_row_app. simpl map. rewrite merge_row_cons.
    rewrite (merge_row_fixed M (columns vf) (map g l1) p).
    + rewrite Hhit. apply merge_row_fixed. intros row Hrow.
      apply in_map_iff in Hrow as (p0 & <- & Hp0). now apply Hafter.
    + intros row Hrow. apply in_map_iff in Hrow as (p0 & <- & Hp0).
      apply Hkeep; [| assumption].
      rewrite Hsplit. apply in_app_iff. now left.
  - intros Hne. f_equal. apply merge_row_fixed. intros row Hrow.
    apply in_map_iff in Hrow as (p' & <- & Hp').
    apply in_app_iff in Hp' as [Hp' | [<- | Hp']].
    + apply Hkeep; [| assumption].
      rewrite Hsplit. apply in_app_iff. now left.
    + now apply Hedited.
    + apply Hkeep; [| assumption].
      rewrite Hsplit. apply in_app_iff. right. now apply in_cons.
Qed.

Lemma columns_edit_takes_effect_witness :
  exists merged,
    merge_edits orders_dict
      (Some (edit_description 0 (VStr "order id")
               [entry (VStr "id") (VStr "orders") (VStr "bigint")
                      (VStr "")]))
      (VStr "columns") (VStr "orders") = Ok merged
    /\ columns merged = columns (DataFrame_of_records orders_dict)
    /\ forall i r,
        nth_error (rows (DataFrame_of_records orders_dict)) i = Some r ->
        (r = entry (VStr "id") (VStr "orders") (VStr "bigint") (VStr "") ->
         nth_error (rows merged) i
         = Some (dict_set "description" (VStr "order id")
                   (entry (VStr "id") (VStr "orders") (VStr "bigint")
                          (VStr ""))))
        /\ (r <> entry (VStr "id") (VStr "orders") (VStr "bigint")
                      (VStr "") ->
            nth_error (rows merged) i = Some r).
Proof.
  refine (columns_edit_takes_effect orders_dict "orders" 0
            (VStr "order id") _ _ _ _ _ _ _ _ eq_refl eq_refl _).
  - discriminate.
  - simpl. do 3 right. left. reflexivity.
  - repeat constructor; simpl; intuition discriminate.
  - intros r1 r2 [<- | [<- | []]] [<- | [<- | []]] (Hn & Hp & Ht);
      (reflexivity || discriminate).
  - intros r [<- | [<- | []]]; discriminate.
  - repeat split; reflexivity.
Defined.

(** ** What each branch of the controller writes to the stores *)

Lemma append_dot_nonempty (a b : string) : (a ++ "." ++ b =? "") = false.
Proof. destruct a; reflexivity. Qed.

Section ControllerEffects.

Variable read_table : string -> result DataFrame.
Variable insert_overwrite_table : string -> DataFrame -> result unit.
Variable now : string.

Lemma load_effect (catalog schema : option string) (o : outputs) :
  fst (load_dictionary read_table now catalog schema) = Ok o ->
  view_mode_out o = Update (VStr "tables")
  /\ selected_table_out o = Update VNone
  /\ save_status_out o = no_update
  /\ ((table_name_out o = Update None /\ full_data_out o = Update None)
      \/ exists n f, missing (Some n) = false
                     /\ table_name_out o = Update (Some n)
                     /\ full_data_out o = Update (Some f)).
Proof.
  unfold load_dictionary.
  destruct (missing catalog || missing schema).
  - simpl. intros [= <-]. simpl. auto 6.
  - destruct (read_table _) as [df | e]; simpl.
    + destruct (make_tables_view df) as [view | e]; simpl;
        [| discriminate].
      intros [= <-]. simpl. repeat split. right.
      do 2 eexists. split; [apply append_dot_nonempty |].
      split; reflexivity.
    + intros [= <-]. simpl. auto 6.
Qed.

Lemma open_effect (active_cell : option active_cell_t) (view_mode : value)
    (full_data_raw current_view_rows : option (list record))
    (o : outputs) :
  fst (open_table active_cell view_mode full_data_raw current_view_rows)
  = Ok o ->
  table_name_out o = no_update
  /\ full_data_out o = no_update
  /\ load_status_out o = no_update
  /\ save_status_out o = no_update
  /\ (o = unchanged
      \/ exists n, truthy n = true
                   /\ full_data_raw <> None
                   /\ view_mode = VStr "tables"
                   /\ view_mode_out o = Update (VStr "columns")
                   /\ selected_table_out o = Update n).
Proof.
  unfold open_table.
  destruct active_cell as [c |];
    [| simpl; intros [= <-]; simpl; auto 6].
  destruct full_data_raw as [full |];
    [| simpl; intros [= <-]; simpl; auto 6].
  destruct (py_eq view_mode (VStr "tables")) eqn:Hmode;
    [| simpl; intros [= <-]; simpl; auto 6].
  apply py_eq_VStr in Hmode.
  destruct (match cell_column_id c with
            | Some c0 => c0 =? "__open__"
            | None => false
            end);
    [| simpl; intros [= <-]; simpl; auto 6].
  cbn [andb fst]. intros H.
  apply bind_Ok in H as (n & _ & H).
  destruct (truthy n) eqn:Hn; [| injection H as <-; simpl; auto 6].
  apply bind_Ok in H as (view & _ & H). injection H as <-. simpl.
  repeat split. right. exists n. repeat split; (assumption || discriminate).
Qed.

Lemma back_effect (view_mode : value) (table_name : option string)
    (full_data_raw : option (list record)) (o : outputs) :
  fst (back_to_tables view_mode table_name full_data_raw) = Ok o ->
  table_name_out o = no_update
  /\ full_data_out o = no_update
  /\ load_status_out o = no_update
  /\ save_status_out o = no_update
  /\ (o = unchanged
      \/ (view_mode_out o = Update (VStr "tables")
          /\ selected_table_out o = Update VNone)).
Proof.
  unfold back_to_tables.
  destruct full_data_raw as [full |];
    [| simpl; intros [= <-]; simpl; auto 6].
  destruct (py_eq view_mode (VStr "columns") && negb (missing table_name));
    [| simpl; intros [= <-]; simpl; auto 6].
  cbn [fst]. intros H. apply bind_Ok in H as (view & _ & H).
  injection H as <-. simpl. auto 7.
Qed.

Lemma save_effect (save_clicks : Z) (view_mode selected_table : value)
    (table_name : option string)
    (full_data_raw current_view_rows : option (list record)) :
  exists o msg,
    fst (save_changes insert_overwrite_table save_clicks view_mode
                      selected_table table_name full_data_raw
                      current_view_rows) = Ok o
    /\ save_status_out o = Update msg
    /\ load_status_out o = no_update
    /\ table_name_out o = no_update
    /\ view_mode_out o = no_update
    /\ selected_table_out o = no_update
    /\ (full_data_out o = no_update
        \/ exists f, full_data_out o = Update (Some f)
                     /\ missing table_name = false
                     /\ full_data_raw <> None).
Proof.
  unfold save_changes.
  destruct (missing table_name) eqn:Hname;
    [do 2 eexists; simpl; repeat (split; [reflexivity |]); now left |].
  destruct full_data_raw as [full |];
    [| do 2 eexists; simpl; repeat (split; [reflexivity |]); now left].
  unfold save_try.
  destruct (merge_edits _ _ _ _) as [full_df | e];
    [| do 2 eexists; simpl; repeat (split; [reflexivity |]); now left].
  destruct (insert_overwrite_table _ _) as [u | e];
    [| do 2 eexists; simpl; repeat (split; [reflexivity |]); now left].
  assert (Hdone : forall o : outputs,
             (exists msg, save_status_out o = Update msg)
             /\ load_status_out o = no_update
             /\ table_name_out o = no_update
             /\ view_mode_out o = no_update
             /\ selected_table_out o = no_update
             /\ (exists f, full_data_out o = Update (Some f)) ->
             exists o' msg,
               Ok o = Ok o'
               /\ save_status_out o' = Update msg
               /\ load_status_out o' = no_update
               /\ table_name_out o' = no_update
               /\ view_mode_out o' = no_update
               /\ selected_table_out o' = no_update
               /\ (full_data_out o' = no_update
                   \/ exists f, full_data_out o' = Update (Some f)
                                /\ false = false
                                /\ Some full <> None)).
  { intros o ((msg & Hs) & Hl & Ht & Hv & Hsel & (f & Hf)).
    exists o, msg. repeat (split; [assumption || reflexivity |]).
    right. exists f. repeat split; (assumption || discriminate). }
  destruct (py_eq view_mode (VStr "tables")).
  - destruct (make_tables_view full_df) as [[recs cols] | e];
      apply Hdone; simpl; eauto 10.
  - destruct (py_eq view_mode (VStr "columns") && truthy selected_table).
    + destruct (make_columns_view full_df selected_table)
        as [[recs cols] | e];
        apply Hdone; simpl; eauto 10.
    + apply Hdone; simpl; eauto 10.
Qed.

End ControllerEffects.

Lemma next_stores_unchanged (s : stores) : next_stores unchanged s = s.
Proof. now destruct s. Qed.

(** ** Invariants of the stores *)

(** X9: the controller keeps the stores consistent: from a state in which
    the data set name and the full data are present together, a table is
    selected exactly in the columns mode, the columns mode has the full
    data, and the mode is a view whenever the data is present, every
    invocation that emits leads to such a state again, whatever the
    trigger, the inputs and the storage do. *)
Theorem controller_keeps_consistent :
  forall (read_table : string -> result DataFrame)
         (insert_overwrite_table : string -> DataFrame -> result unit)
         (now : string) (triggered : option string)
         (load_clicks back_clicks save_clicks : Z)
         (active_cell : option active_cell_t)
         (catalog schema : option string)
         (current_view_rows : option (list record))
         (s : stores) (o : outputs),
    consistent s ->
    fst (main_controller read_table insert_overwrite_table now triggered
           load_clicks active_cell back_clicks save_clicks catalog schema
           (view_mode_store s) (selected_table_store s)
           (table_name_store s) (full_data_store s) current_view_rows)
    = Ok o ->
    consistent (next_stores o s).
Proof.
  intros read_table insert_overwrite_table now triggered load_clicks
         back_clicks save_clicks active_cell catalog schema
         current_view_rows [tn fd vm st] o Hc Hout.
  simpl in Hout. unfold main_controller in Hout.
  destruct triggered as [t |];
    [| injection Hout as <-; now rewrite next_stores_unchanged].
  destruct (t =? "load-btn").
  { apply load_effect in Hout
      as (Hm & Hs & _ & [[Hn Hf] | (n & f & Hne & Hn & Hf)]);
      unfold consistent, next_stores; rewrite Hm, Hs, Hn, Hf; simpl.
    - intuition (discriminate || congruence).
    - simpl in Hne. rewrite Hne.
      intuition (discriminate || congruence). }
  destruct (t =? "db-table").
  { apply open_effect in Hout
      as (Hn & Hf & _ & _ & [-> | (n & Ht & Hfd & _ & Hm & Hs)]).
    - now rewrite next_stores_unchanged.
    - unfold consistent, next_stores in *. rewrite Hn, Hf, Hm, Hs.
      simpl in *. intuition (discriminate || congruence). }
  destruct (t =? "back-to-tables-btn").
  { apply back_effect in Hout
      as (Hn & Hf & _ & _ & [-> | [Hm Hs]]).
    - now rewrite next_stores_unchanged.
    - unfold consistent, next_stores in *. rewrite Hn, Hf, Hm, Hs.
      simpl in *. intuition (discriminate || congruence). }
  destruct (t =? "save-btn").
  { destruct (save_effect insert_overwrite_table save_clicks vm st tn fd
                current_view_rows)
      as (o' & msg & Ho & _ & _ & Hn & Hm & Hs & Hf).
    rewrite Ho in Hout. injection Hout as ->.
    unfold consistent, next_stores in *. rewrite Hn, Hm, Hs.
    simpl in *.
    destruct Hf as [-> | (f & -> & Hname & Hfd)]; simpl.
    - exact Hc.
    - intuition (discriminate || congruence). }
  injection Hout as <-. now rewrite next_stores_unchanged.
Qed.

Lemma initial_stores_consistent : consistent initial_stores.
Proof.
  unfold consistent, initial_stores. simpl.
  intuition (discriminate || congruence).
Qed.

Lemma controller_keeps_consistent_witness :
  consistent (mkStores None None (VStr "tables") VNone).
Proof.
  apply (controller_keeps_consistent
           (fun _ => Raise (StorageError "offline"))
           (fun _ _ => Raise (StorageError "offline")) "12:00:00"
           (Some "load-btn") 1 0 0 None (Some "main") (Some "shop") None
           initial_stores
           (mkOut (Update []) (Update [])
                  (Update "Table: main.shop.data_dict")
                  (Update "Error loading main.shop.data_dict: offline")
                  (Update None) (Update None) (Update (VStr "tables"))
                  (Update VNone) no_update)).
  - unfold consistent, initial_stores. simpl.
    intuition (discriminate || congruence).
  - reflexivity.
Defined.

(** ** Storage calls *)

Section StorageCalls.

Variable read_table : string -> result DataFrame.
Variable insert_overwrite_table : string -> DataFrame -> result unit.
Variable now : string.

(** The calls of the save branch: none when it refuses, else one write of
    the merged frame. *)
Lemma save_calls (save_clicks : Z) (view_mode selected_table : value)
    (table_name : option string)
    (full_data_raw current_view_rows : option (list record)) :
  let calls :=
    snd (save_changes insert_overwrite_table save_clicks view_mode
                      selected_table table_name full_data_raw
                      current_view_rows) in
  (calls = [] /\ (missing table_name = true \/ full_data_raw = None))
  \/ exists name full merged,
      table_name = Some name /\ name <> ""
      /\ full_data_raw = Some full
      /\ merge_edits full current_view_rows view_mode selected_table
         = Ok merged
      /\ calls = [WriteTable name merged].
Proof.
  cbv zeta. unfold save_changes.
  destruct (missing table_name) eqn:Hname; [left; auto |].
  destruct full_data_raw as [full |]; [| left; auto].
  right. destruct table_name as [name |]; [| discriminate].
  simpl in Hname. apply String.eqb_neq in Hname.
  pose proof (merge_edits_rowwise full current_view_rows view_mode
                selected_table) as Hm.
  cbv zeta in Hm.
  exists name, full. eexists.
  split; [reflexivity |]. split; [assumption |].
  split; [reflexivity |]. split; [exact Hm |].
  unfold save_try, text. rewrite Hm.
  destruct (insert_overwrite_table _ _); [| reflexivity].
  destruct (py_eq view_mode (VStr "tables")).
  - destruct (make_tables_view _) as [[recs cols] | e]; reflexivity.
  - destruct (py_eq view_mode (VStr "columns") && truthy selected_table);
      [| reflexivity].
    destruct (make_columns_view _ _) as [[recs cols] | e]; reflexivity.
Qed.

(** X10: one invocation makes at most one storage call: a read, only for
    the load button with both inputs present, under the name composed
    from the trimmed inputs; or a write, only for the save button with a
    data set name and the full data present, of the frame the merge
    returns. Drill-down, back and unknown triggers never touch storage. *)
Theorem storage_call_discipline :
  forall (triggered : option string)
         (load_clicks back_clicks save_clicks : Z)
         (active_cell : option active_cell_t)
         (catalog schema : option string)
         (view_mode selected_table : value) (table_name : option string)
         (full_data_raw current_view_rows : option (list record)),
    let calls :=
      snd (main_controller read_table insert_overwrite_table now
             triggered load_clicks active_cell back_clicks save_clicks
             catalog schema view_mode selected_table table_name
             full_data_raw current_view_rows) in
    calls = []
    \/ (triggered = Some "load-btn"
        /\ exists c s,
            catalog = Some c /\ schema = Some s /\ c <> "" /\ s <> ""
            /\ calls
               = [ReadTable (strip c ++ "." ++ strip s ++ ".data_dict")])
    \/ (triggered = Some "save-btn"
        /\ exists name full merged,
            table_name = Some name /\ name <> ""
            /\ full_data_raw = Some full
            /\ merge_edits full current_view_rows view_mode
                           selected_table = Ok merged
            /\ calls = [WriteTable name merged]).
Proof.
  intros triggered load_clicks back_clicks save_clicks active_cell
         catalog schema view_mode selected_table table_name
         full_data_raw current_view_rows.
  cbv zeta. unfold main_controller.
  destruct triggered as [t |]; [| now left].
  destruct (String.eqb_spec t "load-btn") as [-> | _].
  { unfold load_dictionary.
    destruct catalog as [c |]; [| now left].
    destruct schema as [s |];
      [| left; simpl; now rewrite orb_true_r].
    simpl missing.
    destruct (String.eqb_spec c "") as [-> | Hc]; [now left |].
    destruct (String.eqb_spec s "") as [-> | Hs]; [now left |].
    right. left. split; [reflexivity |].
    exists c, s. repeat split; try assumption.
    cbn [orb text]. destruct (read_table _); reflexivity. }
  destruct (String.eqb_spec t "db-table") as [-> | _].
  { left. unfold open_table.
    destruct active_cell, full_data_raw; try reflexivity.
    now destruct (_ && _). }
  destruct (String.eqb_spec t "back-to-tables-btn") as [-> | _].
  { left. unfold back_to_tables.
    destruct full_data_raw; try reflexivity.
    now destruct (_ && _). }
  destruct (String.eqb_spec t "save-btn") as [-> | _]; [| now left].
  destruct (save_calls save_clicks view_mode selected_table table_name
              full_data_raw current_view_rows) as [[H _] | H].
  - now left.
  - right. right. split; [reflexivity | exact H].
Qed.

End StorageCalls.

(** ** The save branch *)

Section SaveFacts.

Variable read_table : string -> result DataFrame.
Variable insert_overwrite_table : string -> DataFrame -> result unit.
Variable now : string.

(** X11: a Save always emits: no exception leaves the callback, the save
    status is always set, and the load status, the data set name, the mode
    and the selected table are never changed. *)
Theorem save_always_emits :
  forall (load_clicks back_clicks save_clicks : Z)
         (active_cell : option active_cell_t)
         (catalog schema : option string)
         (view_mode selected_table : value) (table_name : option string)
         (full_data_raw current_view_rows : option (list record)),
    exists o msg,
      fst (main_controller read_table insert_overwrite_table now
             (Some "save-btn") load_clicks active_cell back_clicks
             save_clicks catalog schema view_mode selected_table
             table_name full_data_raw current_view_rows) = Ok o
      /\ save_status_out o = Update msg
      /\ load_status_out o = no_update
      /\ table_name_out o = no_update
      /\ view_mode_out o = no_update
      /\ selected_table_out o = no_update.
Proof.
  intros load_clicks back_clicks save_clicks active_cell catalog schema
         view_mode selected_table table_name full_data_raw
         current_view_rows.
  destruct (save_effect insert_overwrite_table save_clicks view_mode
              selected_table table_name full_data_raw current_view_rows)
    as (o & msg & Ho & Hs & Hl & Hn & Hm & Hsel & _).
  exists o, msg. repeat split; assumption.
Qed.

(** X12: the write comes before the view is rebuilt. When the write
    succeeds and the rebuilt projection raises, the data set has been
    written and the stored full data is replaced by the merged one, yet
    the status reads ["Error saving changes: ..."] and the displayed rows,
    the schema and the label are left as they were. *)
Theorem save_error_after_write :
  forall (load_clicks back_clicks save_clicks : Z)
         (active_cell : option active_cell_t)
         (catalog schema : option string)
         (view_mode selected_table : value) (table_name : string)
         (full_data_raw : list record)
         (current_view_rows : option (list record))
         (merged : DataFrame) (e : exn),
    table_name <> "" ->
    scoped_mode view_mode selected_table = true ->
    merge_edits full_data_raw current_view_rows view_mode selected_table
    = Ok merged ->
    insert_overwrite_table table_name merged = Ok tt ->
    same_mode_view view_mode selected_table merged = Raise e ->
    main_controller read_table insert_overwrite_table now
      (Some "save-btn") load_clicks active_cell back_clicks save_clicks
      catalog schema view_mode selected_table (Some table_name)
      (Some full_data_raw) current_view_rows
    = (Ok (mkOut no_update no_update no_update no_update no_update
                 (Update (Some (to_dict_records merged)))
                 no_update no_update
                 (Update ("Error saving changes: " ++ str_exn e))),
       [WriteTable table_name merged]).
Proof.
  intros load_clicks back_clicks save_clicks active_cell catalog schema
         view_mode selected_table table_name full_data_raw
         current_view_rows merged e Hname Hmode Hmerge Hwrite Hview.
  change (main_controller read_table insert_overwrite_table now
            (Some "save-btn") load_clicks active_cell back_clicks
            save_clicks catalog schema view_mode selected_table
            (Some table_name) (Some full_data_raw) current_view_rows)
    with (save_changes insert_overwrite_table save_clicks view_mode
            selected_table (Some table_name) (Some full_data_raw)
            current_view_rows).
  unfold save_changes, missing, text, save_try.
  apply String.eqb_neq in Hname. rewrite Hname, Hmerge, Hwrite.
  unfold same_mode_view, scoped_mode in *.
  destruct (py_eq view_mode (VStr "tables")).
  - now rewrite Hview.
  - cbn [orb] in Hmode. now rewrite Hmode, Hview.
Qed.

(** X13: after a successful Save in one of the two views, the stored full
    data is the frame that was written to storage, and the displayed rows
    and schema are the projection of that frame for the current view, not
    the rows as they were edited. *)
Theorem save_success :
  forall (load_clicks back_clicks save_clicks : Z)
         (active_cell : option active_cell_t)
         (catalog schema : option string)
         (view_mode selected_table : value) (table_name : string)
         (full_data_raw : list record)
         (current_view_rows : option (list record))
         (merged : DataFrame) (view : list record)
         (sch : list column_spec),
    table_name <> "" ->
    scoped_mode view_mode selected_table = true ->
    merge_edits full_data_raw current_view_rows view_mode selected_table
    = Ok merged ->
    insert_overwrite_table table_name merged = Ok tt ->
    same_mode_view view_mode selected_table merged = Ok (view, sch) ->
    main_controller read_table insert_overwrite_table now
      (Some "save-btn") load_clicks active_cell back_clicks save_clicks
      catalog schema view_mode selected_table (Some table_name)
      (Some full_data_raw) current_view_rows
    = (Ok (mkOut (Update view) (Update sch)
                 (Update (if py_eq view_mode (VStr "tables")
                          then "Tables in data dictionary: "
                               ++ rsplit1_head table_name
                          else "Columns for table: "
                               ++ py_str selected_table))
                 no_update no_update
                 (Update (Some (to_dict_records merged)))
                 no_update no_update
                 (Update ("Saved changes to " ++ table_name
                          ++ " (click #" ++ str_of_Z save_clicks ++ ")."))),
       [WriteTable table_name merged]).
Proof.
  intros load_clicks back_clicks save_clicks active_cell catalog schema
         view_mode selected_table table_name full_data_raw
         current_view_rows merged view sch Hname Hmode Hmerge Hwrite
         Hview.
  change (main_controller read_table insert_overwrite_table now
            (Some "save-btn") load_clicks active_cell back_clicks
            save_clicks catalog schema view_mode selected_table
            (Some table_name) (Some full_data_raw) current_view_rows)
    with (save_changes insert_overwrite_table save_clicks view_mode
            selected_table (Some table_name) (Some full_data_raw)
            current_view_rows).
  unfold save_changes, missing, text, save_try.
  apply String.eqb_neq in Hname. rewrite Hname, Hmerge, Hwrite.
  unfold same_mode_view, scoped_mode in *.
  destruct (py_eq view_mode (VStr "tables")).
  - now rewrite Hview.
  - cbn [orb] in Hmode. now rewrite Hmode, Hview.
Qed.

(** X14: from a consistent state a Save writes, if anything, a frame with
    the columns and the number of rows of the stored data set: the
    wholesale replacement of the merge is out of reach, and a Save never
    drops or adds a row. *)
Theorem save_keeps_shape_when_consistent :
  forall (load_clicks back_clicks save_clicks : Z)
         (active_cell : option active_cell_t)
         (catalog schema : option string)
         (current_view_rows : option (list record)) (s : stores),
    consistent s ->
    let calls :=
      snd (main_controller read_table insert_overwrite_table now
             (Some "save-btn") load_clicks active_cell back_clicks
             save_clicks catalog schema (view_mode_store s)
             (selected_table_store s) (table_name_store s)
             (full_data_store s) current_view_rows) in
    calls = []
    \/ exists name full merged,
        table_name_store s = Some name
        /\ full_data_store s = Some full
        /\ calls = [WriteTable name merged]
        /\ columns merged = columns (DataFrame_of_records full)
        /\ List.length (rows merged)
           = List.length (rows (DataFrame_of_records full)).
Proof.
  intros load_clicks back_clicks save_clicks active_cell catalog schema
         current_view_rows [tn fd vm st] (H1 & H2 & H3 & H4).
  simpl in *.
  change (main_controller read_table insert_overwrite_table now
            (Some "save-btn") load_clicks active_cell back_clicks
            save_clicks catalog schema vm st tn fd current_view_rows)
    with (save_changes insert_overwrite_table save_clicks vm st tn fd
                       current_view_rows).
  destruct (save_calls insert_overwrite_table save_clicks vm st tn fd
              current_view_rows)
    as [[H _] | (name & full & merged & -> & Hname & -> & Hm & Hc)].
  - now left.
  - right. exists name, full, merged.
    split; [reflexivity |]. split; [reflexivity |].
    split; [exact Hc |].
    assert (Hscoped : scoped_mode vm st = true).
    { apply scoped_mode_spec.
      destruct H4 as [-> | ->]; [discriminate | now left |].
      right. split; [reflexivity | now apply H2]. }
    pose proof (merge_edits_rowwise full current_view_rows vm st) as Hr.
    cbv zeta in Hr. rewrite Hscoped, Hm in Hr. injection Hr as ->.
    split; [reflexivity | apply length_map].
Qed.

End SaveFacts.

Lemma save_error_after_write_witness :
  main_controller (fun _ => Raise (StorageError "offline"))
    (fun _ _ => Ok tt) "12:00:00"
    (Some "save-btn") 0 None 0 1 None None (VStr "columns")
    (VStr "orders") (Some "main.shop.data_dict") (Some names_only)
    (Some [])
  = (Ok (mkOut no_update no_update no_update no_update no_update
               (Update (Some names_only)) no_update no_update
               (Update "Error saving changes: 'parent'")),
     [WriteTable "main.shop.data_dict" (DataFrame_of_records names_only)]).
Proof.
  apply (save_error_after_write (fun _ => Raise (StorageError "offline"))
           (fun _ _ => Ok tt) "12:00:00" 0 0 1 None None None
           (VStr "columns") (VStr "orders") "main.shop.data_dict"
           names_only (Some []) (DataFrame_of_records names_only)
           (KeyError "parent")).
  - discriminate.
  - reflexivity.
  - reflexivity.
  - reflexivity.
  - reflexivity.
Defined.

Lemma save_success_witness :
  main_controller (fun _ => Raise (StorageError "offline"))
    (fun _ _ => Ok tt) "12:00:00"
    (Some "save-btn") 0 None 0 3 None None (VStr "columns")
    (VStr "orders") (Some "main.shop.data_dict") (Some orders_dict)
    (Some [edited_id])
  = (Ok (mkOut (Update [edited_id])
               (Update [mkCol "Column" "name" false "text" "input";
                        mkCol "Description" "description" true "text"
                              "input";
                        mkCol "Table" "parent" false "text" "input";
                        mkCol "Type" "type" false "text" "input"])
               (Update "Columns for table: orders")
               no_update no_update
               (Update (Some (to_dict_records orders_saved)))
               no_update no_update
               (Update "Saved changes to main.shop.data_dict (click #3).")),
     [WriteTable "main.shop.data_dict" orders_saved]).
Proof.
  apply (save_success (fun _ => Raise (StorageError "offline"))
           (fun _ _ => Ok tt) "12:00:00" 0 0 3 None None None
           (VStr "columns") (VStr "orders") "main.shop.data_dict"
           orders_dict (Some [edited_id]) orders_saved).
  - discriminate.
  - reflexivity.
  - reflexivity.
  - reflexivity.
  - reflexivity.
Defined.

Lemma save_keeps_shape_when_consistent_witness :
  snd (main_controller (fun _ => Raise (StorageError "offline"))
         (fun _ _ => Ok tt) "12:00:00"
         (Some "save-btn") 0 None 0 1 None None (VStr "tables") VNone
         (Some "main.shop.data_dict") (Some orders_dict) (Some []))
  = []
  \/ exists name full merged,
      Some "main.shop.data_dict" = Some name
      /\ Some orders_dict = Some full
      /\ snd (main_controller (fun _ => Raise (StorageError "offline"))
                (fun _ _ => Ok tt) "12:00:00"
                (Some "save-btn") 0 None 0 1 None None (VStr "tables")
                VNone (Some "main.shop.data_dict") (Some orders_dict)
                (Some []))
         = [WriteTable name merged]
      /\ columns merged = columns (DataFrame_of_records full)
      /\ List.length (rows merged)
         = List.length (rows (DataFrame_of_records full)).
Proof.
  apply (save_keeps_shape_when_consistent
           (fun _ => Raise (StorageError "offline")) (fun _ _ => Ok tt)
           "12:00:00" 0 0 1 None None None (Some [])
           (mkStores (Some "main.shop.data_dict") (Some orders_dict)
                     (VStr "tables") VNone)).
  unfold consistent. simpl. intuition (discriminate || congruence).
Defined.

(** ** Labels and navigation *)

Lemma string_app_assoc (a b c : string) : (a ++ b) ++ c = a ++ b ++ c.
Proof. induction a as [| x a IH]; simpl; [reflexivity | now rewrite IH]. Qed.

Lemma rsplit_dot_no_dot (t : string) :
  no_dot t = true -> rsplit_dot t = (None, t).
Proof.
  induction t as [| c t IH]; simpl; [reflexivity |].
  intros H. apply andb_true_iff in H as [Hc Ht].
  rewrite IH by assumption. apply negb_true_iff in Hc. now rewrite Hc.
Qed.

Lemma rsplit_dot_app (s t : string) :
  no_dot t = true -> rsplit_dot (s ++ "." ++ t) = (Some s, t).
Proof.
  intros Ht. induction s as [| c s IH].
  - change ("" ++ "." ++ t) with (String "."%char t).
    cbn [rsplit_dot]. now rewrite rsplit_dot_no_dot.
  - change (String c s ++ "." ++ t) with (String c (s ++ "." ++ t)).
    cbn [rsplit_dot]. now rewrite IH.
Qed.

(** The data set name Load composes splits back into catalog and schema. *)
Lemma rsplit1_head_data_dict (base : string) :
  rsplit1_head (base ++ ".data_dict") = base.
Proof.
  unfold rsplit1_head.
  change (base ++ ".data_dict") with (base ++ "." ++ "data_dict").
  now rewrite rsplit_dot_app.
Qed.

Section Navigation.

Variable read_table : string -> result DataFrame.
Variable insert_overwrite_table : string -> DataFrame -> result unit.
Variable now : string.

(** X15: Back restores what Load showed. After a Load that read a
    well-formed frame (one with rows, or with no column) and emitted, Back
    from the columns view with the stores that Load wrote emits the rows,
    the schema and the label of that Load, the tables mode and no selected
    table. *)
Theorem back_restores_loaded_view :
  forall (load_clicks back_clicks save_clicks : Z)
         (active_cell active_cell' : option active_cell_t)
         (c s : string) (df : DataFrame)
         (view_mode0 selected_table0 selected_table : value)
         (table_name0 : option string)
         (full_data0 current_view_rows current_view_rows'
            : option (list record)),
    c <> "" -> s <> "" ->
    let name := strip c ++ "." ++ strip s ++ ".data_dict" in
    read_table name = Ok df ->
    well_formed df ->
    (rows df = [] -> columns df = []) ->
    let load :=
      fst (main_controller read_table insert_overwrite_table now
             (Some "load-btn") load_clicks active_cell back_clicks
             save_clicks (Some c) (Some s) view_mode0 selected_table0
             table_name0 full_data0 current_view_rows) in
    let back :=
      fst (main_controller read_table insert_overwrite_table now
             (Some "back-to-tables-btn") load_clicks active_cell'
             back_clicks save_clicks (Some c) (Some s) (VStr "columns")
             selected_table (Some name) (Some (to_dict_records df))
             current_view_rows') in
    forall o, load = Ok o ->
              table_name_out o = Update (Some name)
              /\ full_data_out o = Update (Some (to_dict_records df))
              /\ exists o',
                  back = Ok o'
                  /\ data_out o' = data_out o
                  /\ columns_out o' = columns_out o
                  /\ label_out o' = label_out o
                  /\ view_mode_out o' = Update (VStr "tables")
                  /\ selected_table_out o' = Update VNone.
Proof.
  intros load_clicks back_clicks save_clicks active_cell active_cell' c s
         df view_mode0 selected_table0 selected_table table_name0
         full_data0 current_view_rows current_view_rows' Hc Hs name
         Hread Hwf Hnil load back o Ho.
  assert (Hload : load
                  = (view <- make_tables_view df ;;
                     Ok (mkOut (Update (fst view)) (Update (snd view))
                           (Update ("Tables in data dictionary: "
                                    ++ strip c ++ "." ++ strip s))
                           (Update ("Loaded " ++ name ++ " ("
                                    ++ str_of_nat (df_len df)
                                    ++ " rows) at " ++ now ++ "."))
                           (Update (Some name))
                           (Update (Some (to_dict_records df)))
                           (Update (VStr "tables")) (Update VNone)
                           no_update))).
  { subst load.
    change (main_controller read_table insert_overwrite_table now
              (Some "load-btn") load_clicks active_cell back_clicks
              save_clicks (Some c) (Some s) view_mode0 selected_table0
              table_name0 full_data0 current_view_rows)
      with (load_dictionary read_table now (Some c) (Some s)).
    unfold load_dictionary, missing, text.
    apply String.eqb_neq in Hc, Hs. rewrite Hc, Hs. cbn [orb].
    fold name. now rewrite Hread. }
  rewrite Hload in Ho.
  destruct (make_tables_view df) as [[view sch] | e'] eqn:Hview;
    [| discriminate].
  cbn [bind fst snd] in Ho. injection Ho as <-.
  cbn [table_name_out full_data_out data_out columns_out label_out].
  split; [reflexivity |]. split; [reflexivity |].
  assert (Hrt : DataFrame_of_records (to_dict_records df) = df).
  { apply records_roundtrip; try assumption. intros E.
    destruct (proj2 (tables_view_exact df) _ _ Hview); tauto. }
  assert (Hback : back
                  = (view <- make_tables_view df ;;
                     Ok (mkOut (Update (fst view)) (Update (snd view))
                           (Update ("Tables in data dictionary: "
                                    ++ strip c ++ "." ++ strip s))
                           no_update no_update no_update
                           (Update (VStr "tables")) (Update VNone)
                           no_update))).
  { subst back.
    change (main_controller read_table insert_overwrite_table now
              (Some "back-to-tables-btn") load_clicks active_cell'
              back_clicks save_clicks (Some c) (Some s) (VStr "columns")
              selected_table (Some name) (Some (to_dict_records df))
              current_view_rows')
      with (back_to_tables (VStr "columns") (Some name)
                           (Some (to_dict_records df))).
    unfold back_to_tables, missing, text.
    assert (Hne : (name =? "") = false)
      by (subst name; apply append_dot_nonempty).
    rewrite Hne. cbn [py_eq String.eqb Ascii.eqb Bool.eqb andb negb fst].
    rewrite Hrt.
    assert (Hbase : rsplit1_head name = strip c ++ "." ++ strip s).
    { subst name.
      transitivity (rsplit1_head
                      ((strip c ++ "." ++ strip s) ++ ".data_dict"));
        [| apply rsplit1_head_data_dict].
      f_equal. rewrite string_app_assoc. reflexivity. }
    now rewrite Hbase. }
  rewrite Hback, Hview. cbn [bind fst snd].
  eexists. split; [reflexivity |]. repeat split.
Qed.

(** X16: a drill-down on the action marker of row [i] of the tables view
    emits what [make_columns_view] returns for the full data set and the
    name of that row, rows and schema, with the columns mode and the name
    as the selected table; the rows all are rows of the full data set with
    that name as parent; the data set name, the full data and both
    statuses are left alone and storage is not touched. *)
Theorem open_row_shows_columns :
  forall (load_clicks back_clicks save_clicks : Z)
         (catalog schema : option string) (selected_table : value)
         (table_name : option string) (full rows_shown : list record)
         (i : Z) (row : record),
    (0 <= i)%Z ->
    nth_error rows_shown (Z.to_nat i) = Some row ->
    truthy (get "name" row) = true ->
    in_columns "parent" (DataFrame_of_records full) = true ->
    exists view sch,
      make_columns_view (DataFrame_of_records full) (get "name" row)
      = Ok (view, sch)
      /\ main_controller read_table insert_overwrite_table now
           (Some "db-table") load_clicks
           (Some (mkCell (Some i) (Some "__open__"))) back_clicks
           save_clicks catalog schema (VStr "tables") selected_table
           table_name (Some full) (Some rows_shown)
         = (Ok (mkOut (Update view) (Update sch)
                      (Update ("Columns for table: "
                               ++ py_str (get "name" row)))
                      no_update no_update no_update
                      (Update (VStr "columns"))
                      (Update (get "name" row)) no_update),
            [])
      /\ forall r, In r view ->
                   In r (rows (DataFrame_of_records full))
                   /\ py_eq (cell "parent" r) (get "name" row) = true.
Proof.
  intros load_clicks back_clicks save_clicks catalog schema
         selected_table table_name full rows_shown i row Hi Hrow Hname
         Hparent.
  change (main_controller read_table insert_overwrite_table now
            (Some "db-table") load_clicks
            (Some (mkCell (Some i) (Some "__open__"))) back_clicks
            save_clicks catalog schema (VStr "tables") selected_table
            table_name (Some full) (Some rows_shown))
    with (open_table (Some (mkCell (Some i) (Some "__open__")))
                     (VStr "tables") (Some full) (Some rows_shown)).
  destruct (make_columns_view (DataFrame_of_records full)
              (get "name" row)) as [[view sch] | e] eqn:Hview.
  2: { exfalso. unfold make_columns_view in Hview.
       rewrite (getitem_Ok "parent") in Hview by (now apply mem_In).
       destruct (in_columns "type" (DataFrame_of_records full)) eqn:Ht.
       - rewrite (getitem_Ok "type") in Hview by (now apply mem_In).
         discriminate.
       - discriminate. }
  exists view, sch. split; [reflexivity |]. split.
  - unfold open_table.
    cbn [py_eq cell_column_id cell_row String.eqb Ascii.eqb Bool.eqb
         andb].
    assert (Hlen : (i < Z.of_nat (List.length rows_shown))%Z).
    { assert (Z.to_nat i < List.length rows_shown)%nat
        by (apply nth_error_Some; congruence).
      lia. }
    destruct rows_shown as [| r0 rest]; [simpl in Hlen; lia |].
    apply Z.ltb_lt in Hlen. rewrite Hlen.
    unfold list_getitem.
    assert (Hneg : (i <? 0)%Z = false) by (apply Z.ltb_ge; lia).
    rewrite Hneg, Hneg, Hrow. cbn [bind]. rewrite Hname, Hview.
    reflexivity.
  - intros r Hr.
    apply columns_view_rows in Hview as [_ ->].
    apply filter_In in Hr as [Hr Hb]. split; [assumption |].
    destruct (in_columns "type" (DataFrame_of_records full));
      [| assumption].
    now apply andb_true_iff in Hb as [Hb _].
Qed.

(** X17: the row index is only checked against the number of displayed
    rows from above: a negative index counts from the end of the displayed
    rows, and one below minus their number raises [IndexError] out of the
    callback. *)
Theorem open_row_negative_index :
  forall (load_clicks back_clicks save_clicks : Z)
         (catalog schema : option string) (selected_table : value)
         (table_name : option string) (full rows_shown : list record)
         (i : Z),
    (i < 0)%Z ->
    rows_shown <> [] ->
    let n := Z.of_nat (List.length rows_shown) in
    let opened := fun j =>
      main_controller read_table insert_overwrite_table now
        (Some "db-table") load_clicks
        (Some (mkCell (Some j) (Some "__open__"))) back_clicks
        save_clicks catalog schema (VStr "tables") selected_table
        table_name (Some full) (Some rows_shown) in
    ((0 <= i + n)%Z -> opened i = opened (i + n)%Z)
    /\ ((i + n < 0)%Z ->
        opened i = (Raise (IndexError "list index out of range"), [])).
Proof.
  intros load_clicks back_clicks save_clicks catalog schema
         selected_table table_name full rows_shown i Hi Hrows n opened.
  assert (Hopen : forall j,
             (j < n)%Z ->
             opened j
             = (table_name_in_dict <-
                  (row <- list_getitem rows_shown j ;;
                   Ok (get "name" row)) ;;
                if truthy table_name_in_dict then
                  view <- make_columns_view (DataFrame_of_records full)
                                            table_name_in_dict ;;
                  Ok (mkOut (Update (fst view)) (Update (snd view))
                            (Update ("Columns for table: "
                                     ++ py_str table_name_in_dict))
                            no_update no_update no_update
                            (Update (VStr "columns"))
                            (Update table_name_in_dict) no_update)
                else Ok unchanged,
                [])).
  { intros j Hj. subst opened. cbv beta.
    change (main_controller read_table insert_overwrite_table now
              (Some "db-table") load_clicks
              (Some (mkCell (Some j) (Some "__open__"))) back_clicks
              save_clicks catalog schema (VStr "tables") selected_table
              table_name (Some full) (Some rows_shown))
      with (open_table (Some (mkCell (Some j) (Some "__open__")))
                       (VStr "tables") (Some full) (Some rows_shown)).
    unfold open_table.
    cbn [py_eq cell_column_id cell_row String.eqb Ascii.eqb Bool.eqb
         andb].
    destruct rows_shown as [| r0 rest]; [contradiction |].
    apply Z.ltb_lt in Hj. fold n. now rewrite Hj. }
  assert (Hn : (0 < n)%Z)
    by (subst n; destruct rows_shown; [contradiction | simpl; lia]).
  split.
  - intros Hge. rewrite !Hopen by lia. unfold list_getitem. fold n.
    assert (H1 : (i <? 0)%Z = true) by (apply Z.ltb_lt; lia).
    assert (H2 : (i + n <? 0)%Z = false) by (apply Z.ltb_ge; lia).
    now rewrite H1, H2, H2.
  - intros Hlt. rewrite Hopen by lia. unfold list_getitem. fold n.
    assert (H1 : (i <? 0)%Z = true) by (apply Z.ltb_lt; lia).
    assert (H2 : (i + n <? 0)%Z = true) by (apply Z.ltb_lt; lia).
    now rewrite H1, H2.
Qed.

End Navigation.

Lemma back_restores_loaded_view_witness :
  exists o o',
    fst (main_controller
           (fun _ => Ok (DataFrame_of_records orders_dict))
           (fun _ _ => Ok tt) "12:00:00" (Some "load-btn") 1 None 0 0
           (Some " main") (Some "shop ") VNone VNone None None None)
    = Ok o
    /\ fst (main_controller
              (fun _ => Ok (DataFrame_of_records orders_dict))
              (fun _ _ => Ok tt) "12:00:00" (Some "back-to-tables-btn") 1
              None 0 0 (Some " main") (Some "shop ") (VStr "columns")
              (VStr "orders") (Some "main.shop.data_dict")
              (Some orders_dict) None)
       = Ok o'
    /\ data_out o' = data_out o
    /\ columns_out o' = columns_out o
    /\ label_out o' = Update "Tables in data dictionary: main.shop"
    /\ label_out o = Update "Tables in data dictionary: main.shop".
Proof.
  edestruct (back_restores_loaded_view
               (fun _ => Ok (DataFrame_of_records orders_dict))
               (fun _ _ => Ok tt) "12:00:00" 1 0 0 None None " main"
               "shop " (DataFrame_of_records orders_dict) VNone VNone
               (VStr "orders") None None None None)
    as (_ & _ & o' & Hb & Hd & Hc & Hl & _).
  - discriminate.
  - discriminate.
  - reflexivity.
  - split; [repeat constructor; simpl; intuition discriminate
           | repeat constructor].
  - discriminate.
  - reflexivity.
  - eexists. exists o'. split; [reflexivity |].
    split; [exact Hb |]. split; [exact Hd |]. split; [exact Hc |].
    split; [exact Hl | reflexivity].
Defined.

Lemma open_row_shows_columns_witness :
  exists view sch,
    make_columns_view (DataFrame_of_records orders_dict) (VStr "orders")
    = Ok (view, sch)
    /\ main_controller (fun _ => Raise (StorageError "offline"))
      (fun _ _ => Ok tt) "12:00:00" (Some "db-table") 1
      (Some (mkCell (Some 0%Z) (Some "__open__"))) 0 0 None None
      (VStr "tables") VNone (Some "main.shop.data_dict")
      (Some orders_dict)
      (Some [dict_set "__open__" (VStr "Open")
               (entry (VStr "orders") (VStr "catalog.schema")
                      (VStr "table") (VStr ""))])
    = (Ok (mkOut (Update view) (Update sch)
                 (Update ("Columns for table: "
                          ++ py_str (VStr "orders")))
                 no_update no_update no_update (Update (VStr "columns"))
                 (Update (VStr "orders")) no_update),
       [])
    /\ forall r, In r view ->
                 In r (rows (DataFrame_of_records orders_dict))
                 /\ py_eq (cell "parent" r) (VStr "orders") = true.
Proof.
  apply (open_row_shows_columns (fun _ => Raise (StorageError "offline"))
           (fun _ _ => Ok tt) "12:00:00" 1 0 0 None None VNone
           (Some "main.shop.data_dict") orders_dict
           [dict_set "__open__" (VStr "Open")
              (entry (VStr "orders") (VStr "catalog.schema")
                     (VStr "table") (VStr ""))]
           0%Z
           (dict_set "__open__" (VStr "Open")
              (entry (VStr "orders") (VStr "catalog.schema")
                     (VStr "table") (VStr "")))).
  - lia.
  - reflexivity.
  - reflexivity.
  - reflexivity.
Defined.

Lemma open_row_negative_index_witness :
  main_controller (fun _ => Raise (StorageError "offline"))
    (fun _ _ => Ok tt) "12:00:00" (Some "db-table") 1
    (Some (mkCell (Some (-3)%Z) (Some "__open__"))) 0 0 None None
    (VStr "tables") VNone (Some "main.shop.data_dict")
    (Some orders_dict) (Some orders_dict)
  = (Raise (IndexError "list index out of range"), []).
Proof.
  refine (proj2 (open_row_negative_index
                   (fun _ => Raise (StorageError "offline"))
                   (fun _ _ => Ok tt) "12:00:00" 1 0 0 None None VNone
                   (Some "main.shop.data_dict") orders_dict orders_dict
                   (-3)%Z _ _) _).
  - lia.
  - discriminate.
  - simpl. lia.
Defined.

(** ** The pager outside its usual range *)

(** X18: whatever the current page and the page size, Next never goes
    past the last page and Previous never below the first; without a
    trigger or with an unknown one the page stays; a page size of zero or
    less gives one page; and Previous undoes Next from any page before the
    last one. *)
Theorem change_page_clamps :
  forall (prev_clicks next_clicks : Z) (rows : option (list record))
         (current_page page_size : Z),
    let pages := total_pages rows page_size in
    let go := fun t p =>
      fst (change_page t prev_clicks next_clicks rows p page_size) in
    (go (Some "next-page") current_page <= pages - 1)%Z
    /\ (0 <= go (Some "prev-page") current_page)%Z
    /\ go None current_page = current_page
    /\ (forall t, t <> "db-table" -> t <> "next-page" ->
                  t <> "prev-page" ->
                  go (Some t) current_page = current_page)
    /\ ((page_size <= 0)%Z -> pages = 1%Z)
    /\ ((0 <= current_page < pages - 1)%Z ->
        go (Some "prev-page") (go (Some "next-page") current_page)
        = current_page)
    /\ (current_page = (pages - 1)%Z ->
        go (Some "next-page") current_page = current_page).
Proof.
  intros prev_clicks next_clicks rows current_page page_size pages go.
  subst go. unfold change_page. fold pages. simpl.
  repeat split; try lia.
  - intros t H1 H2 H3.
    apply String.eqb_neq in H1, H2, H3. now rewrite H1, H2, H3.
  - intros Hsize. subst pages. unfold total_pages.
    destruct (Z.eqb_spec page_size 0) as [| Hne]; [reflexivity |].
    unfold ceil_div.
    assert (H0 : (0 <= total_rows rows)%Z)
      by (destruct rows; simpl; lia).
    assert (Hq : (0 <= - total_rows rows / page_size)%Z).
    { rewrite <- (Z.opp_involutive page_size), Z.div_opp_opp by lia.
      apply Z.div_pos; lia. }
    lia.
Qed.

(** ** The load branch *)

(** X19: a Load never keeps stale data. Whenever it emits, either the
    displayed rows, the schema, the data set name and the full data are
    all cleared (an input was missing or the read failed), or they are the
    Tables projection, its schema, the composed name and the records of
    the frame just read; the mode is reset to tables, the selected table
    to [None], and the save status is left alone. *)
Theorem load_replaces_state :
  forall (read_table : string -> result DataFrame)
         (insert_overwrite_table : string -> DataFrame -> result unit)
         (now : string) (load_clicks back_clicks save_clicks : Z)
         (active_cell : option active_cell_t)
         (catalog schema : option string)
         (view_mode selected_table : value) (table_name : option string)
         (full_data_raw current_view_rows : option (list record))
         (o : outputs),
    fst (main_controller read_table insert_overwrite_table now
           (Some "load-btn") load_clicks active_cell back_clicks
           save_clicks catalog schema view_mode selected_table table_name
           full_data_raw current_view_rows) = Ok o ->
    view_mode_out o = Update (VStr "tables")
    /\ selected_table_out o = Update VNone
    /\ save_status_out o = no_update
    /\ ((data_out o = Update [] /\ columns_out o = Update []
         /\ table_name_out o = Update None
         /\ full_data_out o = Update None)
        \/ exists name df view sch,
            name = strip (text catalog) ++ "." ++ strip (text schema)
                   ++ ".data_dict"
            /\ read_table name = Ok df
            /\ make_tables_view df = Ok (view, sch)
            /\ data_out o = Update view
            /\ columns_out o = Update sch
            /\ table_name_out o = Update (Some name)
            /\ full_data_out o = Update (Some (to_dict_records df))).
Proof.
  intros read_table insert_overwrite_table now load_clicks back_clicks
         save_clicks active_cell catalog schema view_mode selected_table
         table_name full_data_raw current_view_rows o.
  change (main_controller read_table insert_overwrite_table now
            (Some "load-btn") load_clicks active_cell back_clicks
            save_clicks catalog schema view_mode selected_table
            table_name full_data_raw current_view_rows)
    with (load_dictionary read_table now catalog schema).
  unfold load_dictionary.
  destruct (missing catalog || missing schema).
  - simpl. intros [= <-]. simpl. auto 8.
  - destruct (read_table _) as [df | e] eqn:Hread; simpl.
    + destruct (make_tables_view df) as [[view sch] | e] eqn:Hview;
        simpl; [| discriminate].
      intros [= <-]. simpl. repeat split. right.
      exists (strip (text catalog) ++ "." ++ strip (text schema)
              ++ ".data_dict"), df, view, sch.
      repeat split; assumption.
    + intros [= <-]. simpl. auto 8.
Qed.

Lemma load_replaces_state_witness :
  view_mode_out
    (mkOut (Update []) (Update [])
           (Update "Table: main.shop.data_dict")
           (Update "Error loading main.shop.data_dict: offline")
           (Update None) (Update None) (Update (VStr "tables"))
           (Update VNone) no_update)
  = Update (VStr "tables").
Proof.
  refine (proj1 (load_replaces_state
                   (fun _ => Raise (StorageError "offline"))
                   (fun _ _ => Ok tt) "12:00:00" 1 0 0 None
                   (Some "main") (Some "shop") (VStr "columns")
                   (VStr "orders") (Some "old.name.data_dict")
                   (Some orders_dict) None _ _)).
  reflexivity.
Defined.
